(** * LocalDevice (Dragonboard): capture session and 12-bit frame unpacker

    Shallow embedding of [sdk/lib/dragonboard/local_device.cpp].

    - Machine integers are [Z] with the wrap-around of their C type written
      out ([u16], [u32], [size_t]).
    - Raw pointers ([pdata], [buffer], [address], [data]) are views of flat
      memory: total functions from an element offset to the cell found
      there.  The source performs no bounds check on them, and neither does
      the model.
    - The kernel driver is an oracle answering every system call from the
      history of calls made so far; the session threads [World] (the
      [ImplData] fields, [errno] and that history) through a small
      state-and-failure monad.
    - Whether [m_implData->videoBuffers] is null, allocated or already
      released is read off the history ([calloc] and [free] are calls of
      it); releasing the table a second time is undefined in C and has no
      result in the model. *)

From Stdlib Require Import ZArith List Lia Bool String.
From Stdlib.Strings Require Import Byte.
From stdpp Require Import base functions list.

Open Scope Z_scope.

(** ** Machine integers *)

Definition u16 (x : Z) : Z := x mod 2^16.
Definition u32 (x : Z) : Z := x mod 2^32.

(** Conversion of an [unsigned int] to [int] (two's complement). *)
Definition to_int (x : Z) : Z := (x + 2^31) mod 2^32 - 2^31.

(** [*(pdata + i)] read through an [unsigned char *]. *)
Definition byte_val (b : byte) : Z := Z.of_N (Byte.to_N b).

(** ** Frame unpacker (the two loops of [LocalDevice::getFrame]) *)

(** [(((unsigned short)b0) << 4) | (((unsigned short)b2) & 0x000F)],
    stored into a [uint16_t] cell. *)
Definition pixel_even (b0 b2 : byte) : Z :=
  u16 (Z.lor (Z.shiftl (byte_val b0) 4) (Z.land (byte_val b2) 0x000F)).

(** [(((unsigned short)b1) << 4) | ((((unsigned short)b2) & 0x00F0) >> 4)],
    stored into a [uint16_t] cell. *)
Definition pixel_odd (b1 b2 : byte) : Z :=
  u16 (Z.lor (Z.shiftl (byte_val b1) 4)
             (Z.shiftr (Z.land (byte_val b2) 0x00F0) 4)).

(** The locals of [getFrame] that the unpacking loops read and write:
    [int i, j], [unsigned int offset[2]] and the caller's [buffer]. *)
Record unpack_state : Type := mk_unpack_state {
  us_i : Z;
  us_j : Z;
  us_offset0 : Z;
  us_offset1 : Z;
  us_buffer : Z → Z
}.

(** [(int)(height * width * 3 / 2)], computed in [unsigned int]. *)
Definition loop_bound (width height : Z) : Z :=
  to_int (u32 (u32 (height * width) * 3) / 2).

(** Body of the [width == 668] loop, including its [i += 3]. *)
Definition body_raw (pdata : Z → byte) (s : unpack_state) : unpack_state :=
  let i := us_i s in
  let j := if negb (i =? 0) && (Z.rem i (336 * 3) =? 0)
           then us_j s - 4 else us_j s in
  let buffer := <[ j := pixel_even (pdata i) (pdata (i + 2)) ]> (us_buffer s) in
  let j := j + 1 in
  let buffer := <[ j := pixel_odd (pdata (i + 1)) (pdata (i + 2)) ]> buffer in
  let j := j + 1 in
  {| us_i := i + 3; us_j := j;
     us_offset0 := us_offset0 s; us_offset1 := us_offset1 s;
     us_buffer := buffer |}.

(** [offset_idx = ((j / width) % 2)]: [j] is converted to [unsigned int]. *)
Definition offset_idx (width j : Z) : Z := (u32 j / width) mod 2.

(** Body of the loop taken for every other width, including its [i += 3]. *)
Definition body_depth_ir (width : Z) (pdata : Z → byte) (s : unpack_state)
  : unpack_state :=
  let i := us_i s in
  let idx := offset_idx width (us_j s) in
  let off := if idx =? 0 then us_offset0 s else us_offset1 s in
  let buffer := <[ off := pixel_even (pdata i) (pdata (i + 2)) ]> (us_buffer s) in
  let off := u32 (off + 1) in
  let buffer := <[ off := pixel_odd (pdata (i + 1)) (pdata (i + 2)) ]> buffer in
  let off := u32 (off + 1) in
  {| us_i := i + 3; us_j := us_j s + 2;
     us_offset0 := if idx =? 0 then off else us_offset0 s;
     us_offset1 := if idx =? 0 then us_offset1 s else off;
     us_buffer := buffer |}.

(** [for (i = 0; i < bound; i += 3) body]: the guard is tested before every
    iteration; [fuel] only bounds the recursion. *)
Fixpoint for_loop (fuel : nat) (bound : Z)
    (body : unpack_state → unpack_state) (s : unpack_state) : unpack_state :=
  match fuel with
  | O => s
  | S fuel' =>
      if us_i s <? bound then for_loop fuel' bound body (body s) else s
  end.

(** Locals on entry to the loops: [j = 0], [offset[0] = 0],
    [offset[1] = height * width / 2], and [i = 0] from the loop header. *)
Definition unpack_init (width height : Z) (buffer : Z → Z) : unpack_state :=
  {| us_i := 0; us_j := 0;
     us_offset0 := 0; us_offset1 := u32 (height * width) / 2;
     us_buffer := buffer |}.

(** Lines 467-505 of [getFrame]. *)
Definition unpack (width height : Z) (pdata : Z → byte) (buffer : Z → Z)
  : unpack_state :=
  let bound := loop_bound width height in
  if width =? 668
  then for_loop (Z.to_nat bound) bound (body_raw pdata)
                (unpack_init width height buffer)
  else for_loop (Z.to_nat bound) bound (body_depth_ir width pdata)
                (unpack_init width height buffer).

(** [k] successive executions of a loop body. *)
Fixpoint iterate (k : nat) (body : unpack_state → unpack_state)
    (s : unpack_state) : unpack_state :=
  match k with
  | O => s
  | S k' => body (iterate k' body s)
  end.

(** Number of iterations of [for (i = 0; i < bound; i += 3)]. *)
Definition trip_count (bound : Z) : Z := (bound + 2) / 3.

(** ** Data model of the capture session *)

(** The values of [aditof::Status] this file returns. *)
Inductive Status : Type := OK | BUSY | GENERIC_ERROR.

(** [aditof::FrameDetails] and its calibration data, with the fields this
    file assigns; the calibration values it assigns are the numbers 0
    and 1. *)
Record FrameCalData : Type := mk_FrameCalData {
  offset : Z;
  gain : Z
}.

Record FrameDetails : Type := mk_FrameDetails {
  width : Z;
  height : Z;
  type : string;
  cal_data : FrameCalData
}.

(** [struct buffer]. *)
Record buffer : Type := mk_buffer {
  b_start : Z;
  b_length : Z
}.

(** The two fields of [struct v4l2_plane] the code reads back. *)
Record v4l2_plane : Type := mk_plane {
  plane_length : Z;
  plane_mem_offset : Z
}.

(** [LocalDevice::ImplData]; of [planes[8]] only entry 0 is ever read. *)
Record ImplData : Type := mk_ImplData {
  fd : Z;
  sfd : Z;
  videoBuffers : list buffer;
  nVideoBuffers : Z;
  planes : v4l2_plane;
  frameDetails : FrameDetails;
  started : bool
}.

Definition set_videoBuffers (v : list buffer) (d : ImplData) : ImplData :=
  mk_ImplData (fd d) (sfd d) v (nVideoBuffers d) (planes d)
              (frameDetails d) (started d).
Definition set_nVideoBuffers (n : Z) (d : ImplData) : ImplData :=
  mk_ImplData (fd d) (sfd d) (videoBuffers d) n (planes d)
              (frameDetails d) (started d).
Definition set_planes (p : v4l2_plane) (d : ImplData) : ImplData :=
  mk_ImplData (fd d) (sfd d) (videoBuffers d) (nVideoBuffers d) p
              (frameDetails d) (started d).
Definition set_frameDetails (f : FrameDetails) (d : ImplData) : ImplData :=
  mk_ImplData (fd d) (sfd d) (videoBuffers d) (nVideoBuffers d) (planes d)
              f (started d).
Definition set_started (b : bool) (d : ImplData) : ImplData :=
  mk_ImplData (fd d) (sfd d) (videoBuffers d) (nVideoBuffers d) (planes d)
              (frameDetails d) b.

(** [videoBuffers[i]]; the source never indexes past the allocation. *)
Definition buffer_at (d : ImplData) (i : Z) : buffer :=
  default (mk_buffer 0 0) (videoBuffers d !! Z.to_nat i).

(** ** The environment: system calls, their answers, the log *)

Definition EIO : Z := 5.
Definition EINTR : Z := 4.
Definition EAGAIN : Z := 11.
Definition MAP_FAILED : Z := -1.
Definition V4L2_CID_AD_DEV_SET_CHIP_CONFIG : Z := 0xA00A00.
Definition CTRL_PACKET_SIZE : Z := 4096.

Inductive ioctl_request : Type :=
| VIDIOC_QBUF (index : Z)
| VIDIOC_DQBUF
| VIDIOC_QUERYBUF (index : Z)
| VIDIOC_STREAMON
| VIDIOC_STREAMOFF
| VIDIOC_S_FMT (pix_width pix_height : Z)
| VIDIOC_REQBUFS (count : Z)
| VIDIOC_S_EXT_CTRLS (id size : Z) (p_u16 : list Z).

Inductive syscall : Type :=
| sys_select (nfds fd_in_set tv_sec tv_usec : Z)
| sys_ioctl (fh : Z) (request : ioctl_request)
| sys_mmap (len fildes off : Z)
| sys_munmap (addr len : Z)
| sys_calloc (nmemb : Z)
| sys_free
| sys_close (fildes : Z).

Inductive severity : Type := INFO | WARNING.

Inductive event : Type :=
| Call (c : syscall)
| Log (s : severity) (msg : string).

(** What a call leaves behind: its return value, the [errno] it sets when
    it fails, and the fields of the in/out argument that the code reads
    back ([buf.index], [req.count], [planes[0]]). *)
Record response : Type := mk_response {
  ret : Z;
  err : Z;
  out_index : Z;
  out_count : Z;
  out_plane : v4l2_plane
}.

(** State threaded through every method. *)
Record World : Type := mk_World {
  impl : ImplData;
  errno : Z;
  trace : list event
}.

(** Computations over [World]; [None] stands for a call that gives no
    result: it has not returned within the recursion budget of one of its
    loops, or it has reached a step whose behaviour C leaves undefined
    (the only such step modelled is releasing the buffer table twice). *)
Definition M (A : Type) : Type := World → option (A * World).

#[global] Instance M_ret : MRet M := λ A a w, Some (a, w).
#[global] Instance M_bind : MBind M := λ A B f m w,
  match m w with
  | Some (a, w') => f a w'
  | None => None
  end.

Definition get_impl : M ImplData := λ w, Some (impl w, w).
Definition get_errno : M Z := λ w, Some (errno w, w).
Definition get_trace : M (list event) := λ w, Some (trace w, w).
Definition modify_impl (f : ImplData → ImplData) : M unit := λ w,
  Some (tt, mk_World (f (impl w)) (errno w) (trace w)).
Definition logged (s : severity) (msg : string) (w : World) : World :=
  mk_World (impl w) (errno w) (trace w ++ [Log s msg]).
Definition LOG (s : severity) (msg : string) : M unit := λ w,
  Some (tt, logged s msg w).
Definition diverge {A : Type} : M A := λ _, None.
Definition undefined {A : Type} : M A := λ _, None.

(** What [m_implData->videoBuffers] points to: nothing, a table obtained
    from [calloc], or a table that was handed to [free] since. *)
Inductive table_pointer : Type := table_null | table_live | table_freed.

(** ** The methods of [LocalDevice] *)

Section LocalDevice.

(** The kernel and C library, answering a call from the history so far. *)
Variable driver : list event → syscall → response.

(** Contents of process memory (the mapped planes) given the history. *)
Variable memory : list event → Z → byte.

(** How many times an interrupted [ioctl] may be retried before the model
    gives up on the call. *)
Variable retries : nat.

(** [operator!=] on [FrameDetails], declared in
    [aditof/frame_operations.h]. *)
Variable details_ne : FrameDetails → FrameDetails → bool.

(** One system call: the answer is recorded, [errno] is set on failure. *)
Definition call (c : syscall) : M response := λ w,
  let r := driver (trace w) c in
  Some (r, mk_World (impl w)
                    (if ret r =? -1 then err r else errno w)
                    (trace w ++ [Call c])).

(** [do r = ioctl(fh, request, arg);
     while (-1 == r && EINTR == errno && errno != 0);] *)
Fixpoint xioctl_loop (n : nat) (fh : Z) (request : ioctl_request)
  : M response :=
  r ← call (sys_ioctl fh request);
  e ← get_errno;
  if (ret r =? -1) && (e =? EINTR) && negb (e =? 0)
  then match n with
       | O => diverge
       | S n' => xioctl_loop n' fh request
       end
  else mret r.

Definition xioctl (fh : Z) (request : ioctl_request) : M response :=
  xioctl_loop retries fh request.

(** [xioctl] on a [v4l2_buffer] whose [m.planes] points at
    [m_implData->planes]: the driver's plane data lands there. *)
Definition xioctl_buf (fh : Z) (request : ioctl_request) : M response :=
  r ← xioctl fh request;
  modify_impl (set_planes (out_plane r));;
  mret r.

(** *** [LocalDevice::start] *)

(** The enqueue loop [for (unsigned int i = 0; i < nVideoBuffers; i++)];
    [false] when the method has returned [GENERIC_ERROR] from inside it.
    The guard is tested before every iteration; [fuel] only bounds the
    recursion. *)
Fixpoint start_enqueue (fuel : nat) (i : Z) : M bool :=
  d ← get_impl;
  if i <? nVideoBuffers d then
    match fuel with
    | O => diverge
    | S fuel' =>
        r ← xioctl_buf (fd d) (VIDIOC_QBUF i);
        if ret r =? -1
        then LOG WARNING "mmap error";; mret false
        else start_enqueue fuel' (u32 (i + 1))
    end
  else mret true.

Definition start : M Status :=
  d ← get_impl;
  if started d then
    LOG INFO "Device already started";; mret BUSY
  else
    LOG INFO "Starting device";;
    queued ← start_enqueue (Z.to_nat (nVideoBuffers d)) 0;
    if (queued : bool) then
      r ← xioctl (fd d) VIDIOC_STREAMON;
      if ret r =? -1
      then LOG WARNING "VIDIOC_STREAMON error";; mret GENERIC_ERROR
      else modify_impl (set_started true);; mret OK
    else mret GENERIC_ERROR.

(** *** [LocalDevice::stop] *)

Definition stop : M Status :=
  d ← get_impl;
  if negb (started d) then
    LOG INFO "Device already stopped";; mret BUSY
  else
    LOG INFO "Stopping device";;
    r ← xioctl (fd d) VIDIOC_STREAMOFF;
    if ret r =? -1
    then LOG WARNING "VIDIOC_STREAMOFF error";; mret GENERIC_ERROR
    else modify_impl (set_started false);; mret OK.

(** *** [LocalDevice::getAvailableFrameTypes] *)

(** The method reads nothing of the session; [types] is the caller's
    vector, extended by two [push_back]s. *)
Definition getAvailableFrameTypes (types : list FrameDetails)
  : Status * list FrameDetails :=
  let status := OK in
  let details := mk_FrameDetails 640 960 "depth_ir" (mk_FrameCalData 0 1) in
  let types := types ++ [details] in
  let details := mk_FrameDetails 668 750 "raw" (mk_FrameCalData 0 1) in
  let types := types ++ [details] in
  (status, types).

(** *** [LocalDevice::setFrameType] *)

(** The table pointer after the events [t] that follow the history
    [before]: [calloc] assigns it (null when the allocation failed),
    [free] releases what it points to and leaves the pointer itself as it
    is ([free] of a null pointer does nothing), no other call touches it. *)
Fixpoint table_after (p : table_pointer) (before t : list event)
  : table_pointer :=
  match t with
  | [] => p
  | e :: t' =>
      let p' :=
        match e with
        | Call (sys_calloc nmemb) =>
            if ret (driver before (sys_calloc nmemb)) =? 0
            then table_null else table_live
        | Call sys_free =>
            match p with table_live => table_freed | _ => p end
        | _ => p
        end in
      table_after p' (before ++ [e]) t'
  end.

(** The table pointer of a session, read off its history.  The history
    starts at a session whose pointer is null when the table is empty (the
    constructor clears the structure) and live otherwise; until the first
    [calloc] of the history no method changes the entries of the table, so
    this is exact for every session that carries its history since
    construction. *)
Definition table_state (w : World) : table_pointer :=
  table_after (match videoBuffers (impl w) with
               | [] => table_null
               | _ :: _ => table_live
               end) [] (trace w).

(** [free(m_implData->videoBuffers)]: releasing a table that was released
    before is undefined. *)
Definition free_videoBuffers : M response := λ w,
  match table_state w with
  | table_freed => undefined w
  | _ => call sys_free w
  end.

(** The unmap loop of lines 260-268; [false] when the method has returned
    [GENERIC_ERROR] from inside it. *)
Fixpoint setFrameType_unmap (fuel : nat) (i : Z) : M bool :=
  d ← get_impl;
  if i <? nVideoBuffers d then
    match fuel with
    | O => diverge
    | S fuel' =>
        r ← call (sys_munmap (b_start (buffer_at d i))
                             (b_length (buffer_at d i)));
        if ret r =? -1
        then LOG WARNING "munmap error";; mret false
        else setFrameType_unmap fuel' (u32 (i + 1))
    end
  else mret true.

(** Lines 259-273: [Some status] when the method returns there. *)
Definition setFrameType_release (details : FrameDetails)
  : M (option Status) :=
  d ← get_impl;
  if details_ne details (frameDetails d) then
    unmapped ← setFrameType_unmap (Z.to_nat (nVideoBuffers d)) 0;
    if (unmapped : bool) then
      free_videoBuffers;;
      modify_impl (set_nVideoBuffers 0);;
      mret None
    else mret (Some GENERIC_ERROR)
  else if negb (nVideoBuffers d =? 0) then mret (Some OK)
  else mret None.

(** The query-and-map loop of lines 306-334, which counts in
    [m_implData->nVideoBuffers] itself. *)
Fixpoint setFrameType_map (fuel : nat) (count : Z) : M bool :=
  d ← get_impl;
  let n := nVideoBuffers d in
  if n <? count then
    match fuel with
    | O => diverge
    | S fuel' =>
        q ← xioctl_buf (fd d) (VIDIOC_QUERYBUF n);
        if ret q =? -1
        then LOG WARNING "VIDIOC_QUERYBUF error";; mret false
        else
          d ← get_impl;
          m ← call (sys_mmap (plane_length (planes d)) (fd d)
                             (plane_mem_offset (planes d)));
          modify_impl (λ d, set_videoBuffers
            (<[ Z.to_nat n := mk_buffer (ret m) (b_length (buffer_at d n)) ]>
               (videoBuffers d)) d);;
          if ret m =? MAP_FAILED
          then LOG WARNING "mmap error";; mret false
          else
            modify_impl (λ d, set_videoBuffers
              (<[ Z.to_nat n := mk_buffer (b_start (buffer_at d n))
                                          (plane_length (planes d)) ]>
                 (videoBuffers d)) d);;
            modify_impl (set_nVideoBuffers (u32 (n + 1)));;
            setFrameType_map fuel' count
    end
  else mret true.

(** Lines 275-338. *)
Definition setFrameType_allocate (details : FrameDetails) : M Status :=
  d ← get_impl;
  f ← xioctl (fd d) (VIDIOC_S_FMT (width details) (height details));
  if ret f =? -1
  then LOG WARNING "Setting Pixel Format error";; mret GENERIC_ERROR
  else
    q ← xioctl (fd d) (VIDIOC_REQBUFS 4);
    if ret q =? -1
    then LOG WARNING "VIDIOC_REQBUFS error";; mret GENERIC_ERROR
    else
      let count := u32 (out_count q) in
      p ← call (sys_calloc count);
      modify_impl (set_videoBuffers
        (if ret p =? 0 then [] else replicate (Z.to_nat count) (mk_buffer 0 0)));;
      if ret p =? 0
      then LOG WARNING "Failed to allocate video m_implData->videoBuffers";;
           mret GENERIC_ERROR
      else
        modify_impl (set_nVideoBuffers 0);;
        mapped ← setFrameType_map (Z.to_nat count) count;
        if (mapped : bool) then
          modify_impl (set_frameDetails details);;
          mret OK
        else mret GENERIC_ERROR.

Definition setFrameType (details : FrameDetails) : M Status :=
  early ← setFrameType_release details;
  match early with
  | Some status => mret status
  | None => setFrameType_allocate details
  end.

(** *** [LocalDevice::getFrame] *)

(** Lines 462-513, entered with the [buf.index] the dequeue left. *)
Definition getFrame_process (index : Z) (buffer : Z → Z)
  : M (Status * (Z → Z)) :=
  d ← get_impl;
  if nVideoBuffers d <=? index then
    LOG WARNING "Not enough buffers avaialable";;
    mret (GENERIC_ERROR, buffer)
  else
    t ← get_trace;
    let pdata := λ i, memory t (b_start (buffer_at d index) + i) in
    let buffer := us_buffer (unpack (width (frameDetails d))
                                    (height (frameDetails d)) pdata buffer) in
    r ← xioctl_buf (fd d) (VIDIOC_QBUF index);
    if ret r =? -1
    then LOG WARNING "VIDIOC_QBUF error";; mret (GENERIC_ERROR, buffer)
    else mret (OK, buffer).

(** Lines 444-460 followed by the rest of the method. *)
Definition getFrame_dequeue (buffer : Z → Z) : M (Status * (Z → Z)) :=
  d ← get_impl;
  b ← xioctl_buf (fd d) VIDIOC_DQBUF;
  let index := u32 (out_index b) in
  if ret b =? -1 then
    LOG WARNING "VIDIOC_DQBUF error";;
    e ← get_errno;
    if (e =? EAGAIN) || (e =? EIO)
    then getFrame_process index buffer
    else mret (GENERIC_ERROR, buffer)
  else getFrame_process index buffer.

Definition getFrame (buffer : Z → Z) : M (Status * (Z → Z)) :=
  d ← get_impl;
  r ← call (sys_select (fd d + 1) (fd d) 4 0);
  if ret r =? -1 then
    LOG WARNING "select error";; mret (GENERIC_ERROR, buffer)
  else if ret r =? 0 then
    LOG WARNING "select timeout";; mret (GENERIC_ERROR, buffer)
  else getFrame_dequeue buffer.

(** *** [LocalDevice::~LocalDevice] *)

(** The unmap loop of the destructor: a failure is logged and the loop
    goes on. *)
Fixpoint destroy_unmap (fuel : nat) (i : Z) : M unit :=
  d ← get_impl;
  if i <? nVideoBuffers d then
    match fuel with
    | O => diverge
    | S fuel' =>
        r ← call (sys_munmap (b_start (buffer_at d i))
                             (b_length (buffer_at d i)));
        (if ret r =? -1 then LOG WARNING "munmap error" else mret tt);;
        destroy_unmap fuel' (u32 (i + 1))
    end
  else mret tt.

Definition destroy : M unit :=
  d ← get_impl;
  (if started d then stop;; mret tt else mret tt);;
  d ← get_impl;
  destroy_unmap (Z.to_nat (nVideoBuffers d)) 0;;
  free_videoBuffers;;
  c ← call (sys_close (fd d));
  (if ret c =? -1 then LOG WARNING "close m_implData->fd error"
   else mret tt);;
  c ← call (sys_close (sfd d));
  (if ret c =? -1 then LOG WARNING "close m_implData->sfd error"
   else mret tt).

(** *** [LocalDevice::writeAfeRegisters] *)

(** [size_t] arithmetic, 64 bits wide as on the board's AArch64 target
    (with 32 bits the packet loop behaves the same: 4096 divides both). *)
Definition size_t (x : Z) : Z := x mod 2^64.

(** The packet [buf] seen as [CTRL_PACKET_SIZE / 2] cells of
    [unsigned short]: every access of the method is to an even byte
    offset. *)
Definition empty_packet : list Z :=
  replicate (Z.to_nat (CTRL_PACKET_SIZE / 2)) 0.

(** The inner [for (size_t i = 0; i < (length > CTRL_PACKET_SIZE ?
    CTRL_PACKET_SIZE : length); i += 4)] loop; its bound is at most
    [CTRL_PACKET_SIZE], so [CTRL_PACKET_SIZE / 4] iterations are all it can
    make. *)
Fixpoint fill_packet (fuel : nat) (address data : Z → Z) (len i : Z)
    (buf : list Z) (sampleCnt : Z) : list Z * Z :=
  match fuel with
  | O => (buf, sampleCnt)
  | S fuel' =>
      if i <? (if CTRL_PACKET_SIZE <? len then CTRL_PACKET_SIZE else len)
      then
        let buf := <[ Z.to_nat (i / 2) := u16 (address sampleCnt) ]> buf in
        let buf := <[ Z.to_nat ((i + 2) / 2) := u16 (data sampleCnt) ]> buf in
        fill_packet fuel' address data len (size_t (i + 4)) buf
                    (u16 (sampleCnt + 1))
      else (buf, sampleCnt)
  end.

(** The [while (length)] loop; [fuel] bounds the number of packets the
    model is willing to follow. *)
Fixpoint writeAfeRegisters_loop (fuel : nat) (address data : Z → Z)
    (len sampleCnt : Z) : M Status :=
  if len =? 0 then mret OK
  else match fuel with
       | O => diverge
       | S fuel' =>
           let '(buf, sampleCnt) :=
             fill_packet (Z.to_nat (CTRL_PACKET_SIZE / 4)) address data
                         len 0 empty_packet sampleCnt in
           let len := size_t (len - CTRL_PACKET_SIZE) in
           d ← get_impl;
           r ← xioctl (sfd d)
                 (VIDIOC_S_EXT_CTRLS V4L2_CID_AD_DEV_SET_CHIP_CONFIG
                                     (2048 * 2) buf);
           if ret r =? -1
           then LOG WARNING "Programming AFE error";; mret GENERIC_ERROR
           else writeAfeRegisters_loop fuel' address data len sampleCnt
       end.

Definition writeAfeRegisters (fuel : nat) (address data : Z → Z)
    (len : Z) : M Status :=
  let sampleCnt := 0 in
  let len := size_t (len * (2 * 2)) in
  writeAfeRegisters_loop fuel address data len sampleCnt.

End LocalDevice.

(** ** Closed forms used to state the behaviour of the unpacker *)

(** The adjustment of the write cursor at the head of the [width == 668]
    loop body, as a function of the input byte index. *)
Definition rewind (i : Z) : Z :=
  if negb (i =? 0) && (Z.rem i (336 * 3) =? 0) then 4 else 0.

(** Write cursor [j] of the [width == 668] loop after [k] triplets: two
    cells per triplet, four back at every 336-triplet boundary crossed. *)
Definition raw_cursor (k : Z) : Z :=
  if k =? 0 then 0 else 2 * k - 4 * ((k - 1) / 336).

(** One past the highest cell the [width == 668] loop has written after
    [k] triplets. *)
Definition raw_high_water (k : Z) : Z :=
  raw_cursor k + (if (1 <? k) && ((k - 1) mod 336 =? 0) then 2 else 0).

(** The offset at which the addressing of the other widths places the
    pixel pair of triplet [k]: rows of [width] pixels go alternately to the
    half starting at 0 and to the half starting at [height * width / 2]. *)
Definition predicted_offset (width height k : Z) : Z :=
  let pairCursor := 2 * k in
  let row := pairCursor / width in
  (if row mod 2 =? 0 then 0 else height * width / 2)
  + (row / 2) * width + pairCursor mod width.

(** Closed forms of the two running offsets of the 640x960 geometry after
    [n] triplets, and the triplet that fills a given output cell. *)
Definition depth_ir_offset0 (n : Z) : Z :=
  640 * (n / 640) + 2 * Z.min (n mod 640) 320.
Definition depth_ir_offset1 (n : Z) : Z :=
  307200 + 640 * (n / 640) + 2 * Z.max (n mod 640 - 320) 0.
(** Cells filled after [n] triplets. *)
Definition depth_ir_filled (n idx : Z) : Prop :=
  0 ≤ idx < depth_ir_offset0 n ∨ 307200 ≤ idx < depth_ir_offset1 n.
Definition depth_ir_source (idx : Z) : Z :=
  if idx <? 307200
  then 640 * (idx / 640) + (idx mod 640) / 2
  else 640 * ((idx - 307200) / 640) + 320 + ((idx - 307200) mod 640) / 2.
Definition depth_ir_value (pdata : Z → byte) (idx : Z) : Z :=
  let k := depth_ir_source idx in
  if idx mod 2 =? 0
  then pixel_even (pdata (3 * k)) (pdata (3 * k + 2))
  else pixel_odd (pdata (3 * k + 1)) (pdata (3 * k + 2)).

(** ** Histories without a failed call *)

(** [calls_succeeded driver t0 new]: of the events [new] that follow the
    history [t0], every call was answered with something other than -1,
    unless it was interrupted ([EINTR]), which [xioctl] answers by calling
    again. *)
Fixpoint calls_succeeded (driver : list event → syscall → response)
    (t0 new : list event) : Prop :=
  match new with
  | [] => True
  | e :: rest =>
      match e with
      | Call c => ret (driver t0 c) = -1 → err (driver t0 c) = EINTR
      | Log _ _ => True
      end
      ∧ calls_succeeded driver (t0 ++ [e]) rest
  end.

(** What a computation adds to the history, and that none of it failed. *)
Definition extends_cleanly (driver : list event → syscall → response)
    (w w' : World) : Prop :=
  ∃ new, trace w' = trace w ++ new ∧ calls_succeeded driver (trace w) new.

(** ** Concrete environments for the closed examples *)

Definition respond (r : Z) : response :=
  mk_response r 0 0 0 (mk_plane 0 0).

(** A driver that grants everything: four buffers of 921600 bytes, mapped at
    distinct addresses, descriptor ready, buffer 0 dequeued. *)
Definition granting_driver (t : list event) (c : syscall) : response :=
  match c with
  | sys_select _ _ _ _ => respond 1
  | sys_calloc _ => respond 4096
  | sys_mmap _ _ off => respond (65536 + off)
  | sys_ioctl _ (VIDIOC_REQBUFS n) => mk_response 0 0 0 n (mk_plane 0 0)
  | sys_ioctl _ (VIDIOC_QUERYBUF i) =>
      mk_response 0 0 i 0 (mk_plane 921600 (921600 * i))
  | _ => respond 0
  end.

(** A driver whose [select] never reports the descriptor ready. *)
Definition silent_driver (t : list event) (c : syscall) : response :=
  match c with
  | sys_select _ _ _ _ => respond 0
  | _ => granting_driver t c
  end.

(** A driver that dequeues buffer 0 but refuses (EINVAL) to take any
    buffer back. *)
Definition requeue_failing_driver (t : list event) (c : syscall) : response :=
  match c with
  | sys_ioctl _ (VIDIOC_QBUF _) => mk_response (-1) 22 0 0 (mk_plane 0 0)
  | _ => granting_driver t c
  end.

(** A driver that fails (EINVAL) to unmap the region at address 8192. *)
Definition unmap_failing_driver (t : list event) (c : syscall) : response :=
  match c with
  | sys_munmap addr _ =>
      if addr =? 8192 then mk_response (-1) 22 0 0 (mk_plane 0 0)
      else respond 0
  | _ => granting_driver t c
  end.

(** A driver that fails (ENODEV) every [ioctl]. *)
Definition failing_driver (t : list event) (c : syscall) : response :=
  match c with
  | sys_ioctl _ _ => mk_response (-1) 19 0 0 (mk_plane 0 0)
  | _ => granting_driver t c
  end.

Definition zero_memory (t : list event) (a : Z) : byte := x00.

(** A comparison to stand for [operator!=] in the examples: two
    [FrameDetails] differ when any of their fields does. *)
Definition fieldwise_ne (a b : FrameDetails) : bool :=
  negb ((width a =? width b) && (height a =? height b)
        && String.eqb (type a) (type b)
        && (offset (cal_data a) =? offset (cal_data b))
        && (gain (cal_data a) =? gain (cal_data b))).

Definition depth_ir_details : FrameDetails :=
  mk_FrameDetails 640 960 "depth_ir" (mk_FrameCalData 0 1).
Definition raw_details : FrameDetails :=
  mk_FrameDetails 668 750 "raw" (mk_FrameCalData 0 1).

(** A plane given by its first bytes (zero beyond them). *)
Definition plane_of (bytes : list byte) : Z → byte :=
  λ i, List.nth (Z.to_nat i) bytes x00.

(** Eight triplets: a 4x4 plane. *)
Definition sample_plane : Z → byte :=
  plane_of [x10; x11; x21; x20; x21; x43; x30; x31; x65; x40; x41; x87;
            x50; x51; xa9; x60; x61; xcb; x70; x71; xed; x80; x81; x0f].

(** The session right after construction (every field cleared) and
    [open]: descriptors 3 and 4, nothing else set. *)
Definition opened_world : World :=
  mk_World (mk_ImplData 3 4 [] 0 (mk_plane 0 0)
              (mk_FrameDetails 0 0 "" (mk_FrameCalData 0 0)) false)
           0 [].

(** A started session with one 6-byte buffer and a 2x2 geometry. *)
Definition tiny_world : World :=
  mk_World (mk_ImplData 3 4 [mk_buffer 4096 6] 1 (mk_plane 6 0)
              (mk_FrameDetails 2 2 "tiny" (mk_FrameCalData 0 1)) true)
           0 [].

(** A session holding two mapped buffers for the 640x960 geometry. *)
Definition two_buffer_world (started : bool) : World :=
  mk_World (mk_ImplData 3 4 [mk_buffer 4096 921600; mk_buffer 8192 921600] 2
              (mk_plane 921600 0) depth_ir_details started)
           0 [].

(** ** Closed forms for the output of the [width == 668] loop *)

(** The triplet whose pixel ends up in output cell [idx]: cell [c] of
    output row [r] (668 cells) comes from triplet [c / 2] of input line [r]
    (336 triplets). *)
Definition raw_source (idx : Z) : Z := 336 * (idx / 668) + (idx mod 668) / 2.

Definition raw_value (pdata : Z → byte) (idx : Z) : Z :=
  let k := raw_source idx in
  if idx mod 2 =? 0
  then pixel_even (pdata (3 * k)) (pdata (3 * k + 2))
  else pixel_odd (pdata (3 * k + 1)) (pdata (3 * k + 2)).

(** Two unpacker states that agree on every local and on every cell. *)
Definition same_state (s1 s2 : unpack_state) : Prop :=
  us_i s1 = us_i s2 ∧ us_j s1 = us_j s2
  ∧ us_offset0 s1 = us_offset0 s2 ∧ us_offset1 s1 = us_offset1 s2
  ∧ ∀ idx, us_buffer s1 idx = us_buffer s2 idx.

(** ** Relations between sessions *)

(** [d'] is [d] except possibly for the plane data the driver last left in
    [planes]. *)
Definition same_but_planes (d d' : ImplData) : Prop :=
  ∃ p, d' = set_planes p d.

(** Every buffer index below the count is an entry of the table. *)
Definition pool_in_table (d : ImplData) : Prop :=
  0 ≤ nVideoBuffers d ≤ Z.of_nat (List.length (videoBuffers d)).

(** The calls of a history, without the log lines. *)
Fixpoint calls_of (t : list event) : list syscall :=
  match t with
  | [] => []
  | Call c :: t' => c :: calls_of t'
  | Log _ _ :: t' => calls_of t'
  end.

(** What the retry loop has done when it returns [r] in world [w']. *)
Definition xioctl_outcome (driver : list event → syscall → response)
    (n : nat) (fh : Z) (request : ioctl_request)
    (w : World) (r : response) (w' : World) : Prop :=
  ∃ k : nat,
    (k ≤ n)%nat
    ∧ trace w' = trace w ++ replicate (S k) (Call (sys_ioctl fh request))
    ∧ r = driver (trace w ++ replicate k (Call (sys_ioctl fh request)))
                 (sys_ioctl fh request)
    ∧ (∀ j : nat, (j < k)%nat →
         let a := driver (trace w ++ replicate j (Call (sys_ioctl fh request)))
                         (sys_ioctl fh request) in
         ret a = -1 ∧ err a = EINTR)
    ∧ ¬ (ret r = -1 ∧ err r = EINTR)
    ∧ (ret r = -1 → errno w' = err r).

(** A driver that interrupts the first two calls it sees. *)
Definition interrupting_driver (t : list event) (c : syscall) : response :=
  if (List.length t <? 2)%nat then mk_response (-1) EINTR 0 0 (mk_plane 0 0)
  else respond 0.

(** The table has [count] entries, the buffers counted so far are below
    [count], and each of them is mapped. *)
Definition pool_mapped (count : Z) (d : ImplData) : Prop :=
  List.length (videoBuffers d) = Z.to_nat count
  ∧ 0 ≤ nVideoBuffers d ≤ count
  ∧ ∀ i, 0 ≤ i < nVideoBuffers d → b_start (buffer_at d i) ≠ MAP_FAILED.

(** The events that assign or release the table pointer. *)
Definition touches_table (e : event) : bool :=
  match e with
  | Call (sys_calloc _) | Call sys_free => true
  | _ => false
  end.

(** The [munmap] calls that release buffers [i], [i+1], ... below the
    count, in that order. *)
Definition unmap_calls (d : ImplData) (i : Z) : list syscall :=
  map (λ k, sys_munmap (b_start (buffer_at d k)) (b_length (buffer_at d k)))
      (seqZ i (nVideoBuffers d - i)).

(** ** [LocalDevice::program] and [LocalDevice::readAfeRegisters] *)

Definition V4L2_CID_AD_DEV_READ_REG : Z := 0xA00A01.

(** The 4096 bytes found at a pointer, seen as the [CTRL_PACKET_SIZE / 2]
    cells of [unsigned short] that [p_u16] designates (the board is
    little-endian). *)
Definition packet_cells (bytes : Z → byte) : list Z :=
  map (λ m, byte_val (bytes (2 * m)) + 256 * byte_val (bytes (2 * m + 1)))
      (seqZ 0 (CTRL_PACKET_SIZE / 2)).

(** [memset(buf, 0, CTRL_PACKET_SIZE); memcpy(buf, firmware + readBytes,
    size - readBytes)]: the bytes of [buf] afterwards. *)
Definition padded_chunk (firmware : Z → byte) (readBytes size : Z)
  : Z → byte :=
  λ i, if i <? size - readBytes then firmware (readBytes + i) else x00.

Section LocalDevice_afe.
Variable driver : list event → syscall → response.
Variable retries : nat.

(** The block that [program] repeats three times: point [extCtrl] at
    4096 bytes, issue [VIDIOC_S_EXT_CTRLS] on the sub-device, log on
    failure.  [false] when the method returns [GENERIC_ERROR] there. *)
Definition program_send (p_u16 : list Z) : M bool :=
  d ← get_impl;
  r ← xioctl driver retries (sfd d)
        (VIDIOC_S_EXT_CTRLS V4L2_CID_AD_DEV_SET_CHIP_CONFIG (2048 * 2) p_u16);
  if ret r =? -1
  then LOG WARNING "Programming AFE error";; mret false
  else mret true.

(** [while (readBytes < size)]: the guard is tested before every
    iteration, [fuel] only bounds the recursion.  The [usleep(100)] after
    each packet only delays and leaves no trace in the history. *)
Fixpoint program_loop (fuel : nat) (firmware : Z → byte)
    (size readBytes : Z) : M Status :=
  if readBytes <? size then
    match fuel with
    | O => diverge
    | S fuel' =>
        if CTRL_PACKET_SIZE <=? size_t (size - readBytes) then
          sent ← program_send (packet_cells (λ i, firmware (readBytes + i)));
          if (sent : bool)
          then program_loop fuel' firmware size
                            (size_t (readBytes + CTRL_PACKET_SIZE))
          else mret GENERIC_ERROR
        else
          sent ← program_send
                   (packet_cells (padded_chunk firmware readBytes size));
          if (sent : bool)
          then program_loop fuel' firmware size
                            (size_t (readBytes + CTRL_PACKET_SIZE))
          else mret GENERIC_ERROR
    end
  else mret OK.

Definition program (fuel : nat) (firmware : Z → byte) (size : Z)
  : M Status :=
  let readBytes := 0 in
  if size <=? CTRL_PACKET_SIZE then
    sent ← program_send (packet_cells firmware);
    if (sent : bool) then mret OK else mret GENERIC_ERROR
  else program_loop fuel firmware size readBytes.

(** What the caller's [address] array holds once the driver has answered
    the read request recorded last in the history: the driver writes the
    register value through [p_u16], which points into that array. *)
Variable read_back : list event → (Z → Z) → (Z → Z).

(** The loop [for (size_t i = 0; i < length; i++)] of
    [readAfeRegisters]; the arrays are returned as the method leaves
    them. *)
Fixpoint readAfeRegisters_loop (fuel : nat) (address data : Z → Z)
    (len i : Z) : M (Status * (Z → Z) * (Z → Z)) :=
  if i <? len then
    match fuel with
    | O => diverge
    | S fuel' =>
        d ← get_impl;
        r ← xioctl driver retries (sfd d)
              (VIDIOC_S_EXT_CTRLS V4L2_CID_AD_DEV_READ_REG (2048 * 2)
                 (map address (seqZ i (CTRL_PACKET_SIZE / 2))));
        t ← get_trace;
        let address := read_back t address in
        if ret r =? -1
        then LOG WARNING "Programming AFE error";;
             mret (GENERIC_ERROR, address, data)
        else
          let data := <[ i := u16 (address i) ]> data in
          readAfeRegisters_loop fuel' address data len (size_t (i + 1))
    end
  else mret (OK, address, data).

Definition readAfeRegisters (address data : Z → Z) (len : Z)
  : M (Status * (Z → Z) * (Z → Z)) :=
  readAfeRegisters_loop (Z.to_nat len) address data len 0.

End LocalDevice_afe.

(** The history and the [address] array once the requests for registers
    [i], [i+1], ..., [i+k-1] have been accepted, starting from history [t]:
    each request points the driver at [&address[i]], and what the driver
    stored through that pointer is found in the array afterwards. *)
Fixpoint afe_read_run (read_back : list event → (Z → Z) → (Z → Z))
    (fh : Z) (k : nat) (i : Z) (t : list event) (address : Z → Z)
  : list event * (Z → Z) :=
  match k with
  | O => (t, address)
  | S k' =>
      let t' := t ++ [Call (sys_ioctl fh
                              (VIDIOC_S_EXT_CTRLS V4L2_CID_AD_DEV_READ_REG
                                 (2048 * 2)
                                 (map address
                                      (seqZ i (CTRL_PACKET_SIZE / 2)))))] in
      afe_read_run read_back fh k' (i + 1) t' (read_back t' address)
  end.

(** A driver that never fails a [VIDIOC_S_EXT_CTRLS] request. *)
Definition accepts_packets (driver : list event → syscall → response)
  : Prop :=
  ∀ t fh id size p,
    ret (driver t (sys_ioctl fh (VIDIOC_S_EXT_CTRLS id size p))) ≠ -1.

(** The packets [program] sends for [size] bytes of [firmware]. *)
Definition program_packets (firmware : Z → byte) (size : Z) : list (list Z) :=
  if size <=? CTRL_PACKET_SIZE then [packet_cells firmware]
  else map (λ k, packet_cells
                   (padded_chunk firmware (CTRL_PACKET_SIZE * k) size))
           (seqZ 0 ((size + CTRL_PACKET_SIZE - 1) / CTRL_PACKET_SIZE)).

(** The packet [writeAfeRegisters] builds from sample [sampleCnt] on when
    [n] samples fit: address and data alternate, the rest is zero; the
    sample counter is an [unsigned short] and wraps. *)
Definition afe_packet (address data : Z → Z) (sampleCnt n : Z) : list Z :=
  map (λ c, if c / 2 <? n
            then if c mod 2 =? 0
                 then u16 (address (u16 (sampleCnt + c / 2)))
                 else u16 (data (u16 (sampleCnt + c / 2)))
            else 0)
      (seqZ 0 (CTRL_PACKET_SIZE / 2)).


(** ** The device names of [LocalDevice::open] *)

(** The delimiter [';'], character 59. *)
Definition delimiter : Ascii.ascii := Ascii.ascii_of_nat 59.

(** [std::getline(ss, token, ';')] on a stream whose unread part is [ss]:
    the token read, and what is left of the stream when the delimiter was
    found ([None] when the end of the stream was reached instead). *)
Fixpoint getline (ss : string) : string * option string :=
  match ss with
  | EmptyString => (EmptyString, None)
  | String c rest =>
      if Ascii.eqb c delimiter
      then (EmptyString, Some rest)
      else let '(token, after) := getline rest in (String c token, after)
  end.

(** [while (std::getline(ss, token, ';')) paths.push_back(token);] a read
    that finds the stream at its end extracts nothing and ends the loop.
    Every turn consumes a character, so the length of the stream bounds
    the number of turns. *)
Fixpoint open_paths (fuel : nat) (ss : string) (paths : list string)
  : list string :=
  match fuel with
  | O => paths
  | S fuel' =>
      match ss with
      | EmptyString => paths
      | String _ _ =>
          let '(token, after) := getline ss in
          let paths := paths ++ [token] in
          match after with
          | None => paths
          | Some rest => open_paths fuel' rest paths
          end
      end
  end.

Definition driver_paths (driverPath : string) : list string :=
  open_paths (String.length driverPath) driverPath [].

(** [paths.front()] and [paths.back()]; neither is defined on an empty
    vector. *)
Definition devName (driverPath : string) : option string :=
  head (driver_paths driverPath).
Definition subDevName (driverPath : string) : option string :=
  last (driver_paths driverPath).

Fixpoint has_delimiter (s : string) : bool :=
  match s with
  | EmptyString => false
  | String c rest => Ascii.eqb c delimiter || has_delimiter rest
  end.

(** ** Generic facts about the loop *)

Lemma iterate_S_inner k body s :
  iterate (S k) body s = iterate k body (body s).
Proof.
  induction k as [|k IH]; [reflexivity|].
  change (body (iterate (S k) body s) = body (iterate k body (body s))).
  by rewrite IH.
Qed.

Lemma iterate_add m k body s :
  iterate (m + k) body s = iterate m body (iterate k body s).
Proof.
  induction m as [|m IH]; [reflexivity|].
  change (body (iterate (m + k) body s)
          = body (iterate m body (iterate k body s))).
  by rewrite IH.
Qed.

Section for_loop_facts.
Variable body : unpack_state → unpack_state.
Hypothesis body_i : ∀ s, us_i (body s) = us_i s + 3.

Lemma iterate_i k s : us_i (iterate k body s) = us_i s + 3 * Z.of_nat k.
Proof.
  induction k as [|k IH]; simpl; [lia|].
  rewrite body_i, IH. lia.
Qed.

(** With [fuel] at least the number of remaining iterations the loop is
    the plain iteration of its body. *)
Lemma for_loop_iterate fuel bound s :
  0 ≤ us_i s →
  (Z.to_nat (trip_count (bound - us_i s)) ≤ fuel)%nat →
  for_loop fuel bound body s
  = iterate (Z.to_nat (trip_count (bound - us_i s))) body s.
Proof.
  unfold trip_count.
  revert s. induction fuel as [|fuel IH]; intros s Hi Hfuel.
  - simpl. replace (Z.to_nat _) with 0%nat by lia. reflexivity.
  - simpl. destruct (Z.ltb_spec (us_i s) bound) as [Hlt|Hge].
    + assert (Z.to_nat ((bound - us_i s + 2) / 3)
              = S (Z.to_nat ((bound - us_i (body s) + 2) / 3))) as Hn.
      { rewrite body_i.
        replace (bound - us_i s + 2) with ((bound - (us_i s + 3) + 2) + 1 * 3)
          by lia.
        rewrite Z.div_add by lia.
        assert (0 ≤ (bound - (us_i s + 3) + 2) / 3)
          by (apply Z.div_pos; lia).
        lia. }
      rewrite Hn, iterate_S_inner. apply IH.
      * rewrite body_i. lia.
      * lia.
    + assert ((bound - us_i s + 2) / 3 ≤ 0).
      { assert ((bound - us_i s + 2) / 3 < 1); [|lia].
        apply Z.div_lt_upper_bound; lia. }
      replace (Z.to_nat _) with 0%nat by lia. reflexivity.
Qed.

(** [Z.to_nat bound] is always enough fuel when the loop starts at 0. *)
Lemma for_loop_from_zero bound s :
  us_i s = 0 →
  for_loop (Z.to_nat bound) bound body s
  = iterate (Z.to_nat (trip_count bound)) body s.
Proof.
  intros Hi.
  rewrite for_loop_iterate; rewrite Hi, ?Z.sub_0_r; try reflexivity; try lia.
  unfold trip_count.
  destruct (Z.le_gt_cases bound 0) as [Hb|Hb].
  - assert ((bound + 2) / 3 ≤ 0).
    { assert ((bound + 2) / 3 < 1); [|lia].
      apply Z.div_lt_upper_bound; lia. }
    lia.
  - assert ((bound + 2) / 3 ≤ bound); [|lia].
    assert ((bound + 2) / 3 < bound + 1); [|lia].
    apply Z.div_lt_upper_bound; lia.
Qed.
End for_loop_facts.

(** ** The unpacker on small inputs *)

Example pixel_pair_abcdef :
  pixel_even xab xef = 0xABF ∧ pixel_odd xcd xef = 0xCDE.
Proof. split; reflexivity. Qed.

(** A 4x4 plane: triplets 0-1 and 4-5 (rows 0 and 2) fill cells 0-7,
    triplets 2-3 and 6-7 (rows 1 and 3) fill cells 8-15; cell 16 keeps the
    caller's value. *)
Example unpack_4x4 :
  map (us_buffer (unpack 4 4 sample_plane (λ _, -1))) (seqZ 0 17)
  = [0x101; 0x112; 0x203; 0x214; 0x509; 0x51a; 0x60b; 0x61c;
     0x305; 0x316; 0x407; 0x418; 0x70d; 0x71e; 0x80f; 0x810; -1].
Proof. vm_compute. reflexivity. Qed.

(** The first block boundary of the [width == 668] loop: 336 triplets leave
    the cursor at 672; the 337th starts at byte 1008, moves it back to 668
    and leaves it at 670. *)
Example raw_first_rewind :
  let s336 := iterate 336 (body_raw sample_plane)
                      (unpack_init 668 750 (λ _, -1)) in
  let s337 := body_raw sample_plane s336 in
  (us_i s336, us_j s336) = (1008, 672)
  ∧ (us_i s337, us_j s337) = (1011, 670)
  ∧ map (us_buffer s337) [668; 669; 670; 671; 672] = [0; 0; 0; 0; -1].
Proof. vm_compute. repeat split. Qed.

(** ** Pixel arithmetic *)

Lemma byte_val_range b : 0 ≤ byte_val b < 256.
Proof.
  unfold byte_val. pose proof (Byte.to_N_bounded b). lia.
Qed.

Lemma land_shiftl4_nibble a c : 0 ≤ c < 16 → Z.land (Z.shiftl a 4) c = 0.
Proof.
  intros Hc. apply Z.bits_inj'. intros n Hn.
  rewrite Z.land_spec, Z.bits_0.
  destruct (Z.lt_ge_cases n 4) as [Hlow|Hhigh].
  - rewrite Z.shiftl_spec_low by lia. reflexivity.
  - destruct (Z.eq_dec c 0) as [->|Hc0].
    + rewrite Z.bits_0. apply andb_false_r.
    + rewrite (Z.bits_above_log2 c n); [apply andb_false_r|lia|].
      apply Z.log2_lt_pow2; [lia|].
      apply Z.lt_le_trans with (2^4); [lia|].
      apply Z.pow_le_mono_r; lia.
Qed.

Lemma lor_shiftl4_nibble a c :
  0 ≤ c < 16 → Z.lor (Z.shiftl a 4) c = 16 * a + c.
Proof.
  intros Hc.
  pose proof (Z.add_lor_land (Z.shiftl a 4) c) as H.
  rewrite land_shiftl4_nibble in H by lia.
  pose proof (Z.shiftl_mul_pow2 a 4 ltac:(lia)). lia.
Qed.

Lemma low_nibble b : Z.land (byte_val b) 0x000F = byte_val b mod 16.
Proof. apply (Z.land_ones (byte_val b) 4). lia. Qed.

Lemma high_nibble b :
  Z.shiftr (Z.land (byte_val b) 0x00F0) 4 = byte_val b / 16.
Proof.
  pose proof (byte_val_range b) as Hb.
  rewrite Z.shiftr_land.
  change (Z.shiftr 0x00F0 4) with (Z.ones 4).
  rewrite Z.land_ones, Z.shiftr_div_pow2 by lia.
  apply Z.mod_small. split.
  - apply Z.div_pos; lia.
  - apply Z.div_lt_upper_bound; lia.
Qed.

(** The value is not truncated by the store into the 16-bit cell. *)
Lemma pixel_even_value b0 b2 :
  pixel_even b0 b2 = Z.lor (Z.shiftl (byte_val b0) 4) (Z.land (byte_val b2) 0x000F)
  ∧ pixel_even b0 b2 = 16 * byte_val b0 + byte_val b2 mod 16
  ∧ 0 ≤ pixel_even b0 b2 < 2^12.
Proof.
  pose proof (byte_val_range b0). pose proof (byte_val_range b2).
  pose proof (Z.mod_pos_bound (byte_val b2) 16 ltac:(lia)).
  unfold pixel_even, u16.
  rewrite low_nibble, lor_shiftl4_nibble by lia.
  rewrite Z.mod_small by lia. lia.
Qed.

Lemma pixel_odd_value b1 b2 :
  pixel_odd b1 b2 = Z.lor (Z.shiftl (byte_val b1) 4)
                          (Z.shiftr (Z.land (byte_val b2) 0x00F0) 4)
  ∧ pixel_odd b1 b2 = 16 * byte_val b1 + byte_val b2 / 16
  ∧ 0 ≤ pixel_odd b1 b2 < 2^12.
Proof.
  pose proof (byte_val_range b1). pose proof (byte_val_range b2).
  assert (0 ≤ byte_val b2 / 16 < 16) as Hq.
  { split; [apply Z.div_pos; lia | apply Z.div_lt_upper_bound; lia]. }
  unfold pixel_odd, u16.
  rewrite high_nibble, lor_shiftl4_nibble by lia.
  rewrite Z.mod_small by lia. lia.
Qed.

(** ** The two loops as iterations of their bodies *)

Lemma body_raw_i pdata s : us_i (body_raw pdata s) = us_i s + 3.
Proof. reflexivity. Qed.

Lemma body_depth_ir_i width pdata s :
  us_i (body_depth_ir width pdata s) = us_i s + 3.
Proof. reflexivity. Qed.

Lemma unpack_raw_iterate height pdata buffer :
  unpack 668 height pdata buffer
  = iterate (Z.to_nat (trip_count (loop_bound 668 height)))
            (body_raw pdata) (unpack_init 668 height buffer).
Proof.
  unfold unpack. simpl (668 =? 668).
  apply for_loop_from_zero; [apply body_raw_i | reflexivity].
Qed.

Lemma unpack_depth_ir_iterate width height pdata buffer :
  width ≠ 668 →
  unpack width height pdata buffer
  = iterate (Z.to_nat (trip_count (loop_bound width height)))
            (body_depth_ir width pdata) (unpack_init width height buffer).
Proof.
  intros Hw. unfold unpack.
  destruct (Z.eqb_spec width 668) as [|_]; [contradiction|].
  apply for_loop_from_zero; [apply body_depth_ir_i | reflexivity].
Qed.

(** From here on [unpack] is only used through the two lemmas above. *)
#[global] Opaque unpack.

Lemma loop_bound_exact width height :
  0 ≤ height * width → height * width * 3 < 2^32 →
  loop_bound width height = height * width * 3 / 2.
Proof.
  intros H0 H1. unfold loop_bound, u32, to_int.
  rewrite (Z.mod_small (height * width)) by lia.
  rewrite (Z.mod_small (height * width * 3)) by lia.
  assert (0 ≤ height * width * 3 / 2 < 2^31) as Hb.
  { split; [apply Z.div_pos; lia | apply Z.div_lt_upper_bound; lia]. }
  rewrite Z.mod_small by lia. lia.
Qed.

(** ** The [width == 668] loop *)

Lemma rewind_triplet k :
  0 ≤ k →
  rewind (3 * k) = if negb (k =? 0) && (k mod 336 =? 0) then 4 else 0.
Proof.
  intros Hk. unfold rewind.
  rewrite Z.rem_mod_nonneg by lia.
  destruct (Z.eqb_spec (3 * k) 0), (Z.eqb_spec k 0); try lia; simpl;
    [reflexivity|].
  destruct (Z.eqb_spec ((3 * k) mod (336 * 3)) 0) as [H|H],
           (Z.eqb_spec (k mod 336) 0) as [H'|H']; try reflexivity;
    exfalso; revert H H'; Z.div_mod_to_equations; lia.
Qed.

Lemma raw_cursor_step k :
  0 ≤ k →
  raw_cursor (k + 1) = raw_cursor k - rewind (3 * k) + 2.
Proof.
  intros Hk. rewrite rewind_triplet by lia. unfold raw_cursor.
  destruct (Z.eqb_spec (k + 1) 0); [lia|].
  destruct (Z.eqb_spec k 0) as [->|Hk0]; simpl; [reflexivity|].
  replace (k + 1 - 1) with k by lia.
  destruct (Z.eqb_spec (k mod 336) 0) as [H|H];
    revert H; Z.div_mod_to_equations; lia.
Qed.

Lemma raw_cursor_rewound_nonneg k :
  0 ≤ k → 0 ≤ raw_cursor k - rewind (3 * k).
Proof.
  intros Hk. rewrite rewind_triplet by lia. unfold raw_cursor.
  destruct (Z.eqb_spec k 0) as [->|Hk0]; simpl; [lia|].
  destruct (Z.eqb_spec (k mod 336) 0) as [H|H];
    revert H; Z.div_mod_to_equations; lia.
Qed.

Lemma raw_high_water_step k :
  0 ≤ k →
  raw_high_water k ≤ raw_high_water (k + 1)
  ∧ raw_cursor k - rewind (3 * k) + 2 ≤ raw_high_water (k + 1).
Proof.
  intros Hk. unfold raw_high_water.
  rewrite raw_cursor_step, rewind_triplet by lia.
  replace (k + 1 - 1) with k by lia.
  destruct (Z.eqb_spec k 0) as [->|Hk0]; simpl; [lia|].
  destruct (Z.ltb_spec 1 (k + 1)) as [_|?]; [|lia].
  destruct (Z.ltb_spec 1 k) as [Hk1|Hk1]; simpl;
    destruct (Z.eqb_spec (k mod 336) 0) as [H|H];
    destruct (Z.eqb_spec ((k - 1) mod 336) 0) as [H'|H'];
    revert H H'; Z.div_mod_to_equations; lia.
Qed.

Section raw_loop.
Variables (height : Z) (pdata : Z → byte) (buffer : Z → Z).

Let run (k : nat) : unpack_state :=
  iterate k (body_raw pdata) (unpack_init 668 height buffer).

Lemma raw_run_i k : us_i (run k) = 3 * Z.of_nat k.
Proof.
  unfold run. rewrite iterate_i by apply body_raw_i. reflexivity.
Qed.

Lemma body_raw_j s : us_j (body_raw pdata s) = us_j s - rewind (us_i s) + 2.
Proof.
  unfold body_raw, rewind. simpl.
  destruct (negb (us_i s =? 0) && (Z.rem (us_i s) (336 * 3) =? 0)); lia.
Qed.

Lemma body_raw_buffer s :
  us_buffer (body_raw pdata s)
  = <[ us_j s - rewind (us_i s) + 1 :=
         pixel_odd (pdata (us_i s + 1)) (pdata (us_i s + 2)) ]>
      (<[ us_j s - rewind (us_i s) :=
            pixel_even (pdata (us_i s)) (pdata (us_i s + 2)) ]>
         (us_buffer s)).
Proof.
  unfold body_raw, rewind. simpl.
  destruct (negb (us_i s =? 0) && (Z.rem (us_i s) (336 * 3) =? 0));
    rewrite ?Z.sub_0_r; reflexivity.
Qed.

Lemma raw_run_j k : us_j (run k) = raw_cursor (Z.of_nat k).
Proof.
  induction k as [|k IH]; [reflexivity|].
  change (run (S k)) with (body_raw pdata (run k)).
  rewrite body_raw_j, IH, raw_run_i.
  replace (Z.of_nat (S k)) with (Z.of_nat k + 1) by lia.
  rewrite raw_cursor_step by lia. reflexivity.
Qed.

(** Cells below 0 or from the high-water mark on still hold what the
    caller's array held. *)
Lemma raw_run_untouched k idx :
  idx < 0 ∨ raw_high_water (Z.of_nat k) ≤ idx →
  us_buffer (run k) idx = buffer idx.
Proof.
  induction k as [|k IH]; intros Hidx; [reflexivity|].
  change (run (S k)) with (body_raw pdata (run k)).
  rewrite body_raw_buffer, raw_run_j, raw_run_i.
  replace (Z.of_nat (S k)) with (Z.of_nat k + 1) in Hidx by lia.
  pose proof (raw_high_water_step (Z.of_nat k) ltac:(lia)) as [Hm Hw].
  pose proof (raw_cursor_rewound_nonneg (Z.of_nat k) ltac:(lia)) as Hn.
  rewrite !fn_lookup_insert_ne by lia.
  apply IH. lia.
Qed.
End raw_loop.

Lemma raw_trip_count height :
  0 ≤ height → height * 668 * 3 < 2^32 →
  trip_count (loop_bound 668 height) = height * 668 / 2.
Proof.
  intros H0 H1. rewrite loop_bound_exact by lia.
  unfold trip_count. Z.div_mod_to_equations. lia.
Qed.

(** Final write cursor of the [width == 668] loop. *)
Lemma unpack_raw_cursor height pdata buffer :
  0 ≤ height → height * 668 * 3 < 2^32 →
  us_j (unpack 668 height pdata buffer) = raw_cursor (height * 668 / 2).
Proof.
  intros H0 H1.
  rewrite unpack_raw_iterate, raw_run_j, raw_trip_count by lia.
  rewrite Z2Nat.id; [reflexivity | apply Z.div_pos; lia].
Qed.

(** Cells below 0 or from the final high-water mark on are not written. *)
Lemma unpack_raw_untouched height pdata buffer idx :
  0 ≤ height → height * 668 * 3 < 2^32 →
  idx < 0 ∨ raw_high_water (height * 668 / 2) ≤ idx →
  us_buffer (unpack 668 height pdata buffer) idx = buffer idx.
Proof.
  intros H0 H1 Hidx.
  rewrite unpack_raw_iterate, raw_trip_count by lia.
  apply raw_run_untouched.
  rewrite Z2Nat.id; [exact Hidx | apply Z.div_pos; lia].
Qed.

(** C1 (as amended): for the width-668 geometry the loop runs once per
    triplet of the [height * 668 * 3 / 2] input bytes; every iteration
    writes its two pixels at the cursor and the cell after it and leaves
    the cursor two further, except that when the input byte index is a
    nonzero multiple of [336 * 3] the cursor is first moved back by 4.
    Over the whole plane this makes [height * 668] pixel writes, but the
    cursor ends at [height * 668 - 4 * ((height * 668 / 2 - 1) / 336)],
    and no cell two or more past that position is written. *)
Theorem raw_unpack_rewinds_every_336_triplets
    (height : Z) (pdata : Z → byte) (buffer : Z → Z) :
  0 < height → height * 668 * 3 < 2^32 →
  let triplets := height * 668 / 2 in
  let run k := iterate k (body_raw pdata) (unpack_init 668 height buffer) in
  unpack 668 height pdata buffer = run (Z.to_nat triplets)
  ∧ 3 * triplets = height * 668 * 3 / 2
  ∧ 2 * triplets = height * 668
  ∧ (∀ k : nat,
       let s := run k in
       let back :=
         if negb (us_i s =? 0) && (us_i s mod (336 * 3) =? 0) then 4 else 0 in
       us_i s = 3 * Z.of_nat k
       ∧ us_j (run (S k)) = us_j s - back + 2
       ∧ us_buffer (run (S k))
         = <[ us_j s - back + 1 :=
                pixel_odd (pdata (us_i s + 1)) (pdata (us_i s + 2)) ]>
             (<[ us_j s - back :=
                   pixel_even (pdata (us_i s)) (pdata (us_i s + 2)) ]>
                (us_buffer s)))
  ∧ us_j (unpack 668 height pdata buffer)
    = height * 668 - 4 * ((triplets - 1) / 336)
  ∧ (∀ idx, idx < 0 ∨ us_j (unpack 668 height pdata buffer) + 2 ≤ idx →
       us_buffer (unpack 668 height pdata buffer) idx = buffer idx).
Proof.
  intros Hh Hbound triplets run.
  assert (0 < triplets ∧ 2 * triplets = height * 668) as [Hpos Heven].
  { unfold triplets. Z.div_mod_to_equations. lia. }
  assert (unpack 668 height pdata buffer = run (Z.to_nat triplets)) as Hrun.
  { rewrite unpack_raw_iterate, raw_trip_count by lia. reflexivity. }
  repeat split.
  - exact Hrun.
  - unfold triplets. Z.div_mod_to_equations. lia.
  - exact Heven.
  - apply raw_run_i.
  - change (run (S k)) with (body_raw pdata (run k)).
    rewrite body_raw_j. unfold rewind.
    rewrite (Z.rem_mod_nonneg (us_i (run k)));
      [reflexivity | unfold run; rewrite raw_run_i; lia | lia].
  - change (run (S k)) with (body_raw pdata (run k)).
    rewrite body_raw_buffer. unfold rewind.
    rewrite (Z.rem_mod_nonneg (us_i (run k)));
      [reflexivity | unfold run; rewrite raw_run_i; lia | lia].
  - rewrite unpack_raw_cursor by lia. fold triplets. unfold raw_cursor.
    destruct (Z.eqb_spec triplets 0); lia.
  - intros idx Hidx. rewrite unpack_raw_cursor in Hidx by lia.
    apply unpack_raw_untouched; [lia | lia |].
    fold triplets in Hidx |- *. unfold raw_high_water.
    destruct ((1 <? triplets) && ((triplets - 1) mod 336 =? 0)); lia.
Qed.

(** The statement above at the 668x750 catalog geometry. *)
Lemma raw_unpack_rewinds_750 :
  0 < 750 ∧ 750 * 668 * 3 < 2^32
  ∧ us_j (unpack 668 750 (λ _, x00) (λ _, 0))
    = 750 * 668 - 4 * ((750 * 668 / 2 - 1) / 336).
Proof.
  split; [lia|]. split; [lia|].
  pose proof (raw_unpack_rewinds_every_336_triplets 750 (λ _, x00) (λ _, 0)
                ltac:(lia) ltac:(lia)) as H.
  cbv zeta in H. destruct H as (_ & _ & _ & _ & H & _). exact H.
Defined.

(** For 668x750 the cursor ends at 498020, short of [height * width]
    = 501000, and cell 498022 of the output is never written. *)
Lemma raw_750_output_shorter_than_frame :
  us_j (unpack 668 750 (λ _, x00) (λ _, 7)) = 498020
  ∧ us_j (unpack 668 750 (λ _, x00) (λ _, 7)) ≠ 750 * 668
  ∧ 498022 < 750 * 668
  ∧ us_buffer (unpack 668 750 (λ _, x00) (λ _, 7)) 498022 = 7.
Proof.
  assert (us_j (unpack 668 750 (λ _, x00) (λ _, 7)) = 498020) as Hj.
  { rewrite unpack_raw_cursor by lia. reflexivity. }
  split; [exact Hj|]. split; [lia|]. split; [lia|].
  refine (unpack_raw_untouched 750 (λ _, x00) (λ _, 7) 498022 _ _ _);
    [lia | lia | right; vm_compute; discriminate].
Qed.

(** A cell after one iteration of either loop holds what it held, or
    one of the two pixels of the triplet at [us_i]. *)
Lemma body_raw_cells pdata s idx :
  us_buffer (body_raw pdata s) idx = us_buffer s idx
  ∨ us_buffer (body_raw pdata s) idx
    = pixel_even (pdata (us_i s)) (pdata (us_i s + 2))
  ∨ us_buffer (body_raw pdata s) idx
    = pixel_odd (pdata (us_i s + 1)) (pdata (us_i s + 2)).
Proof.
  rewrite body_raw_buffer.
  destruct (Z.eq_dec (us_j s - rewind (us_i s) + 1) idx) as [<-|Hodd].
  { right. right. apply fn_lookup_insert. }
  rewrite fn_lookup_insert_ne by exact Hodd.
  destruct (Z.eq_dec (us_j s - rewind (us_i s)) idx) as [<-|Heven].
  { right. left. apply fn_lookup_insert. }
  left. apply fn_lookup_insert_ne. exact Heven.
Qed.

Lemma body_depth_ir_cells width pdata s idx :
  us_buffer (body_depth_ir width pdata s) idx = us_buffer s idx
  ∨ us_buffer (body_depth_ir width pdata s) idx
    = pixel_even (pdata (us_i s)) (pdata (us_i s + 2))
  ∨ us_buffer (body_depth_ir width pdata s) idx
    = pixel_odd (pdata (us_i s + 1)) (pdata (us_i s + 2)).
Proof.
  unfold body_depth_ir. cbn [us_buffer].
  set (off := if offset_idx width (us_j s) =? 0
              then us_offset0 s else us_offset1 s).
  destruct (Z.eq_dec (u32 (off + 1)) idx) as [<-|Hodd].
  { right. right. apply fn_lookup_insert. }
  rewrite fn_lookup_insert_ne by exact Hodd.
  destruct (Z.eq_dec off idx) as [<-|Heven].
  { right. left. apply fn_lookup_insert. }
  left. apply fn_lookup_insert_ne. exact Heven.
Qed.

(** Hence a cell after [n] iterations from byte 0 holds what it held at
    first, or a pixel of one of the first [n] triplets. *)
Lemma iterate_cells_from_triplets pdata body n s idx :
  (∀ s, us_i (body s) = us_i s + 3) →
  (∀ s idx,
     us_buffer (body s) idx = us_buffer s idx
     ∨ us_buffer (body s) idx
       = pixel_even (pdata (us_i s)) (pdata (us_i s + 2))
     ∨ us_buffer (body s) idx
       = pixel_odd (pdata (us_i s + 1)) (pdata (us_i s + 2))) →
  us_i s = 0 →
  us_buffer (iterate n body s) idx = us_buffer s idx
  ∨ ∃ k : nat,
      (k < n)%nat
      ∧ (us_buffer (iterate n body s) idx
         = pixel_even (pdata (3 * Z.of_nat k)) (pdata (3 * Z.of_nat k + 2))
         ∨ us_buffer (iterate n body s) idx
           = pixel_odd (pdata (3 * Z.of_nat k + 1))
                       (pdata (3 * Z.of_nat k + 2))).
Proof.
  intros Hstep Hcells Hi. induction n as [|n IH]; [left; reflexivity|].
  cbn [iterate].
  assert (us_i (iterate n body s) = 3 * Z.of_nat n) as Hn.
  { rewrite (iterate_i body Hstep). lia. }
  destruct (Hcells (iterate n body s) idx) as [Hsame|Hnew].
  - rewrite Hsame. destruct IH as [IH|(k & Hk & IH)]; [left; exact IH|].
    right. exists k. split; [lia | exact IH].
  - right. exists n. rewrite Hn in Hnew. split; [lia | exact Hnew].
Qed.

(** C2: the unpacker runs one iteration per triplet of the plane, and for
    every one of them, in both loops, the iteration that handles the
    triplet [(b0, b1, b2)] at bytes [3k], [3k+1], [3k+2] stores
    [(b0 << 4) | (b2 & 0x0F)] and then [(b1 << 4) | ((b2 & 0xF0) >> 4)],
    both of which fit in 16 bits (indeed in 12).  [before] and [after] are
    the states of the unpacker's own run around that iteration: the result
    of [unpack] is what the remaining iterations make of [after].  In the
    array the unpacker returns, a cell holds what the caller's array held
    or one of these two values for one of the triplets. *)
Theorem unpack_triplet_pixels
    (width height : Z) (pdata : Z → byte) (buffer : Z → Z) (k : nat) :
  let n := Z.to_nat (trip_count (loop_bound width height)) in
  (k < n)%nat →
  let b0 := byte_val (pdata (3 * Z.of_nat k)) in
  let b1 := byte_val (pdata (3 * Z.of_nat k + 1)) in
  let b2 := byte_val (pdata (3 * Z.of_nat k + 2)) in
  let even := Z.lor (Z.shiftl b0 4) (Z.land b2 0x0F) in
  let odd := Z.lor (Z.shiftl b1 4) (Z.shiftr (Z.land b2 0xF0) 4) in
  let body := if width =? 668 then body_raw pdata
              else body_depth_ir width pdata in
  let before := iterate k body (unpack_init width height buffer) in
  let after := body before in
  let cell := if width =? 668 then us_j after - 2
              else if offset_idx width (us_j before) =? 0
                   then us_offset0 before else us_offset1 before in
  let next := if width =? 668 then cell + 1 else u32 (cell + 1) in
  (0 ≤ even < 2^16 ∧ 0 ≤ odd < 2^16)
  ∧ (even = 16 * b0 + b2 mod 16 ∧ odd = 16 * b1 + b2 / 16)
  ∧ unpack width height pdata buffer = iterate (n - S k) body after
  ∧ us_i before = 3 * Z.of_nat k
  ∧ us_buffer after = <[ next := odd ]> (<[ cell := even ]> (us_buffer before))
  ∧ (0 ≤ height * width → height * width * 3 < 2^32 →
     Z.of_nat n = (height * width * 3 / 2 + 2) / 3)
  ∧ ∀ idx,
      let out := us_buffer (unpack width height pdata buffer) idx in
      out = buffer idx
      ∨ ∃ t : nat,
          (t < n)%nat
          ∧ let c0 := byte_val (pdata (3 * Z.of_nat t)) in
            let c1 := byte_val (pdata (3 * Z.of_nat t + 1)) in
            let c2 := byte_val (pdata (3 * Z.of_nat t + 2)) in
            out = Z.lor (Z.shiftl c0 4) (Z.land c2 0x0F)
            ∨ out = Z.lor (Z.shiftl c1 4) (Z.shiftr (Z.land c2 0xF0) 4).
Proof.
  intros n Hk b0 b1 b2 even odd body before after cell next.
  destruct (pixel_even_value (pdata (3 * Z.of_nat k))
                             (pdata (3 * Z.of_nat k + 2)))
    as (He & He' & Her).
  destruct (pixel_odd_value (pdata (3 * Z.of_nat k + 1))
                            (pdata (3 * Z.of_nat k + 2)))
    as (Ho & Ho' & Hor).
  fold b0 b2 in He, He'. fold b1 b2 in Ho, Ho'.
  change (Z.lor (Z.shiftl b0 4) (Z.land b2 15)) with even in He.
  change (Z.lor (Z.shiftl b1 4) (Z.shiftr (Z.land b2 240) 4)) with odd in Ho.
  assert (unpack width height pdata buffer
          = iterate n body (unpack_init width height buffer)) as Hrun.
  { subst body n. destruct (Z.eqb_spec width 668) as [->|Hw].
    - apply unpack_raw_iterate.
    - apply unpack_depth_ir_iterate. exact Hw. }
  assert (us_i before = 3 * Z.of_nat k) as Hi.
  { subst before body. destruct (width =? 668).
    - rewrite iterate_i by apply body_raw_i. reflexivity.
    - rewrite iterate_i by apply body_depth_ir_i. reflexivity. }
  split; [lia|]. split; [lia|].
  split; [|split; [exact Hi|split; [|split]]].
  - rewrite Hrun. replace n with ((n - S k) + S k)%nat at 1 by lia.
    apply iterate_add.
  - subst next cell after. revert Hi. subst before body.
    destruct (width =? 668); intros Hi.
    + rewrite body_raw_buffer, body_raw_j, Hi, <- He, <- Ho.
      f_equal; [lia|]. f_equal. lia.
    + set (sB := iterate k (body_depth_ir width pdata) _) in *.
      unfold body_depth_ir. simpl. rewrite Hi, <- He, <- Ho. reflexivity.
  - intros H0 H1. subst n.
    rewrite (loop_bound_exact width height H0 H1). unfold trip_count.
    apply Z2Nat.id. apply Z.div_pos; [|lia].
    assert (0 ≤ height * width * 3 / 2) by (apply Z.div_pos; lia). lia.
  - intros idx out. subst out. rewrite Hrun.
    assert (us_buffer (iterate n body (unpack_init width height buffer)) idx
            = buffer idx
            ∨ ∃ t : nat,
                (t < n)%nat
                ∧ (us_buffer (iterate n body
                                (unpack_init width height buffer)) idx
                   = pixel_even (pdata (3 * Z.of_nat t))
                                (pdata (3 * Z.of_nat t + 2))
                   ∨ us_buffer (iterate n body
                                  (unpack_init width height buffer)) idx
                     = pixel_odd (pdata (3 * Z.of_nat t + 1))
                                 (pdata (3 * Z.of_nat t + 2)))) as Hcells.
    { subst body. destruct (width =? 668).
      - apply (iterate_cells_from_triplets pdata);
          [apply body_raw_i | apply body_raw_cells | reflexivity].
      - apply (iterate_cells_from_triplets pdata);
          [apply body_depth_ir_i | apply body_depth_ir_cells | reflexivity]. }
    destruct Hcells as [Hsame|(t & Ht & Hcell)]; [left; exact Hsame|].
    right. exists t. split; [exact Ht|]. cbv zeta.
    rewrite <- (proj1 (pixel_even_value (pdata (3 * Z.of_nat t))
                                        (pdata (3 * Z.of_nat t + 2)))).
    rewrite <- (proj1 (pixel_odd_value (pdata (3 * Z.of_nat t + 1))
                                       (pdata (3 * Z.of_nat t + 2)))).
    exact Hcell.
Qed.

(** C2 on the 4x4 sample plane: its second triplet [20 21 43] is stored as
    [0x203] and [0x214] in cells 2 and 3 by the second of the eight
    iterations of the unpacker. *)
Lemma unpack_triplet_pixels_sample_plane :
  let body := body_depth_ir 4 sample_plane in
  let before := iterate 1 body (unpack_init 4 4 (λ _, 0)) in
  (1 < Z.to_nat (trip_count (loop_bound 4 4)))%nat
  ∧ unpack 4 4 sample_plane (λ _, 0) = iterate 6 body (body before)
  ∧ us_buffer (body before)
    = <[ 3 := 0x214 ]> (<[ 2 := 0x203 ]> (us_buffer before)).
Proof.
  intros body before.
  assert (1 < Z.to_nat (trip_count (loop_bound 4 4)))%nat as Hk
    by (vm_compute; lia).
  split; [exact Hk|].
  pose proof (unpack_triplet_pixels 4 4 sample_plane (λ _, 0) 1 Hk)
    as (_ & _ & Hrun & _ & Hcells & _).
  split; [exact Hrun | exact Hcells].
Defined.

(** ** The loop of the other widths, at the 640x960 geometry *)

Lemma offset_idx_small width j :
  0 ≤ j < 2^32 → offset_idx width j = (j / width) mod 2.
Proof.
  intros Hj. unfold offset_idx, u32. rewrite (Z.mod_small j) by lia.
  reflexivity.
Qed.

Lemma offset_idx_640 n :
  0 ≤ n < 307200 →
  offset_idx 640 (2 * n) = if n mod 640 <? 320 then 0 else 1.
Proof.
  intros Hn. rewrite offset_idx_small by lia.
  destruct (Z.ltb_spec (n mod 640) 320) as [H|H];
    revert H; Z.div_mod_to_equations; lia.
Qed.

Lemma depth_ir_offsets_step n :
  0 ≤ n →
  (n mod 640 < 320 →
     depth_ir_offset0 (n + 1) = depth_ir_offset0 n + 2
     ∧ depth_ir_offset1 (n + 1) = depth_ir_offset1 n)
  ∧ (320 ≤ n mod 640 →
     depth_ir_offset0 (n + 1) = depth_ir_offset0 n
     ∧ depth_ir_offset1 (n + 1) = depth_ir_offset1 n + 2).
Proof.
  intros Hn. unfold depth_ir_offset0, depth_ir_offset1.
  split; intros H; revert H; Z.div_mod_to_equations; lia.
Qed.

Lemma depth_ir_offsets_range n :
  0 ≤ n ≤ 307200 →
  0 ≤ depth_ir_offset0 n ≤ 307200
  ∧ 307200 ≤ depth_ir_offset1 n ≤ 614400
  ∧ (n < 307200 → n mod 640 < 320 → depth_ir_offset0 n + 2 ≤ 307200)
  ∧ (n < 307200 → 320 ≤ n mod 640 → depth_ir_offset1 n + 2 ≤ 614400).
Proof.
  intros Hn. unfold depth_ir_offset0, depth_ir_offset1.
  repeat split; try intros H1 H2; try revert H2;
    Z.div_mod_to_equations; lia.
Qed.

Lemma depth_ir_source_offset0 n :
  0 ≤ n < 307200 → n mod 640 < 320 →
  depth_ir_source (depth_ir_offset0 n) = n
  ∧ depth_ir_source (depth_ir_offset0 n + 1) = n
  ∧ depth_ir_offset0 n mod 2 = 0
  ∧ (depth_ir_offset0 n + 1) mod 2 = 1.
Proof.
  intros Hn Hr.
  pose proof (depth_ir_offsets_range n ltac:(lia)) as (_ & _ & Hb & _).
  specialize (Hb ltac:(lia) Hr).
  unfold depth_ir_source.
  destruct (Z.ltb_spec (depth_ir_offset0 n) 307200); [|lia].
  destruct (Z.ltb_spec (depth_ir_offset0 n + 1) 307200); [|lia].
  clear Hb. unfold depth_ir_offset0 in *.
  revert Hr. Z.div_mod_to_equations. lia.
Qed.

Lemma depth_ir_source_offset1 n :
  0 ≤ n < 307200 → 320 ≤ n mod 640 →
  depth_ir_source (depth_ir_offset1 n) = n
  ∧ depth_ir_source (depth_ir_offset1 n + 1) = n
  ∧ depth_ir_offset1 n mod 2 = 0
  ∧ (depth_ir_offset1 n + 1) mod 2 = 1.
Proof.
  intros Hn Hr.
  pose proof (depth_ir_offsets_range n ltac:(lia)) as (_ & Hb & _).
  unfold depth_ir_source.
  destruct (Z.ltb_spec (depth_ir_offset1 n) 307200); [lia|].
  destruct (Z.ltb_spec (depth_ir_offset1 n + 1) 307200); [lia|].
  clear Hb. unfold depth_ir_offset1 in *.
  revert Hr. Z.div_mod_to_equations. lia.
Qed.

Section depth_ir_640x960.
Variables (pdata : Z → byte) (buffer : Z → Z).

Let run (n : nat) : unpack_state :=
  iterate n (body_depth_ir 640 pdata) (unpack_init 640 960 buffer).

Lemma depth_ir_run_invariant (n : nat) :
  Z.of_nat n ≤ 307200 →
  us_i (run n) = 3 * Z.of_nat n
  ∧ us_j (run n) = 2 * Z.of_nat n
  ∧ us_offset0 (run n) = depth_ir_offset0 (Z.of_nat n)
  ∧ us_offset1 (run n) = depth_ir_offset1 (Z.of_nat n)
  ∧ (∀ idx, depth_ir_filled (Z.of_nat n) idx →
       us_buffer (run n) idx = depth_ir_value pdata idx)
  ∧ (∀ idx, ¬ depth_ir_filled (Z.of_nat n) idx →
       us_buffer (run n) idx = buffer idx).
Proof.
  induction n as [|n IH]; intros Hn.
  - assert (depth_ir_offset0 0 = 0 ∧ depth_ir_offset1 0 = 307200)
      as [Z0 Z1] by (split; reflexivity).
    repeat split; try reflexivity.
    intros idx Hidx. exfalso. revert Hidx.
    unfold depth_ir_filled. change (Z.of_nat 0) with 0. lia.
  - destruct (IH ltac:(lia)) as (Hi & Hj & H0 & H1 & Hin & Hout).
    change (run (S n)) with (body_depth_ir 640 pdata (run n)).
    replace (Z.of_nat (S n)) with (Z.of_nat n + 1) by lia.
    set (m := Z.of_nat n) in *.
    assert (0 ≤ m < 307200) as Hm by lia.
    pose proof (depth_ir_offsets_step m ltac:(lia)) as [Hlow Hhigh].
    pose proof (depth_ir_offsets_range m ltac:(lia)) as (R0 & R1 & R0' & R1').
    unfold body_depth_ir. cbn [us_i us_j us_offset0 us_offset1 us_buffer].
    rewrite Hi, Hj, H0, H1, offset_idx_640 by lia.
    destruct (Z.ltb_spec (m mod 640) 320) as [Hr|Hr]; simpl (_ =? 0).
    + destruct (Hlow Hr) as [E0 E1]. specialize (R0' ltac:(lia) Hr).
      destruct (depth_ir_source_offset0 m Hm Hr) as (S0 & S1 & P0 & P1).
      unfold u32. rewrite (Z.mod_small (depth_ir_offset0 m + 1)) by lia.
      rewrite (Z.mod_small (depth_ir_offset0 m + 1 + 1)) by lia.
      repeat split; try lia.
      * intros idx Hidx.
        destruct (Z.eq_dec idx (depth_ir_offset0 m + 1)) as [->|N1].
        { rewrite fn_lookup_insert. unfold depth_ir_value.
          rewrite S1, P1. simpl. reflexivity. }
        rewrite fn_lookup_insert_ne by lia.
        destruct (Z.eq_dec idx (depth_ir_offset0 m)) as [->|N0].
        { rewrite fn_lookup_insert. unfold depth_ir_value.
          rewrite S0, P0. simpl. reflexivity. }
        rewrite fn_lookup_insert_ne by lia.
        apply Hin. unfold depth_ir_filled in *. lia.
      * intros idx Hidx.
        rewrite !fn_lookup_insert_ne
          by (intros <-; apply Hidx; unfold depth_ir_filled; lia).
        apply Hout. unfold depth_ir_filled in *. lia.
    + destruct (Hhigh Hr) as [E0 E1]. specialize (R1' ltac:(lia) Hr).
      destruct (depth_ir_source_offset1 m Hm Hr) as (S0 & S1 & P0 & P1).
      unfold u32. rewrite (Z.mod_small (depth_ir_offset1 m + 1)) by lia.
      rewrite (Z.mod_small (depth_ir_offset1 m + 1 + 1)) by lia.
      repeat split; try lia.
      * intros idx Hidx.
        destruct (Z.eq_dec idx (depth_ir_offset1 m + 1)) as [->|N1].
        { rewrite fn_lookup_insert. unfold depth_ir_value.
          rewrite S1, P1. simpl. reflexivity. }
        rewrite fn_lookup_insert_ne by lia.
        destruct (Z.eq_dec idx (depth_ir_offset1 m)) as [->|N0].
        { rewrite fn_lookup_insert. unfold depth_ir_value.
          rewrite S0, P0. simpl. reflexivity. }
        rewrite fn_lookup_insert_ne by lia.
        apply Hin. unfold depth_ir_filled in *. lia.
      * intros idx Hidx.
        rewrite !fn_lookup_insert_ne
          by (intros <-; apply Hidx; unfold depth_ir_filled; lia).
        apply Hout. unfold depth_ir_filled in *. lia.
Qed.
End depth_ir_640x960.

Lemma depth_ir_source_range idx :
  0 ≤ idx < 614400 → 0 ≤ depth_ir_source idx < 307200.
Proof.
  intros Hidx. unfold depth_ir_source.
  destruct (Z.ltb_spec idx 307200); Z.div_mod_to_equations; lia.
Qed.

Lemma predicted_offset_640x960 k :
  0 ≤ k < 307200 →
  predicted_offset 640 960 k
  = if k mod 640 <? 320 then depth_ir_offset0 k else depth_ir_offset1 k.
Proof.
  intros Hk. unfold predicted_offset, depth_ir_offset0, depth_ir_offset1.
  change (960 * 640 / 2) with 307200.
  destruct (Z.ltb_spec (k mod 640) 320) as [Hr|Hr];
    destruct (Z.eqb_spec ((2 * k / 640) mod 2) 0) as [Hp|Hp];
    revert Hr Hp; Z.div_mod_to_equations; lia.
Qed.

Lemma unpack_640x960_iterate pdata buffer n :
  Z.of_nat n = 307200 →
  unpack 640 960 pdata buffer
  = iterate n (body_depth_ir 640 pdata) (unpack_init 640 960 buffer).
Proof.
  intros Hn. rewrite unpack_depth_ir_iterate by lia.
  f_equal. change (trip_count (loop_bound 640 960)) with 307200. lia.
Qed.

(** The output of the 640x960 geometry, cell by cell. *)
Lemma unpack_640x960_cells pdata buffer idx :
  (0 ≤ idx < 614400 →
     us_buffer (unpack 640 960 pdata buffer) idx = depth_ir_value pdata idx)
  ∧ (¬ 0 ≤ idx < 614400 →
     us_buffer (unpack 640 960 pdata buffer) idx = buffer idx).
Proof.
  assert (Z.of_nat (Z.to_nat 307200) = 307200) as Hn by lia.
  rewrite (unpack_640x960_iterate pdata buffer _ Hn).
  destruct (depth_ir_run_invariant pdata buffer (Z.to_nat 307200) ltac:(lia))
    as (_ & _ & _ & _ & Hin & Hout).
  rewrite Hn in Hin, Hout.
  assert (depth_ir_offset0 307200 = 307200 ∧ depth_ir_offset1 307200 = 614400)
    as [E0 E1] by (split; reflexivity).
  split; intros Hidx.
  - apply Hin. unfold depth_ir_filled. lia.
  - apply Hout. unfold depth_ir_filled. lia.
Qed.

Lemma unpack_640x960_triplet pdata buffer k :
  0 ≤ k < 307200 →
  us_buffer (unpack 640 960 pdata buffer) (predicted_offset 640 960 k)
  = pixel_even (pdata (3 * k)) (pdata (3 * k + 2))
  ∧ us_buffer (unpack 640 960 pdata buffer) (predicted_offset 640 960 k + 1)
    = pixel_odd (pdata (3 * k + 1)) (pdata (3 * k + 2)).
Proof.
  intros Hk. rewrite predicted_offset_640x960 by lia.
  pose proof (depth_ir_offsets_range k ltac:(lia)) as (R0 & R1 & R0' & R1').
  destruct (Z.ltb_spec (k mod 640) 320) as [Hr|Hr].
  - destruct (depth_ir_source_offset0 k Hk Hr) as (S0 & S1 & P0 & P1).
    specialize (R0' ltac:(lia) Hr).
    rewrite (proj1 (unpack_640x960_cells pdata buffer (depth_ir_offset0 k)))
      by lia.
    rewrite (proj1 (unpack_640x960_cells pdata buffer (depth_ir_offset0 k + 1)))
      by lia.
    unfold depth_ir_value. rewrite S0, S1, P0, P1. split; reflexivity.
  - destruct (depth_ir_source_offset1 k Hk Hr) as (S0 & S1 & P0 & P1).
    specialize (R1' ltac:(lia) Hr).
    rewrite (proj1 (unpack_640x960_cells pdata buffer (depth_ir_offset1 k)))
      by lia.
    rewrite (proj1 (unpack_640x960_cells pdata buffer (depth_ir_offset1 k + 1)))
      by lia.
    unfold depth_ir_value. rewrite S0, S1, P0, P1. split; reflexivity.
Qed.

Lemma unpack_640x960_zero_plane pdata buffer idx :
  (∀ i, 0 ≤ i < 921600 → pdata i = x00) →
  0 ≤ idx < 614400 →
  us_buffer (unpack 640 960 pdata buffer) idx = 0.
Proof.
  intros Hzero Hidx.
  rewrite (proj1 (unpack_640x960_cells pdata buffer idx)) by lia.
  pose proof (depth_ir_source_range idx Hidx) as Hk.
  unfold depth_ir_value.
  rewrite !Hzero by lia.
  destruct (idx mod 2 =? 0); reflexivity.
Qed.

(** C3: for a width other than 668 the loop keeps two running offsets,
    starting at 0 and at [height * width / 2]; the pair of triplet [k] goes
    to the offset selected by [(pairCursor / width) % 2] with
    [pairCursor = 2 * k], and only that offset advances (by 2).  For
    640x960 the pair of triplet [k] ends up at [predicted_offset 640 960 k],
    nothing outside the [640 * 960] cells is written, and an all-zero plane
    of [640 * 960 * 3 / 2] bytes gives an all-zero array of [640 * 960]
    cells. *)
Theorem depth_ir_unpack_two_offsets
    (width height : Z) (pdata : Z → byte) (buffer : Z → Z) :
  width ≠ 668 → 0 ≤ height * width < 2^32 →
  let run k := iterate k (body_depth_ir width pdata)
                       (unpack_init width height buffer) in
  let out := us_buffer (unpack 640 960 pdata buffer) in
  unpack width height pdata buffer
  = run (Z.to_nat (trip_count (loop_bound width height)))
  ∧ us_offset0 (run 0%nat) = 0
  ∧ us_offset1 (run 0%nat) = height * width / 2
  ∧ (∀ k : nat, 2 * Z.of_nat k < 2^32 →
       let s := run k in
       let pairCursor := 2 * Z.of_nat k in
       let parity := (pairCursor / width) mod 2 in
       let off := if parity =? 0 then us_offset0 s else us_offset1 s in
       us_j s = pairCursor
       ∧ us_buffer (run (S k))
         = <[ u32 (off + 1) :=
                pixel_odd (pdata (3 * Z.of_nat k + 1))
                          (pdata (3 * Z.of_nat k + 2)) ]>
             (<[ off := pixel_even (pdata (3 * Z.of_nat k))
                                   (pdata (3 * Z.of_nat k + 2)) ]>
                (us_buffer s))
       ∧ us_offset0 (run (S k))
         = (if parity =? 0 then u32 (u32 (off + 1) + 1) else us_offset0 s)
       ∧ us_offset1 (run (S k))
         = (if parity =? 0 then us_offset1 s else u32 (u32 (off + 1) + 1)))
  ∧ (∀ k, 0 ≤ k < 640 * 960 / 2 →
       out (predicted_offset 640 960 k)
       = pixel_even (pdata (3 * k)) (pdata (3 * k + 2))
       ∧ out (predicted_offset 640 960 k + 1)
         = pixel_odd (pdata (3 * k + 1)) (pdata (3 * k + 2)))
  ∧ (∀ idx, ¬ 0 ≤ idx < 640 * 960 → out idx = buffer idx)
  ∧ ((∀ i, 0 ≤ i < 640 * 960 * 3 / 2 → pdata i = x00) →
     ∀ idx, 0 ≤ idx < 640 * 960 → out idx = 0).
Proof.
  intros Hw Hhw run out.
  split; [apply unpack_depth_ir_iterate; exact Hw|].
  split; [reflexivity|].
  split.
  { unfold run. simpl. unfold u32. rewrite Z.mod_small by lia. reflexivity. }
  split.
  { intros k Hk s pairCursor parity off.
    assert (us_j s = pairCursor) as Hj.
    { unfold s, run, pairCursor. clear. induction k as [|k IH]; [reflexivity|].
      simpl. rewrite IH. lia. }
    assert (us_i s = 3 * Z.of_nat k) as Hi.
    { unfold s, run. rewrite iterate_i by apply body_depth_ir_i. reflexivity. }
    assert (offset_idx width (us_j s) = parity) as Hp.
    { rewrite Hj. apply offset_idx_small. lia. }
    split; [exact Hj|].
    change (run (S k)) with (body_depth_ir width pdata s).
    unfold body_depth_ir. cbn [us_buffer us_offset0 us_offset1].
    rewrite Hp, Hi. fold off. repeat split. }
  split.
  { intros k Hk. apply unpack_640x960_triplet.
    change (640 * 960 / 2) with 307200 in Hk. exact Hk. }
  split.
  { intros idx Hidx. apply unpack_640x960_cells.
    change (640 * 960) with 614400 in Hidx. exact Hidx. }
  intros Hzero idx Hidx.
  apply unpack_640x960_zero_plane.
  - change (640 * 960 * 3 / 2) with 921600 in Hzero. exact Hzero.
  - change (640 * 960) with 614400 in Hidx. exact Hidx.
Qed.

(** The statement above at the 640x960 catalog geometry with an all-zero
    plane: the first cell of each half and the last cell are zero. *)
Lemma depth_ir_unpack_zero_plane_640x960 :
  640 ≠ 668 ∧ 0 ≤ 960 * 640 < 2^32
  ∧ (∀ i, 0 ≤ i < 640 * 960 * 3 / 2 → (λ _ : Z, x00) i = x00)
  ∧ us_buffer (unpack 640 960 (λ _, x00) (λ _, 9)) 0 = 0
  ∧ us_buffer (unpack 640 960 (λ _, x00) (λ _, 9)) 307200 = 0
  ∧ us_buffer (unpack 640 960 (λ _, x00) (λ _, 9)) 614399 = 0.
Proof.
  split; [lia|]. split; [lia|]. split; [reflexivity|].
  pose proof (depth_ir_unpack_two_offsets 640 960 (λ _, x00) (λ _, 9)
                ltac:(lia) ltac:(lia)) as H.
  cbv zeta in H. destruct H as (_ & _ & _ & _ & _ & _ & H).
  specialize (H (λ i _, eq_refl)).
  split; [apply (H 0); lia|]. split; [apply (H 307200); lia|].
  apply (H 614399); lia.
Defined.

(** ** The capture session *)

Ltac munfold :=
  unfold mbind, M_bind, mret, M_ret, get_impl, get_errno, get_trace,
         modify_impl, LOG, diverge, call in *.

Section LocalDevice_facts.
Variable driver : list event → syscall → response.
Variable memory : list event → Z → byte.
Variable retries : nat.
Variable details_ne : FrameDetails → FrameDetails → bool.

(** [xioctl] leaves the session fields alone. *)
Lemma xioctl_loop_impl n fh request w r w' :
  xioctl_loop driver n fh request w = Some (r, w') → impl w' = impl w.
Proof.
  revert w. induction n as [|n IH]; intros w H; simpl in H; munfold;
    simpl in H;
    destruct ((ret (driver (trace w) (sys_ioctl fh request)) =? -1)
              && ((if ret (driver (trace w) (sys_ioctl fh request)) =? -1
                   then err (driver (trace w) (sys_ioctl fh request))
                   else errno w) =? EINTR)
              && negb ((if ret (driver (trace w) (sys_ioctl fh request)) =? -1
                        then err (driver (trace w) (sys_ioctl fh request))
                        else errno w) =? 0)) eqn:Hretry;
    try discriminate.
  - injection H as <- <-. reflexivity.
  - apply IH in H. exact H.
  - injection H as <- <-. reflexivity.
Qed.

Lemma xioctl_impl fh request w r w' :
  xioctl driver retries fh request w = Some (r, w') → impl w' = impl w.
Proof. apply xioctl_loop_impl. Qed.

Lemma xioctl_buf_impl fh request w r w' :
  xioctl_buf driver retries fh request w = Some (r, w') →
  impl w' = set_planes (out_plane r) (impl w).
Proof.
  unfold xioctl_buf. munfold. intros H.
  destruct (xioctl driver retries fh request w) as [[r0 w0]|] eqn:Hx;
    [|discriminate].
  injection H as <- <-. simpl. apply xioctl_impl in Hx. rewrite Hx.
  reflexivity.
Qed.

Lemma start_enqueue_impl fuel i w b w' :
  start_enqueue driver retries fuel i w = Some (b, w') →
  started (impl w') = started (impl w)
  ∧ nVideoBuffers (impl w') = nVideoBuffers (impl w)
  ∧ fd (impl w') = fd (impl w).
Proof.
  revert i w. induction fuel as [|fuel IH]; intros i w H; simpl in H;
    munfold; destruct (i <? nVideoBuffers (impl w)); try discriminate;
    try (injection H as <- <-; auto; fail).
  destruct (xioctl_buf driver retries (fd (impl w)) (VIDIOC_QBUF i) w)
    as [[r w1]|] eqn:Hq; [|discriminate].
  apply xioctl_buf_impl in Hq.
  destruct (ret r =? -1).
  - injection H as <- <-. simpl. rewrite Hq. auto.
  - apply IH in H. rewrite Hq in H. exact H.
Qed.

Lemma calls_succeeded_app t0 new1 new2 :
  calls_succeeded driver t0 new1 →
  calls_succeeded driver (t0 ++ new1) new2 →
  calls_succeeded driver t0 (new1 ++ new2).
Proof.
  revert t0. induction new1 as [|e new1 IH]; intros t0 H1 H2; simpl.
  - rewrite app_nil_r in H2. exact H2.
  - destruct H1 as [He H1]. split; [exact He|].
    apply IH; [exact H1|]. rewrite <- app_assoc. exact H2.
Qed.

Lemma extends_cleanly_refl w : extends_cleanly driver w w.
Proof. exists []. rewrite app_nil_r. split; [reflexivity | exact I]. Qed.

Lemma extends_cleanly_trans w1 w2 w3 :
  extends_cleanly driver w1 w2 → extends_cleanly driver w2 w3 → extends_cleanly driver w1 w3.
Proof.
  intros (n1 & E1 & C1) (n2 & E2 & C2). exists (n1 ++ n2). split.
  - rewrite E2, E1, app_assoc. reflexivity.
  - apply calls_succeeded_app; [exact C1|]. rewrite <- E1. exact C2.
Qed.

Lemma extends_cleanly_logged s msg w : extends_cleanly driver w (logged s msg w).
Proof. exists [Log s msg]. simpl. auto. Qed.

Lemma xioctl_loop_clean n fh request w r w' :
  xioctl_loop driver n fh request w = Some (r, w') →
  ret r ≠ -1 → extends_cleanly driver w w'.
Proof.
  revert w. induction n as [|n IH]; intros w H Hr; simpl in H; munfold;
    simpl in H;
    set (r0 := driver (trace w) (sys_ioctl fh request)) in *;
    destruct (Z.eqb_spec (ret r0) (-1)) as [Hfail|Hok]; simpl in H.
  - destruct (Z.eqb_spec (err r0) EINTR) as [Hintr|_]; simpl in H.
    + destruct (err r0 =? 0); simpl in H; [|discriminate].
      injection H as <- <-. contradiction.
    + injection H as <- <-. contradiction.
  - injection H as <- <-. exists [Call (sys_ioctl fh request)].
    simpl. fold r0. split; [reflexivity|]. split; [intros; lia | exact I].
  - destruct (Z.eqb_spec (err r0) EINTR) as [Hintr|_]; simpl in H.
    + destruct (err r0 =? 0); simpl in H.
      * injection H as <- <-. contradiction.
      * apply IH in H; [|exact Hr].
        eapply extends_cleanly_trans; [|exact H].
        exists [Call (sys_ioctl fh request)]. simpl. fold r0.
        split; [reflexivity|]. split; [intros; exact Hintr | exact I].
    + injection H as <- <-. contradiction.
  - injection H as <- <-. exists [Call (sys_ioctl fh request)].
    simpl. fold r0. split; [reflexivity|]. split; [intros; lia | exact I].
Qed.

Lemma xioctl_buf_clean fh request w r w' :
  xioctl_buf driver retries fh request w = Some (r, w') →
  ret r ≠ -1 → extends_cleanly driver w w'.
Proof.
  unfold xioctl_buf, xioctl. munfold. intros H Hr.
  destruct (xioctl_loop driver retries fh request w) as [[r0 w0]|] eqn:Hx;
    [|discriminate].
  injection H as <- <-.
  apply xioctl_loop_clean in Hx; [|exact Hr].
  destruct Hx as (new & E & C). exists new. simpl. auto.
Qed.

Lemma start_enqueue_clean fuel i w w' :
  start_enqueue driver retries fuel i w = Some (true, w') →
  extends_cleanly driver w w'.
Proof.
  revert i w. induction fuel as [|fuel IH]; intros i w H; simpl in H;
    munfold; destruct (i <? nVideoBuffers (impl w)); try discriminate;
    try (injection H as <-; apply extends_cleanly_refl).
  destruct (xioctl_buf driver retries (fd (impl w)) (VIDIOC_QBUF i) w)
    as [[r w1]|] eqn:Hq; [|discriminate].
  destruct (Z.eqb_spec (ret r) (-1)); [discriminate|].
  apply xioctl_buf_clean in Hq; [|assumption].
  apply IH in H. eapply extends_cleanly_trans; eassumption.
Qed.

(** C7: [start] on a started session and [stop] on a stopped one return
    [BUSY] and leave the session as it was; whatever else makes either of
    them return a status other than [OK] leaves the [started] flag as it
    was.  Only an [OK] return flips the flag, and [OK] is returned only
    when none of the calls made (the enqueues and the stream-on, or the
    stream-off) failed. *)
Theorem start_stop_busy_and_failures_keep_started (w : World) :
  (started (impl w) = true →
     ∃ w', start driver retries w = Some (BUSY, w')
           ∧ impl w' = impl w
           ∧ trace w' = trace w ++ [Log INFO "Device already started"])
  ∧ (started (impl w) = false →
     ∃ w', stop driver retries w = Some (BUSY, w')
           ∧ impl w' = impl w
           ∧ trace w' = trace w ++ [Log INFO "Device already stopped"])
  ∧ (∀ status w', start driver retries w = Some (status, w') →
       (status ≠ OK → started (impl w') = started (impl w))
       ∧ (status = OK → started (impl w) = false ∧ started (impl w') = true
                        ∧ extends_cleanly driver w w')
       ∧ (started (impl w) = false → status = OK ∨ status = GENERIC_ERROR))
  ∧ (∀ status w', stop driver retries w = Some (status, w') →
       (status ≠ OK → started (impl w') = started (impl w))
       ∧ (status = OK → started (impl w) = true ∧ started (impl w') = false
                        ∧ extends_cleanly driver w w')
       ∧ (started (impl w) = true → status = OK ∨ status = GENERIC_ERROR)).
Proof.
  split; [|split; [|split]].
  - intros Hs. unfold start. munfold. rewrite Hs. eauto.
  - intros Hs. unfold stop. munfold. rewrite Hs. simpl. eauto.
  - intros status w'. unfold start. munfold.
    destruct (started (impl w)) eqn:Hs.
    { intros H. injection H as <- <-. simpl. rewrite Hs.
      repeat split; congruence. }
    simpl. set (w0 := logged _ _ _).
    destruct (start_enqueue driver retries _ 0 w0) as [[queued w1]|] eqn:Hq;
      [|discriminate].
    pose proof (start_enqueue_impl _ _ _ _ _ Hq) as (Hq' & _ & _).
    simpl in Hq'.
    destruct queued.
    + destruct (xioctl driver retries (fd (impl w)) VIDIOC_STREAMON w1)
        as [[r w2]|] eqn:Hx; [|discriminate].
      pose proof (xioctl_impl _ _ _ _ _ Hx) as Hx'.
      destruct (Z.eqb_spec (ret r) (-1)) as [Hr|Hr];
        intros H; injection H as <- <-; simpl;
        rewrite ?Hx', ?Hq', ?Hs; repeat split; auto; try congruence.
      apply extends_cleanly_trans with w0;
        [apply extends_cleanly_logged|].
      apply extends_cleanly_trans with w1;
        [apply start_enqueue_clean in Hq; exact Hq|].
      apply xioctl_loop_clean in Hx; [|exact Hr].
      destruct Hx as (new & E & C). exists new. auto.
    + intros H. injection H as <- <-. rewrite Hq', Hs.
      repeat split; auto; congruence.
  - intros status w'. unfold stop. munfold.
    destruct (started (impl w)) eqn:Hs; simpl.
    2:{ intros H. injection H as <- <-. simpl. rewrite Hs.
        repeat split; congruence. }
    set (w0 := logged _ _ _).
    destruct (xioctl driver retries (fd (impl w)) VIDIOC_STREAMOFF w0)
      as [[r w1]|] eqn:Hx; [|discriminate].
    pose proof (xioctl_impl _ _ _ _ _ Hx) as Hx'. simpl in Hx'.
    destruct (Z.eqb_spec (ret r) (-1)) as [Hr|Hr];
      intros H; injection H as <- <-; simpl;
      rewrite ?Hx', ?Hs; repeat split; auto; try congruence.
    apply extends_cleanly_trans with w0; [apply extends_cleanly_logged|].
    apply xioctl_loop_clean in Hx; [|exact Hr].
    destruct Hx as (new & E & C). exists new. auto.
Qed.

(** C6: [getFrame] waits on the capture descriptor with a timeout of 4
    seconds and 0 microseconds; when [select] reports that nothing became
    ready it returns [GENERIC_ERROR] having made no other call (no dequeue,
    no re-queue), with the caller's array and the session fields as they
    were. *)
Theorem getFrame_select_timeout (buffer : Z → Z) (w : World) :
  let wait := sys_select (fd (impl w) + 1) (fd (impl w)) 4 0 in
  ret (driver (trace w) wait) = 0 →
  getFrame driver memory retries buffer w
  = Some ((GENERIC_ERROR, buffer),
          mk_World (impl w) (errno w)
                   (trace w ++ [Call wait] ++ [Log WARNING "select timeout"])).
Proof.
  intros wait Hret. unfold getFrame. munfold. fold wait.
  rewrite Hret. simpl. unfold logged. simpl. rewrite <- app_assoc.
  reflexivity.
Qed.

Lemma setFrameType_allocate_ok details w w' :
  setFrameType_allocate driver retries details w = Some (OK, w') →
  frameDetails (impl w') = details.
Proof.
  unfold setFrameType_allocate. munfold. intros H.
  destruct (xioctl driver retries _ (VIDIOC_S_FMT _ _) w) as [[f w1]|];
    [|discriminate].
  destruct (ret f =? -1); [discriminate|].
  destruct (xioctl driver retries _ (VIDIOC_REQBUFS 4) w1) as [[q w2]|];
    [|discriminate].
  destruct (ret q =? -1); [discriminate|].
  destruct (ret (driver (trace w2) (sys_calloc (u32 (out_count q)))) =? 0);
    [discriminate|].
  match type of H with
  | match ?m with _ => _ end = _ => destruct m as [[mapped w3]|]
  end; [|discriminate].
  destruct mapped; [|discriminate].
  injection H as <-. reflexivity.
Qed.

(** C8: when the requested details compare equal to the stored ones and the
    pool holds at least one buffer, [setFrameType] returns [OK] and the
    world is exactly what it was: same buffers and count, same stored
    details, no call and no log added.  Hence a second [setFrameType] with
    the details of a first, successful one changes nothing (as long as that
    first one left at least one buffer and the details compare equal to
    themselves). *)
Theorem setFrameType_same_details_is_noop (details : FrameDetails) (w : World) :
  (details_ne details (frameDetails (impl w)) = false →
   nVideoBuffers (impl w) ≠ 0 →
   setFrameType driver retries details_ne details w = Some (OK, w))
  ∧ (∀ w1,
       setFrameType driver retries details_ne details w = Some (OK, w1) →
       details_ne details details = false →
       nVideoBuffers (impl w1) ≠ 0 →
       setFrameType driver retries details_ne details w1 = Some (OK, w1)).
Proof.
  assert (∀ v, details_ne details (frameDetails (impl v)) = false →
               nVideoBuffers (impl v) ≠ 0 →
               setFrameType driver retries details_ne details v = Some (OK, v))
    as Hnoop.
  { intros v Heq Hn. unfold setFrameType, setFrameType_release. munfold.
    rewrite Heq. destruct (Z.eqb_spec (nVideoBuffers (impl v)) 0); [lia|].
    simpl. destruct v; reflexivity. }
  split; [apply Hnoop|].
  intros w1 Hfirst Hrefl Hn. apply Hnoop; [|exact Hn].
  revert Hfirst. unfold setFrameType, setFrameType_release. munfold.
  destruct (details_ne details (frameDetails (impl w))) eqn:Hne.
  - match goal with
    | |- match match ?m with _ => _ end with _ => _ end = _ → _ =>
        destruct m as [[unmapped w2]|]
    end; [|discriminate].
    destruct unmapped; [|discriminate].
    destruct (free_videoBuffers driver w2) as [[freed w3]|]; [|discriminate].
    intros H. apply setFrameType_allocate_ok in H. rewrite H. exact Hrefl.
  - destruct (nVideoBuffers (impl w) =? 0); simpl.
    + intros H. apply setFrameType_allocate_ok in H. rewrite H. exact Hrefl.
    + intros H. injection H as <-. exact Hne.
Qed.

(** C9: every call returns [OK] and appends to the caller's vector exactly
    the two catalog entries, 640x960 "depth_ir" then 668x750 "raw", each
    with calibration offset 0 and gain 1; on an empty vector the result is
    exactly that catalog. *)
Theorem getAvailableFrameTypes_catalog (types : list FrameDetails) :
  getAvailableFrameTypes types
  = (OK, types ++ [ mk_FrameDetails 640 960 "depth_ir" (mk_FrameCalData 0 1);
                    mk_FrameDetails 668 750 "raw" (mk_FrameCalData 0 1) ])
  ∧ getAvailableFrameTypes []
    = (OK, [ mk_FrameDetails 640 960 "depth_ir" (mk_FrameCalData 0 1);
             mk_FrameDetails 668 750 "raw" (mk_FrameCalData 0 1) ]).
Proof.
  unfold getAvailableFrameTypes. rewrite <- app_assoc. split; reflexivity.
Qed.

(** C5 (as amended): once [select] has reported the descriptor ready and
    the dequeue [ioctl] has returned, [getFrame] fails in exactly three
    cases: the dequeue failed with an [errno] other than [EAGAIN] and [EIO]
    (nothing further is done); or the buffer index left by the driver is
    not below [nVideoBuffers] (again nothing further is done); or, past
    these two checks, the re-queue [ioctl] fails.  After a tolerated
    dequeue failure the method goes on with the index the driver left. *)
Theorem getFrame_failure_after_dequeue
    (buffer : Z → Z) (w : World) (b : response) (w1 : World) :
  let wait := sys_select (fd (impl w) + 1) (fd (impl w)) 4 0 in
  let ready := mk_World (impl w) (errno w) (trace w ++ [Call wait]) in
  let index := u32 (out_index b) in
  let dequeue_fatal :=
    ret b = -1 ∧ errno w1 ≠ EAGAIN ∧ errno w1 ≠ EIO in
  let out_of_range := nVideoBuffers (impl w) ≤ index in
  let w2 := if ret b =? -1 then logged WARNING "VIDIOC_DQBUF error" w1
            else w1 in
  let pdata := λ i,
    memory (trace w2) (b_start (buffer_at (impl w) index) + i) in
  let unpacked :=
    us_buffer (unpack (width (frameDetails (impl w)))
                      (height (frameDetails (impl w))) pdata buffer) in
  ret (driver (trace w) wait) ≠ -1 →
  ret (driver (trace w) wait) ≠ 0 →
  xioctl_buf driver retries (fd (impl w)) VIDIOC_DQBUF ready = Some (b, w1) →
  (dequeue_fatal →
     getFrame driver memory retries buffer w
     = Some ((GENERIC_ERROR, buffer), w2))
  ∧ (¬ dequeue_fatal → out_of_range →
     getFrame driver memory retries buffer w
     = Some ((GENERIC_ERROR, buffer),
             logged WARNING "Not enough buffers avaialable" w2))
  ∧ (¬ dequeue_fatal → ¬ out_of_range →
     ∀ q w3,
       xioctl_buf driver retries (fd (impl w)) (VIDIOC_QBUF index) w2
       = Some (q, w3) →
       getFrame driver memory retries buffer w
       = Some (if ret q =? -1
               then ((GENERIC_ERROR, unpacked),
                     logged WARNING "VIDIOC_QBUF error" w3)
               else ((OK, unpacked), w3))).
Proof.
  intros wait ready index dequeue_fatal out_of_range w2 pdata unpacked
         Hsel1 Hsel0 Hdq.
  assert (getFrame driver memory retries buffer w
          = getFrame_dequeue driver memory retries buffer ready) as ->.
  { unfold getFrame. munfold. fold wait.
    destruct (Z.eqb_spec (ret (driver (trace w) wait)) (-1)); [contradiction|].
    destruct (Z.eqb_spec (ret (driver (trace w) wait)) 0); [contradiction|].
    reflexivity. }
  pose proof (xioctl_buf_impl _ _ _ _ _ Hdq) as Himpl. simpl in Himpl.
  assert (impl w2 = set_planes (out_plane b) (impl w)) as Himpl2.
  { unfold w2. destruct (ret b =? -1); exact Himpl. }
  assert (∀ v, impl v = set_planes (out_plane b) (impl w) →
            getFrame_process driver memory retries index buffer v
            = if nVideoBuffers (impl w) <=? index
              then Some ((GENERIC_ERROR, buffer),
                         logged WARNING "Not enough buffers avaialable" v)
              else match xioctl_buf driver retries (fd (impl w))
                           (VIDIOC_QBUF index) v with
                   | Some (q, w3) =>
                       Some (if ret q =? -1
                             then ((GENERIC_ERROR,
                                    us_buffer
                                      (unpack (width (frameDetails (impl w)))
                                         (height (frameDetails (impl w)))
                                         (λ i, memory (trace v)
                                            (b_start (buffer_at (impl w) index)
                                             + i)) buffer)),
                                   logged WARNING "VIDIOC_QBUF error" w3)
                             else ((OK,
                                    us_buffer
                                      (unpack (width (frameDetails (impl w)))
                                         (height (frameDetails (impl w)))
                                         (λ i, memory (trace v)
                                            (b_start (buffer_at (impl w) index)
                                             + i)) buffer)), w3))
                   | None => None
                   end) as Hprocess.
  { intros v Hv. unfold getFrame_process. munfold.
    assert (nVideoBuffers (impl v) = nVideoBuffers (impl w)
            ∧ fd (impl v) = fd (impl w)
            ∧ frameDetails (impl v) = frameDetails (impl w)
            ∧ buffer_at (impl v) index = buffer_at (impl w) index)
      as (-> & -> & -> & ->) by (rewrite Hv; repeat split).
    destruct (nVideoBuffers (impl w) <=? index); [reflexivity|].
    destruct (xioctl_buf driver retries (fd (impl w)) (VIDIOC_QBUF index) v)
      as [[q w3]|]; [|reflexivity].
    destruct (ret q =? -1); reflexivity. }
  assert (getFrame_dequeue driver memory retries buffer ready
          = if (ret b =? -1) && negb ((errno w1 =? EAGAIN) || (errno w1 =? EIO))
            then Some ((GENERIC_ERROR, buffer), w2)
            else getFrame_process driver memory retries index buffer w2)
    as ->.
  { unfold getFrame_dequeue. munfold. simpl. rewrite Hdq. fold index.
    unfold w2. destruct (ret b =? -1); simpl; [|reflexivity].
    destruct ((errno w1 =? EAGAIN) || (errno w1 =? EIO)); reflexivity. }
  rewrite (Hprocess w2 Himpl2).
  assert (dequeue_fatal ↔
          (ret b =? -1) && negb ((errno w1 =? EAGAIN) || (errno w1 =? EIO))
          = true) as Hfatal.
  { unfold dequeue_fatal.
    destruct (Z.eqb_spec (ret b) (-1)), (Z.eqb_spec (errno w1) EAGAIN),
             (Z.eqb_spec (errno w1) EIO); simpl; intuition congruence. }
  split; [|split].
  - intros Hf. apply Hfatal in Hf. rewrite Hf. reflexivity.
  - intros Hf Hr.
    destruct ((ret b =? -1) && negb ((errno w1 =? EAGAIN) || (errno w1 =? EIO)));
      [exfalso; apply Hf, Hfatal; reflexivity|].
    destruct (Z.leb_spec (nVideoBuffers (impl w)) index); [reflexivity|].
    unfold out_of_range in Hr. lia.
  - intros Hf Hr q w3 Hq.
    destruct ((ret b =? -1) && negb ((errno w1 =? EAGAIN) || (errno w1 =? EIO)));
      [exfalso; apply Hf, Hfatal; reflexivity|].
    destruct (Z.leb_spec (nVideoBuffers (impl w)) index);
      [unfold out_of_range in Hr; lia|].
    rewrite Hq. destruct (ret q =? -1); reflexivity.
Qed.

End LocalDevice_facts.

(** ** Closed examples on concrete drivers *)

(** A fresh session asked for 640x960: format set, four buffers requested,
    each queried and mapped, details stored. *)
Example setFrameType_allocates_four_buffers :
  match setFrameType granting_driver 0 fieldwise_ne depth_ir_details
                     opened_world with
  | Some (status, w') =>
      status = OK
      ∧ nVideoBuffers (impl w') = 4
      ∧ videoBuffers (impl w')
        = [mk_buffer 65536 921600; mk_buffer 987136 921600;
           mk_buffer 1908736 921600; mk_buffer 2830336 921600]
      ∧ frameDetails (impl w') = depth_ir_details
      ∧ calls_succeeded granting_driver [] (trace w')
      ∧ trace w'
        = [Call sys_free;
           Call (sys_ioctl 3 (VIDIOC_S_FMT 640 960));
           Call (sys_ioctl 3 (VIDIOC_REQBUFS 4));
           Call (sys_calloc 4);
           Call (sys_ioctl 3 (VIDIOC_QUERYBUF 0)); Call (sys_mmap 921600 3 0);
           Call (sys_ioctl 3 (VIDIOC_QUERYBUF 1));
           Call (sys_mmap 921600 3 921600);
           Call (sys_ioctl 3 (VIDIOC_QUERYBUF 2));
           Call (sys_mmap 921600 3 1843200);
           Call (sys_ioctl 3 (VIDIOC_QUERYBUF 3));
           Call (sys_mmap 921600 3 2764800)]
  | None => False
  end.
Proof. vm_compute. repeat split; intros; discriminate. Qed.

(** [start] on two buffers: both are enqueued in index order, then the
    stream is switched on. *)
Example start_enqueues_in_order :
  match start granting_driver 0 (two_buffer_world false) with
  | Some (status, w') =>
      status = OK ∧ started (impl w') = true
      ∧ trace w' = [Log INFO "Starting device";
                    Call (sys_ioctl 3 (VIDIOC_QBUF 0));
                    Call (sys_ioctl 3 (VIDIOC_QBUF 1));
                    Call (sys_ioctl 3 VIDIOC_STREAMON)]
  | None => False
  end.
Proof. vm_compute. repeat split. Qed.

(** One frame of the 2x2 session: wait, dequeue, unpack, re-queue. *)
Example getFrame_tiny_world :
  match getFrame granting_driver (λ _ a, sample_plane (a - 4096)) 0
                 (λ _, -1) tiny_world with
  | Some ((status, out), w') =>
      status = OK
      ∧ map out (seqZ 0 5) = [0x101; 0x112; 0x203; 0x214; -1]
      ∧ trace w' = [Call (sys_select 4 3 4 0);
                    Call (sys_ioctl 3 VIDIOC_DQBUF);
                    Call (sys_ioctl 3 (VIDIOC_QBUF 0))]
  | None => False
  end.
Proof. vm_compute. repeat split. Qed.

(** The timeout statement on a driver whose [select] returns 0. *)
Lemma getFrame_select_timeout_silent_driver :
  ret (silent_driver [] (sys_select (3 + 1) 3 4 0)) = 0
  ∧ getFrame silent_driver zero_memory 0 (λ _, 0) (two_buffer_world true)
    = Some ((GENERIC_ERROR, λ _, 0),
            mk_World (impl (two_buffer_world true)) 0
                     [Call (sys_select (3 + 1) 3 4 0);
                      Log WARNING "select timeout"]).
Proof.
  split; [reflexivity|].
  exact (getFrame_select_timeout silent_driver zero_memory 0 (λ _, 0)
           (two_buffer_world true) eq_refl).
Defined.

(** [start] on a started session, and [start] against a driver that fails
    every [ioctl]. *)
Lemma start_busy_and_failing_driver :
  started (impl (two_buffer_world true)) = true
  ∧ (∃ w', start granting_driver 0 (two_buffer_world true) = Some (BUSY, w')
           ∧ impl w' = impl (two_buffer_world true)
           ∧ trace w' = [Log INFO "Device already started"])
  ∧ (∀ status w',
       start failing_driver 0 (two_buffer_world false) = Some (status, w') →
       status ≠ OK → started (impl w') = false).
Proof.
  split; [reflexivity|]. split.
  - exact (proj1 (start_stop_busy_and_failures_keep_started
                    granting_driver 0 (two_buffer_world true)) eq_refl).
  - intros status w' H Hs.
    exact (proj1 (proj1 (proj2 (proj2
             (start_stop_busy_and_failures_keep_started
                failing_driver 0 (two_buffer_world false)))) status w' H) Hs).
Defined.

(** [setFrameType] with the stored details on a pool of two buffers. *)
Lemma setFrameType_same_details_two_buffers :
  fieldwise_ne depth_ir_details
    (frameDetails (impl (two_buffer_world false))) = false
  ∧ nVideoBuffers (impl (two_buffer_world false)) ≠ 0
  ∧ setFrameType granting_driver 0 fieldwise_ne depth_ir_details
      (two_buffer_world false)
    = Some (OK, two_buffer_world false).
Proof.
  split; [reflexivity|]. split; [discriminate|].
  apply (proj1 (setFrameType_same_details_is_noop granting_driver 0
                  fieldwise_ne depth_ir_details (two_buffer_world false)));
    [reflexivity | discriminate].
Defined.

(** With a driver that dequeues buffer 0 and then refuses the re-queue,
    [getFrame] fails although the dequeue succeeded and index 0 is below
    the buffer count 1. *)
Lemma getFrame_fails_on_requeue_alone :
  let w := tiny_world in
  let ready := mk_World (impl w) (errno w)
                        (trace w ++ [Call (sys_select (3 + 1) 3 4 0)]) in
  match xioctl_buf requeue_failing_driver 0 3 VIDIOC_DQBUF ready,
        getFrame requeue_failing_driver zero_memory 0 (λ _, 0) w with
  | Some (b, _), Some ((status, _), _) =>
      ret b ≠ -1
      ∧ u32 (out_index b) < nVideoBuffers (impl w)
      ∧ status = GENERIC_ERROR
  | _, _ => False
  end.
Proof.
  vm_compute. repeat split; discriminate.
Qed.

(** The amended statement on the same run: the two checks after the
    dequeue pass, the re-queue fails, and that is what fails the call. *)
Lemma getFrame_failure_after_dequeue_tiny_world :
  let w := tiny_world in
  let drv := requeue_failing_driver in
  let wait := sys_select (3 + 1) 3 4 0 in
  let ready := mk_World (impl w) (errno w) (trace w ++ [Call wait]) in
  let b := respond 0 in
  let w1 := mk_World (set_planes (mk_plane 0 0) (impl w)) 0
                     [Call wait; Call (sys_ioctl 3 VIDIOC_DQBUF)] in
  let q := mk_response (-1) 22 0 0 (mk_plane 0 0) in
  let w3 := mk_World (set_planes (mk_plane 0 0) (impl w)) 22
                     [Call wait; Call (sys_ioctl 3 VIDIOC_DQBUF);
                      Call (sys_ioctl 3 (VIDIOC_QBUF 0))] in
  ret (drv (trace w) wait) ≠ -1
  ∧ ret (drv (trace w) wait) ≠ 0
  ∧ xioctl_buf drv 0 3 VIDIOC_DQBUF ready = Some (b, w1)
  ∧ xioctl_buf drv 0 3 (VIDIOC_QBUF 0) w1 = Some (q, w3)
  ∧ ∃ unpacked,
      getFrame drv zero_memory 0 (λ _, 0) w
      = Some ((GENERIC_ERROR, unpacked),
              logged WARNING "VIDIOC_QBUF error" w3).
Proof.
  intros w drv wait ready b w1 q w3.
  assert (ret (drv (trace w) wait) ≠ -1) as H1 by discriminate.
  assert (ret (drv (trace w) wait) ≠ 0) as H0 by discriminate.
  assert (xioctl_buf drv 0 3 VIDIOC_DQBUF ready = Some (b, w1)) as Hdq
    by reflexivity.
  assert (xioctl_buf drv 0 3 (VIDIOC_QBUF 0) w1 = Some (q, w3)) as Hq
    by reflexivity.
  repeat (split; [assumption|]).
  destruct (getFrame_failure_after_dequeue drv zero_memory 0 (λ _, 0)
              w b w1 H1 H0 Hdq) as (_ & _ & Hrequeue).
  assert (¬ (ret b = -1 ∧ errno w1 ≠ EAGAIN ∧ errno w1 ≠ EIO)) as Hfatal
    by (intros [H _]; discriminate H).
  assert (¬ nVideoBuffers (impl w) ≤ u32 (out_index b)) as Hrange
    by (vm_compute; intros H; apply H; reflexivity).
  eexists. apply (Hrequeue Hfatal Hrange q w3 Hq).
Defined.

(** C4 at a failing input: two mapped buffers, a request for another
    geometry, and a driver that cannot unmap the second buffer.
    [setFrameType] returns [GENERIC_ERROR] from inside its unmap loop: the
    failure is logged, but the buffer count stays 2 and the table still
    lists the region at 4096 that was just unmapped.  The destructor on the
    same session logs the failure and carries on to [free] and both
    [close]s. *)
Theorem setFrameType_unmap_failure_aborts_release :
  match setFrameType unmap_failing_driver 0 fieldwise_ne raw_details
                     (two_buffer_world false) with
  | Some (status, w') =>
      status = GENERIC_ERROR
      ∧ nVideoBuffers (impl w') = 2
      ∧ videoBuffers (impl w')
        = [mk_buffer 4096 921600; mk_buffer 8192 921600]
      ∧ trace w' = [Call (sys_munmap 4096 921600);
                    Call (sys_munmap 8192 921600);
                    Log WARNING "munmap error"]
  | None => False
  end
  ∧ match destroy unmap_failing_driver 0 (two_buffer_world false) with
    | Some (_, w') =>
        trace w' = [Call (sys_munmap 4096 921600);
                    Call (sys_munmap 8192 921600);
                    Log WARNING "munmap error";
                    Call sys_free; Call (sys_close 3); Call (sys_close 4)]
    | None => False
    end.
Proof.
  vm_compute. repeat split.
Qed.

(** ** The packet loop of [writeAfeRegisters] *)

Lemma size_t_sub_packet len :
  0 ≤ len < 2^64 →
  0 ≤ size_t (len - CTRL_PACKET_SIZE) < 2^64
  ∧ size_t (len - CTRL_PACKET_SIZE) mod 4096 = len mod 4096.
Proof.
  intros Hlen. unfold size_t, CTRL_PACKET_SIZE.
  change (2^64) with (4096 * 4503599627370496) in *.
  Z.div_mod_to_equations. lia.
Qed.

Lemma xioctl_granted fh id size buf w :
  xioctl granting_driver 0 fh (VIDIOC_S_EXT_CTRLS id size buf) w
  = Some (respond 0,
          mk_World (impl w) (errno w)
                   (trace w ++ [Call (sys_ioctl fh
                                        (VIDIOC_S_EXT_CTRLS id size buf))])).
Proof. reflexivity. Qed.

(** While the driver accepts every packet, a remaining length that is not
    a multiple of the packet size never becomes 0. *)
Lemma writeAfeRegisters_loop_never_returns fuel address data len sampleCnt w :
  0 ≤ len < 2^64 → len mod 4096 ≠ 0 →
  writeAfeRegisters_loop granting_driver 0 fuel address data len sampleCnt w
  = None.
Proof.
  revert len sampleCnt w.
  induction fuel as [|fuel IH]; intros len sampleCnt w Hlen Hmod;
    assert (len ≠ 0) as Hnz by (intros ->; apply Hmod; reflexivity);
    cbn [writeAfeRegisters_loop];
    destruct (Z.eqb_spec len 0) as [|_]; try contradiction.
  - reflexivity.
  - destruct (fill_packet _ address data len 0 empty_packet sampleCnt)
      as [buf sampleCnt'].
    munfold. rewrite xioctl_granted. cbn [ret respond Z.eqb].
    destruct (size_t_sub_packet len Hlen) as [Hrange Hsame].
    apply IH; [exact Hrange | rewrite Hsame; exact Hmod].
Qed.

(** A remaining length that is a multiple of the packet size is used up by
    that many packets. *)
Lemma writeAfeRegisters_loop_returns packets address data sampleCnt w :
  4096 * Z.of_nat packets < 2^64 →
  ∃ w', writeAfeRegisters_loop granting_driver 0 packets address data
          (4096 * Z.of_nat packets) sampleCnt w = Some (OK, w').
Proof.
  revert sampleCnt w.
  induction packets as [|packets IH]; intros sampleCnt w Hlen.
  - eexists. reflexivity.
  - cbn [writeAfeRegisters_loop].
    destruct (Z.eqb_spec (4096 * Z.of_nat (S packets)) 0); [lia|].
    destruct (fill_packet _ address data _ 0 empty_packet sampleCnt)
      as [buf sampleCnt'].
    munfold. rewrite xioctl_granted. cbn [ret respond Z.eqb].
    replace (size_t (4096 * Z.of_nat (S packets) - CTRL_PACKET_SIZE))
      with (4096 * Z.of_nat packets).
    + apply IH. lia.
    + unfold size_t, CTRL_PACKET_SIZE. rewrite Z.mod_small; lia.
Qed.

(** C10 at a failing input: asked to write a single register, the method
    sends its one packet, leaves [length] at [4 - 4096] wrapped to
    [2^64 - 4092], and from then on keeps sending packets: whatever the
    number of packets the model follows, the call has not returned. *)
Theorem writeAfeRegisters_one_register_never_returns
    (fuel : nat) (address data : Z → Z) (w : World) :
  writeAfeRegisters granting_driver 0 fuel address data 1 w = None
  ∧ size_t (size_t (1 * (2 * 2)) - CTRL_PACKET_SIZE) = 2^64 - 4092.
Proof.
  split; [|reflexivity].
  unfold writeAfeRegisters.
  apply writeAfeRegisters_loop_never_returns; vm_compute; intuition congruence.
Qed.

(** * Further properties of the unpacker *)

Lemma raw_write_index n :
  0 ≤ n → raw_cursor n - rewind (3 * n) = 2 * n - 4 * (n / 336).
Proof.
  intros Hn. rewrite rewind_triplet by lia. unfold raw_cursor.
  destruct (Z.eqb_spec n 0) as [->|Hn0]; simpl; [reflexivity|].
  destruct (Z.eqb_spec (n mod 336) 0) as [H|H];
    revert H; Z.div_mod_to_equations; lia.
Qed.

Lemma raw_source_written n :
  0 ≤ n →
  let jw := 2 * n - 4 * (n / 336) in
  0 ≤ jw
  ∧ (n mod 336 < 334 →
       raw_source jw = n ∧ raw_source (jw + 1) = n
       ∧ jw mod 2 = 0 ∧ (jw + 1) mod 2 = 1)
  ∧ (334 ≤ n mod 336 → n < raw_source jw ∧ n < raw_source (jw + 1))
  ∧ (∀ idx, 0 ≤ idx → raw_source idx = n → idx = jw ∨ idx = jw + 1).
Proof.
  intros Hn jw. unfold raw_source, jw.
  split; [Z.div_mod_to_equations; lia|].
  split; [intros H; revert H; Z.div_mod_to_equations; lia|].
  split; [intros H; revert H; Z.div_mod_to_equations; lia|].
  intros idx Hidx H. revert H. Z.div_mod_to_equations. lia.
Qed.

Section raw_rows.
Variables (height : Z) (pdata : Z → byte) (buffer : Z → Z).

Let run (k : nat) : unpack_state :=
  iterate k (body_raw pdata) (unpack_init 668 height buffer).

Lemma raw_run_cells (n : nat) idx :
  0 ≤ idx → raw_source idx < Z.of_nat n →
  us_buffer (run n) idx = raw_value pdata idx.
Proof.
  revert idx. induction n as [|n IH]; intros idx Hidx Hsrc.
  - exfalso. revert Hsrc. unfold raw_source. Z.div_mod_to_equations. lia.
  - change (run (S n)) with (body_raw pdata (run n)).
    rewrite body_raw_buffer.
    unfold run at 1 2 3 4 5 6 7 8.
    rewrite raw_run_j, raw_run_i.
    rewrite raw_write_index by lia.
    set (m := Z.of_nat n) in *.
    destruct (raw_source_written m ltac:(lia)) as (Hjw & Hlow & Hhigh & Honly).
    cbv zeta in Hjw, Hlow, Hhigh, Honly.
    set (jw := 2 * m - 4 * (m / 336)) in *.
    destruct (Z.eq_dec idx (jw + 1)) as [->|N1].
    { rewrite fn_lookup_insert.
      destruct (Z.lt_ge_cases (m mod 336) 334) as [Hr|Hr].
      - destruct (Hlow Hr) as (_ & S1 & _ & P1).
        unfold raw_value. rewrite S1, P1. reflexivity.
      - destruct (Hhigh Hr) as [_ H]. lia. }
    rewrite fn_lookup_insert_ne by lia.
    destruct (Z.eq_dec idx jw) as [->|N0].
    { rewrite fn_lookup_insert.
      destruct (Z.lt_ge_cases (m mod 336) 334) as [Hr|Hr].
      - destruct (Hlow Hr) as (S0 & _ & P0 & _).
        unfold raw_value. rewrite S0, P0. reflexivity.
      - destruct (Hhigh Hr) as [H _]. lia. }
    rewrite fn_lookup_insert_ne by lia.
    apply IH; [exact Hidx|].
    destruct (Z.eq_dec (raw_source idx) m) as [E|E]; [|lia].
    destruct (Honly idx Hidx E); contradiction.
Qed.
End raw_rows.

(** X1: the [width == 668] loop drops the last 4 pixels of every
    672-pixel input line.  For every input line [r] whose triplet
    [336 * r + c / 2] lies in the plane, cell [c] (below 668) of output row
    [r] holds pixel [c] of that line: the even or odd pixel of the triplet
    that starts at byte [1008 * r + 3 * (c / 2)]. *)
Theorem raw_unpack_realigns_rows
    (height : Z) (pdata : Z → byte) (buffer : Z → Z) (r c : Z) :
  0 < height → height * 668 * 3 < 2^32 →
  0 ≤ r → 0 ≤ c < 668 → 336 * r + c / 2 < height * 668 / 2 →
  let first := 1008 * r + 3 * (c / 2) in
  us_buffer (unpack 668 height pdata buffer) (668 * r + c)
  = if c mod 2 =? 0
    then pixel_even (pdata first) (pdata (first + 2))
    else pixel_odd (pdata (first + 1)) (pdata (first + 2)).
Proof.
  intros Hh Hb Hr Hc Hk first.
  rewrite unpack_raw_iterate, raw_trip_count by lia.
  assert (raw_source (668 * r + c) = 336 * r + c / 2) as Hsrc
    by (unfold raw_source; Z.div_mod_to_equations; lia).
  rewrite raw_run_cells.
  - unfold raw_value. rewrite Hsrc.
    replace ((668 * r + c) mod 2) with (c mod 2)
      by (Z.div_mod_to_equations; lia).
    replace (3 * (336 * r + c / 2)) with first by (unfold first; lia).
    reflexivity.
  - lia.
  - rewrite Hsrc, Z2Nat.id; [exact Hk | apply Z.div_pos; lia].
Qed.

(** The statement above on the last cell of the first row of 668x750. *)
Lemma raw_unpack_realigns_row0_cell667 :
  0 < 750 ∧ 750 * 668 * 3 < 2^32
  ∧ us_buffer (unpack 668 750 sample_plane (λ _, -1)) (668 * 0 + 667)
    = pixel_odd (sample_plane (1008 * 0 + 3 * (667 / 2) + 1))
                (sample_plane (1008 * 0 + 3 * (667 / 2) + 2)).
Proof.
  split; [lia|]. split; [lia|].
  exact (raw_unpack_realigns_rows 750 sample_plane (λ _, -1) 0 667
           ltac:(lia) ltac:(lia) ltac:(lia) ltac:(lia)
           ltac:(vm_compute; reflexivity)).
Defined.

Lemma pixel_even_12bit b0 b2 : 0 ≤ pixel_even b0 b2 < 4096.
Proof. destruct (pixel_even_value b0 b2) as (_ & _ & H). exact H. Qed.

Lemma pixel_odd_12bit b1 b2 : 0 ≤ pixel_odd b1 b2 < 4096.
Proof. destruct (pixel_odd_value b1 b2) as (_ & _ & H). exact H. Qed.

Lemma iterate_cells_12bit body (buffer : Z → Z) k s :
  (∀ s idx,
     (us_buffer s idx = buffer idx ∨ 0 ≤ us_buffer s idx < 4096) →
     us_buffer (body s) idx = buffer idx
     ∨ 0 ≤ us_buffer (body s) idx < 4096) →
  (∀ idx, us_buffer s idx = buffer idx ∨ 0 ≤ us_buffer s idx < 4096) →
  ∀ idx, us_buffer (iterate k body s) idx = buffer idx
         ∨ 0 ≤ us_buffer (iterate k body s) idx < 4096.
Proof.
  intros Hbody Hs. induction k as [|k IH]; intros idx; simpl.
  - apply Hs.
  - apply Hbody, IH.
Qed.

Lemma insert_cell_12bit (buffer f : Z → Z) p v idx :
  0 ≤ v < 4096 →
  (f idx = buffer idx ∨ 0 ≤ f idx < 4096) →
  <[ p := v ]> f idx = buffer idx ∨ 0 ≤ <[ p := v ]> f idx < 4096.
Proof.
  intros Hv Hf. destruct (Z.eq_dec p idx) as [->|Hne].
  - rewrite fn_lookup_insert. right. exact Hv.
  - rewrite fn_lookup_insert_ne by exact Hne. exact Hf.
Qed.

(** X2: whatever the geometry and the bytes of the plane, every cell of
    the array after unpacking either still holds what the caller's array
    held or holds a 12-bit value. *)
Theorem unpack_cells_are_12bit_or_untouched
    (width height : Z) (pdata : Z → byte) (buffer : Z → Z) (idx : Z) :
  us_buffer (unpack width height pdata buffer) idx = buffer idx
  ∨ 0 ≤ us_buffer (unpack width height pdata buffer) idx < 4096.
Proof.
  destruct (Z.eq_dec width 668) as [->|Hw].
  - rewrite unpack_raw_iterate. apply iterate_cells_12bit.
    + intros s i Hs. rewrite body_raw_buffer.
      apply insert_cell_12bit; [apply pixel_odd_12bit|].
      apply insert_cell_12bit; [apply pixel_even_12bit | exact Hs].
    + intros i. left. reflexivity.
  - rewrite unpack_depth_ir_iterate by exact Hw. apply iterate_cells_12bit.
    + intros s i Hs. unfold body_depth_ir. cbn [us_buffer].
      apply insert_cell_12bit; [apply pixel_odd_12bit|].
      apply insert_cell_12bit; [apply pixel_even_12bit | exact Hs].
    + intros i. left. reflexivity.
Qed.

Lemma same_state_refl s : same_state s s.
Proof. repeat split. Qed.

Lemma body_raw_same pdata1 pdata2 s1 s2 :
  same_state s1 s2 →
  (∀ d, 0 ≤ d < 3 → pdata1 (us_i s1 + d) = pdata2 (us_i s1 + d)) →
  same_state (body_raw pdata1 s1) (body_raw pdata2 s2).
Proof.
  intros (Hi & Hj & H0 & H1 & Hb) Hp.
  pose proof (Hp 0 ltac:(lia)) as P0. rewrite Z.add_0_r in P0.
  pose proof (Hp 1 ltac:(lia)) as P1. pose proof (Hp 2 ltac:(lia)) as P2.
  unfold same_state. rewrite !body_raw_j, !body_raw_buffer.
  unfold body_raw at 1 2 3 4 5 6. cbn [us_i us_offset0 us_offset1].
  rewrite <- Hi, <- Hj, <- P0, <- P1, <- P2.
  repeat split; try congruence.
  intros idx. unfold insert, fn_insert.
  repeat destruct (decide _); auto.
Qed.

Lemma body_depth_ir_same width pdata1 pdata2 s1 s2 :
  same_state s1 s2 →
  (∀ d, 0 ≤ d < 3 → pdata1 (us_i s1 + d) = pdata2 (us_i s1 + d)) →
  same_state (body_depth_ir width pdata1 s1) (body_depth_ir width pdata2 s2).
Proof.
  intros (Hi & Hj & H0 & H1 & Hb) Hp.
  pose proof (Hp 0 ltac:(lia)) as P0. rewrite Z.add_0_r in P0.
  pose proof (Hp 1 ltac:(lia)) as P1. pose proof (Hp 2 ltac:(lia)) as P2.
  unfold same_state, body_depth_ir.
  cbn [us_i us_j us_offset0 us_offset1 us_buffer].
  rewrite <- Hi, <- Hj, <- H0, <- H1, <- P0, <- P1, <- P2.
  repeat split.
  intros idx. unfold insert, fn_insert.
  repeat destruct (decide _); auto.
Qed.

Lemma iterate_same body1 body2 k s :
  (∀ s, us_i (body1 s) = us_i s + 3) →
  (∀ (j : nat) s1 s2, (j < k)%nat → same_state s1 s2 →
     us_i s1 = us_i s + 3 * Z.of_nat j →
     same_state (body1 s1) (body2 s2)) →
  same_state (iterate k body1 s) (iterate k body2 s).
Proof.
  intros Hstep Hbody. induction k as [|k IH]; simpl.
  - apply same_state_refl.
  - apply (Hbody k); [lia | | apply iterate_i; exact Hstep].
    apply IH. intros j s1 s2 Hj. apply Hbody. lia.
Qed.

(** X3: the unpacker reads the plane only below byte
    [3 * trip_count (loop_bound width height)]: two planes that agree
    there give the same cells and the same final locals. *)
Theorem unpack_reads_only_its_triplets
    (width height : Z) (pdata1 pdata2 : Z → byte) (buffer : Z → Z) :
  (∀ i, 0 ≤ i < 3 * trip_count (loop_bound width height) →
        pdata1 i = pdata2 i) →
  same_state (unpack width height pdata1 buffer)
             (unpack width height pdata2 buffer).
Proof.
  intros Hagree.
  set (n := trip_count (loop_bound width height)) in *.
  assert (∀ (j : nat) (s1 : unpack_state),
            (j < Z.to_nat n)%nat → us_i s1 = 0 + 3 * Z.of_nat j →
            ∀ d, 0 ≤ d < 3 → pdata1 (us_i s1 + d) = pdata2 (us_i s1 + d))
    as Hin.
  { intros j s1 Hj Hi d Hd. apply Hagree. lia. }
  destruct (Z.eq_dec width 668) as [->|Hw].
  - rewrite !unpack_raw_iterate. fold n.
    apply iterate_same; [apply body_raw_i|].
    intros j s1 s2 Hj Hs Hi. apply body_raw_same; [exact Hs|].
    apply (Hin j); assumption.
  - rewrite !unpack_depth_ir_iterate by exact Hw. fold n.
    apply iterate_same; [apply body_depth_ir_i|].
    intros j s1 s2 Hj Hs Hi. apply body_depth_ir_same; [exact Hs|].
    apply (Hin j); assumption.
Qed.

(** The statement above on two planes that differ from byte 6 on, for the
    2x2 geometry (two triplets). *)
Lemma unpack_reads_only_its_triplets_2x2 :
  (∀ i, 0 ≤ i < 3 * trip_count (loop_bound 2 2) →
        sample_plane i = plane_of [x10; x11; x21; x20; x21; x43] i)
  ∧ same_state (unpack 2 2 sample_plane (λ _, 0))
               (unpack 2 2 (plane_of [x10; x11; x21; x20; x21; x43])
                       (λ _, 0)).
Proof.
  assert (∀ i, 0 ≤ i < 3 * trip_count (loop_bound 2 2) →
               sample_plane i = plane_of [x10; x11; x21; x20; x21; x43] i)
    as H.
  { intros i Hi. change (3 * trip_count (loop_bound 2 2)) with 6 in Hi.
    assert (i = 0 ∨ i = 1 ∨ i = 2 ∨ i = 3 ∨ i = 4 ∨ i = 5)
      as [->|[->|[->|[->|[->| ->]]]]] by lia; reflexivity. }
  split; [exact H|].
  exact (unpack_reads_only_its_triplets 2 2 _ _ (λ _, 0) H).
Defined.

(** X4: with a zero width or a zero height (the geometry of a session
    whose frame type was never set) the unpacker does not run a single
    iteration: the array and the cursor are left as they were. *)
Theorem unpack_empty_geometry
    (width height : Z) (pdata : Z → byte) (buffer : Z → Z) :
  width = 0 ∨ height = 0 →
  unpack width height pdata buffer = unpack_init width height buffer
  ∧ us_buffer (unpack width height pdata buffer) = buffer
  ∧ us_j (unpack width height pdata buffer) = 0.
Proof.
  intros Hz.
  assert (trip_count (loop_bound width height) = 0) as Hn.
  { unfold loop_bound.
    assert (height * width = 0) as -> by (destruct Hz; subst; lia).
    reflexivity. }
  assert (unpack width height pdata buffer = unpack_init width height buffer)
    as ->.
  { destruct (Z.eq_dec width 668) as [->|Hw].
    - rewrite unpack_raw_iterate, Hn. reflexivity.
    - rewrite unpack_depth_ir_iterate, Hn by exact Hw. reflexivity. }
  repeat split.
Qed.

(** The statement above on the cleared geometry 0x0. *)
Lemma unpack_empty_geometry_0x0 :
  (0 = 0 ∨ 0 = 0)
  ∧ us_buffer (unpack 0 0 sample_plane (λ _, 5)) = (λ _, 5).
Proof.
  split; [left; reflexivity|].
  exact (proj1 (proj2 (unpack_empty_geometry 0 0 sample_plane (λ _, 5)
                         (or_introl eq_refl)))).
Defined.

(** * Further properties of the capture session *)

Lemma same_but_planes_refl d : same_but_planes d d.
Proof. exists (planes d). destruct d; reflexivity. Qed.

Lemma same_but_planes_trans d1 d2 d3 :
  same_but_planes d1 d2 → same_but_planes d2 d3 → same_but_planes d1 d3.
Proof. intros [p ->] [q ->]. exists q. reflexivity. Qed.

Lemma same_but_planes_fields d d' :
  same_but_planes d d' →
  fd d' = fd d ∧ sfd d' = sfd d ∧ videoBuffers d' = videoBuffers d
  ∧ nVideoBuffers d' = nVideoBuffers d ∧ frameDetails d' = frameDetails d
  ∧ started d' = started d.
Proof. intros [p ->]. repeat split. Qed.

Lemma calls_of_app t1 t2 : calls_of (t1 ++ t2) = calls_of t1 ++ calls_of t2.
Proof.
  induction t1 as [|[c|s m] t1 IH]; simpl; [reflexivity| |exact IH].
  rewrite IH. reflexivity.
Qed.

Section LocalDevice_more_facts.
Variable driver : list event → syscall → response.
Variable memory : list event → Z → byte.
Variable retries : nat.
Variable details_ne : FrameDetails → FrameDetails → bool.

(** One round of the retry loop. *)
Lemma xioctl_loop_step n fh request w :
  let r0 := driver (trace w) (sys_ioctl fh request) in
  let w0 := mk_World (impl w) (if ret r0 =? -1 then err r0 else errno w)
                     (trace w ++ [Call (sys_ioctl fh request)]) in
  xioctl_loop driver n fh request w
  = if (ret r0 =? -1) && (err r0 =? EINTR)
    then match n with
         | O => None
         | S n' => xioctl_loop driver n' fh request w0
         end
    else Some (r0, w0).
Proof.
  intros r0 w0. subst w0.
  destruct n; simpl; munfold; simpl; fold r0;
    destruct (Z.eqb_spec (ret r0) (-1)) as [Hf|Hf]; simpl;
    try reflexivity;
    destruct (Z.eqb_spec (err r0) EINTR) as [He|He]; simpl;
    try reflexivity; rewrite !He; reflexivity.
Qed.

Lemma xioctl_outcome_now n fh request w :
  let r0 := driver (trace w) (sys_ioctl fh request) in
  ¬ (ret r0 = -1 ∧ err r0 = EINTR) →
  xioctl_outcome driver n fh request w r0
    (mk_World (impl w) (if ret r0 =? -1 then err r0 else errno w)
              (trace w ++ [Call (sys_ioctl fh request)])).
Proof.
  intros r0 Hnot. exists 0%nat. simpl. rewrite app_nil_r.
  split; [lia|]. split; [reflexivity|]. split; [reflexivity|].
  split; [intros; lia|]. split; [exact Hnot|].
  intros Hr. fold r0. destruct (Z.eqb_spec (ret r0) (-1)); [reflexivity|].
  contradiction.
Qed.

Lemma xioctl_loop_uninterrupted n fh request w r w' :
  xioctl_loop driver n fh request w = Some (r, w') →
  xioctl_outcome driver n fh request w r w'.
Proof.
  revert w. induction n as [|n IH]; intros w H;
    rewrite xioctl_loop_step in H; cbv zeta in H.
  - pose proof (xioctl_outcome_now 0 fh request w) as Hnow.
    cbv zeta in Hnow.
    set (r0 := driver (trace w) (sys_ioctl fh request)) in *.
    destruct (Z.eqb_spec (ret r0) (-1)) as [Hf|Hf];
      [destruct (Z.eqb_spec (err r0) EINTR) as [He|He]|]; simpl in H;
      try discriminate;
      injection H as <- <-; apply Hnow; intros [? ?]; contradiction.
  - pose proof (xioctl_outcome_now (S n) fh request w) as Hnow.
    cbv zeta in Hnow.
    set (r0 := driver (trace w) (sys_ioctl fh request)) in *.
    destruct (Z.eqb_spec (ret r0) (-1)) as [Hf|Hf];
      [destruct (Z.eqb_spec (err r0) EINTR) as [He|He]|]; simpl in H;
      try (injection H as <- <-; apply Hnow; intros [? ?]; contradiction).
    apply IH in H.
    destruct H as (k & Hk & Ht & Hr & Hprev & Hlast & Herr).
    cbn [trace] in Ht, Hr, Hprev.
    exists (S k). rewrite <- app_assoc in Ht, Hr. simpl in Ht, Hr.
    split; [lia|]. split; [exact Ht|]. split; [exact Hr|].
    split; [|split; [exact Hlast | exact Herr]].
    intros [|j] Hj; simpl.
    + rewrite app_nil_r. fold r0. split; assumption.
    + specialize (Hprev j ltac:(lia)). simpl in Hprev.
      rewrite <- app_assoc in Hprev. exact Hprev.
Qed.

(** X5: [xioctl] repeats the [ioctl] as long as it is interrupted, and
    never hands an interrupted call back: when it returns after [k]
    retries, it has made [k + 1] identical calls and nothing else, the
    first [k] were answered -1 with [EINTR], the result is the answer to
    the last one and is not an [EINTR] failure, and the session fields are
    untouched. *)
Theorem xioctl_retries_while_interrupted
    (fh : Z) (request : ioctl_request) (w : World) (r : response)
    (w' : World) :
  xioctl driver retries fh request w = Some (r, w') →
  impl w' = impl w
  ∧ ∃ k : nat,
      (k ≤ retries)%nat
      ∧ trace w' = trace w ++ replicate (S k) (Call (sys_ioctl fh request))
      ∧ r = driver (trace w ++ replicate k (Call (sys_ioctl fh request)))
                   (sys_ioctl fh request)
      ∧ (∀ j : nat, (j < k)%nat →
           let a :=
             driver (trace w ++ replicate j (Call (sys_ioctl fh request)))
                    (sys_ioctl fh request) in
           ret a = -1 ∧ err a = EINTR)
      ∧ ¬ (ret r = -1 ∧ err r = EINTR)
      ∧ (ret r = -1 → errno w' = err r).
Proof.
  intros H. split; [exact (xioctl_impl _ _ _ _ _ _ _ H)|].
  exact (xioctl_loop_uninterrupted _ _ _ _ _ _ H).
Qed.


Lemma start_enqueue_planes fuel i w b w' :
  start_enqueue driver retries fuel i w = Some (b, w') →
  same_but_planes (impl w) (impl w').
Proof.
  revert i w. induction fuel as [|fuel IH]; intros i w H; simpl in H;
    munfold; destruct (i <? nVideoBuffers (impl w)); try discriminate;
    try (injection H as <- <-; apply same_but_planes_refl).
  destruct (xioctl_buf driver retries (fd (impl w)) (VIDIOC_QBUF i) w)
    as [[r w1]|] eqn:Hq; [|discriminate].
  apply xioctl_buf_impl in Hq.
  assert (same_but_planes (impl w) (impl w1)) as Hw1
    by (exists (out_plane r); exact Hq).
  destruct (ret r =? -1).
  - injection H as <- <-. exact Hw1.
  - apply IH in H. eapply same_but_planes_trans; eassumption.
Qed.

(** The three ways [start] can end. *)
Lemma start_outcome w status w' :
  start driver retries w = Some (status, w') →
  (status = BUSY ∧ started (impl w) = true
   ∧ w' = logged INFO "Device already started" w)
  ∨ (status = GENERIC_ERROR ∧ started (impl w) = false
     ∧ same_but_planes (impl w) (impl w'))
  ∨ (status = OK ∧ started (impl w) = false
     ∧ ∃ p, impl w' = set_started true (set_planes p (impl w))).
Proof.
  unfold start. munfold. destruct (started (impl w)) eqn:Hs.
  { intros H. injection H as <- <-. left. auto. }
  set (w0 := logged _ _ _).
  destruct (start_enqueue driver retries _ 0 w0) as [[queued w1]|] eqn:Hq;
    [|discriminate].
  apply start_enqueue_planes in Hq. simpl in Hq.
  destruct queued.
  - destruct (xioctl driver retries (fd (impl w)) VIDIOC_STREAMON w1)
      as [[r w2]|] eqn:Hx; [|discriminate].
    apply xioctl_impl in Hx.
    destruct (ret r =? -1); intros H; injection H as <- <-; right.
    + left. simpl. rewrite Hx. auto.
    + right. simpl. rewrite Hx. destruct Hq as [p ->]. eauto.
  - intros H. injection H as <- <-. right. left. auto.
Qed.

(** The three ways [stop] can end. *)
Lemma stop_outcome w status w' :
  stop driver retries w = Some (status, w') →
  (status = BUSY ∧ started (impl w) = false
   ∧ w' = logged INFO "Device already stopped" w)
  ∨ (status = GENERIC_ERROR ∧ started (impl w) = true ∧ impl w' = impl w)
  ∨ (status = OK ∧ started (impl w) = true
     ∧ impl w' = set_started false (impl w)).
Proof.
  unfold stop. munfold. destruct (started (impl w)) eqn:Hs; simpl.
  2:{ intros H. injection H as <- <-. left. auto. }
  set (w0 := logged _ _ _).
  destruct (xioctl driver retries (fd (impl w)) VIDIOC_STREAMOFF w0)
    as [[r w1]|] eqn:Hx; [|discriminate].
  apply xioctl_impl in Hx. simpl in Hx.
  destruct (ret r =? -1); intros H; injection H as <- <-; right.
  - left. simpl. auto.
  - right. simpl. rewrite Hx. auto.
Qed.

(** X6: [start] and [stop] alternate.  Right after a successful [start] a
    second [start] returns [BUSY] (adding only a log line) and [stop] is
    not refused as [BUSY]; right after a successful [stop] a second [stop]
    returns [BUSY] and [start] is not refused; and a successful [start]
    followed by a successful [stop] leaves every session field as it was
    before the two, except for the plane data the driver wrote. *)
Theorem start_stop_alternate (w w1 : World) :
  (start driver retries w = Some (OK, w1) →
     start driver retries w1
     = Some (BUSY, logged INFO "Device already started" w1)
     ∧ (∀ status w2, stop driver retries w1 = Some (status, w2) →
          status ≠ BUSY)
     ∧ (∀ w2, stop driver retries w1 = Some (OK, w2) →
          same_but_planes (impl w) (impl w2)))
  ∧ (stop driver retries w = Some (OK, w1) →
     stop driver retries w1
     = Some (BUSY, logged INFO "Device already stopped" w1)
     ∧ (∀ status w2, start driver retries w1 = Some (status, w2) →
          status ≠ BUSY)).
Proof.
  split; intros H.
  - apply start_outcome in H as [(? & _)|[(? & _)|(_ & Hs & p & Hw1)]];
      try discriminate.
    assert (started (impl w1) = true) as Hs1 by (rewrite Hw1; reflexivity).
    split; [|split].
    + unfold start. munfold. rewrite Hs1. reflexivity.
    + intros status w2 H2.
      apply stop_outcome in H2 as [(_ & Hf & _)|[(-> & _)|(-> & _)]];
        congruence.
    + intros w2 H2.
      apply stop_outcome in H2 as [(? & _)|[(? & _)|(_ & _ & Hw2)]];
        try discriminate.
      exists p. rewrite Hw2, Hw1. destruct w as [[] ? ?]. simpl in *.
      subst. reflexivity.
  - apply stop_outcome in H as [(? & _)|[(? & _)|(_ & Hs & Hw1)]];
      try discriminate.
    assert (started (impl w1) = false) as Hs1 by (rewrite Hw1; reflexivity).
    split.
    + unfold stop. munfold. rewrite Hs1. reflexivity.
    + intros status w2 H2.
      apply start_outcome in H2 as [(_ & Hf & _)|[(-> & _)|(-> & _)]];
        congruence.
Qed.


Lemma xioctl_buf_outcome fh request w r w' :
  xioctl_buf driver retries fh request w = Some (r, w') →
  impl w' = set_planes (out_plane r) (impl w)
  ∧ ∃ k : nat,
      trace w' = trace w ++ replicate (S k) (Call (sys_ioctl fh request)).
Proof.
  intros H. split; [exact (xioctl_buf_impl _ _ _ _ _ _ _ H)|].
  unfold xioctl_buf, xioctl in H. munfold.
  destruct (xioctl_loop driver retries fh request w) as [[r0 w0]|] eqn:Hx;
    [|discriminate].
  injection H as <- <-.
  apply xioctl_loop_uninterrupted in Hx as (k & _ & Ht & _).
  exists k. exact Ht.
Qed.

Lemma calls_of_replicate k c :
  calls_of (replicate k (Call c)) = replicate k c.
Proof. induction k as [|k IH]; simpl; [reflexivity | rewrite IH; reflexivity]. Qed.

Lemma errno_logged s msg w : errno (logged s msg w) = errno w.
Proof. reflexivity. Qed.

Lemma getFrame_process_planes index buffer v res v' :
  getFrame_process driver memory retries index buffer v = Some (res, v') →
  same_but_planes (impl v) (impl v').
Proof.
  unfold getFrame_process. munfold.
  destruct (nVideoBuffers (impl v) <=? index).
  { intros H. injection H as <- <-. apply same_but_planes_refl. }
  destruct (xioctl_buf driver retries (fd (impl v)) (VIDIOC_QBUF index) v)
    as [[q w3]|] eqn:Hq; [|discriminate].
  apply xioctl_buf_impl in Hq.
  destruct (ret q =? -1); intros H; injection H as <- <-;
    exists (out_plane q); exact Hq.
Qed.

Lemma getFrame_planes buffer w res w' :
  getFrame driver memory retries buffer w = Some (res, w') →
  same_but_planes (impl w) (impl w').
Proof.
  unfold getFrame. munfold.
  set (r0 := driver (trace w) _).
  destruct (ret r0 =? -1).
  { intros H. injection H as <- <-. apply same_but_planes_refl. }
  destruct (ret r0 =? 0).
  { intros H. injection H as <- <-. apply same_but_planes_refl. }
  unfold getFrame_dequeue. munfold. cbn [impl].
  set (ready := mk_World _ _ _).
  destruct (xioctl_buf driver retries (fd (impl w)) VIDIOC_DQBUF ready)
    as [[b w1]|] eqn:Hdq; [|discriminate].
  apply xioctl_buf_impl in Hdq. cbn [impl] in Hdq.
  assert (same_but_planes (impl w) (impl w1)) as Hw1
    by (exists (out_plane b); exact Hdq).
  destruct (ret b =? -1).
  - rewrite !errno_logged.
    destruct ((errno w1 =? EAGAIN) || (errno w1 =? EIO)).
    + intros H. apply getFrame_process_planes in H.
      eapply same_but_planes_trans; eassumption.
    + intros H. injection H as <- <-. exact Hw1.
  - intros H. apply getFrame_process_planes in H.
    eapply same_but_planes_trans; eassumption.
Qed.

(** X7: [start], [stop] and [getFrame] never touch the descriptors, the
    buffer table, the buffer count or the stored frame details, whatever
    the driver answers and whatever status they return; [getFrame] does not
    touch the [started] flag either. *)
Theorem streaming_methods_keep_the_pool (w w' : World) :
  (∀ status, start driver retries w = Some (status, w') →
     fd (impl w') = fd (impl w) ∧ sfd (impl w') = sfd (impl w)
     ∧ videoBuffers (impl w') = videoBuffers (impl w)
     ∧ nVideoBuffers (impl w') = nVideoBuffers (impl w)
     ∧ frameDetails (impl w') = frameDetails (impl w))
  ∧ (∀ status, stop driver retries w = Some (status, w') →
     fd (impl w') = fd (impl w) ∧ sfd (impl w') = sfd (impl w)
     ∧ videoBuffers (impl w') = videoBuffers (impl w)
     ∧ nVideoBuffers (impl w') = nVideoBuffers (impl w)
     ∧ frameDetails (impl w') = frameDetails (impl w))
  ∧ (∀ buffer res,
       getFrame driver memory retries buffer w = Some (res, w') →
       fd (impl w') = fd (impl w) ∧ sfd (impl w') = sfd (impl w)
       ∧ videoBuffers (impl w') = videoBuffers (impl w)
       ∧ nVideoBuffers (impl w') = nVideoBuffers (impl w)
       ∧ frameDetails (impl w') = frameDetails (impl w)
       ∧ started (impl w') = started (impl w)).
Proof.
  split; [|split].
  - intros status H.
    apply start_outcome in H as [(_ & _ & ->)|[(_ & _ & Hp)|(_ & _ & p & ->)]].
    + repeat split.
    + apply same_but_planes_fields in Hp. tauto.
    + repeat split.
  - intros status H.
    apply stop_outcome in H as [(_ & _ & ->)|[(_ & _ & ->)|(_ & _ & ->)]];
      repeat split.
  - intros buffer res H. apply getFrame_planes in H.
    apply same_but_planes_fields in H. tauto.
Qed.

(** X8: on a session whose pool is empty (no successful [setFrameType]
    yet, or a failed one) [getFrame] can only fail: whatever the driver
    answers, the status is [GENERIC_ERROR], the caller's array is returned
    as it was, and the only calls made are the [select] and, if it
    reported readiness, the dequeue attempts: nothing is ever re-queued. *)
Theorem getFrame_empty_pool_fails
    (buffer : Z → Z) (w : World) (status : Status) (out : Z → Z)
    (w' : World) :
  nVideoBuffers (impl w) = 0 →
  getFrame driver memory retries buffer w = Some ((status, out), w') →
  status = GENERIC_ERROR ∧ out = buffer
  ∧ ∃ k : nat,
      calls_of (trace w')
      = calls_of (trace w)
        ++ sys_select (fd (impl w) + 1) (fd (impl w)) 4 0
           :: replicate k (sys_ioctl (fd (impl w)) VIDIOC_DQBUF).
Proof.
  intros Hn. unfold getFrame. munfold.
  set (wait := sys_select _ _ _ _).
  set (r0 := driver (trace w) wait).
  destruct (ret r0 =? -1).
  { intros H. injection H as <- <- <-. repeat split. exists 0%nat.
    unfold logged. cbn [trace]. rewrite !calls_of_app. simpl.
    rewrite app_nil_r. reflexivity. }
  destruct (ret r0 =? 0).
  { intros H. injection H as <- <- <-. repeat split. exists 0%nat.
    unfold logged. cbn [trace]. rewrite !calls_of_app. simpl.
    rewrite app_nil_r. reflexivity. }
  unfold getFrame_dequeue. munfold. cbn [impl].
  set (ready := mk_World _ _ _).
  destruct (xioctl_buf driver retries (fd (impl w)) VIDIOC_DQBUF ready)
    as [[b w1]|] eqn:Hdq; [|discriminate].
  apply xioctl_buf_outcome in Hdq as (Himpl & k & Ht).
  subst ready. cbn [impl trace] in Himpl, Ht.
  assert (calls_of (trace w1)
          = calls_of (trace w)
            ++ wait :: replicate (S k) (sys_ioctl (fd (impl w)) VIDIOC_DQBUF))
    as Hcalls.
  { rewrite Ht.
    rewrite !calls_of_app, calls_of_replicate.
    rewrite <- app_assoc. reflexivity. }
  assert (∀ v, impl v = impl w1 → calls_of (trace v) = calls_of (trace w1) →
            getFrame_process driver memory retries (u32 (out_index b))
                             buffer v = Some ((status, out), w') →
            status = GENERIC_ERROR ∧ out = buffer
            ∧ ∃ k0 : nat,
                calls_of (trace w')
                = calls_of (trace w)
                  ++ wait
                     :: replicate k0 (sys_ioctl (fd (impl w)) VIDIOC_DQBUF))
    as Hprocess.
  { intros v Hv Hvt. unfold getFrame_process. munfold.
    rewrite Hv, Himpl. cbn [nVideoBuffers set_planes]. rewrite Hn.
    assert (0 ≤ u32 (out_index b)) as Hidx
      by (unfold u32; apply Z.mod_pos_bound; lia).
    destruct (Z.leb_spec 0 (u32 (out_index b))) as [_|?]; [|lia].
    intros H. injection H as <- <- <-. repeat split.
    exists (S k). unfold logged. cbn [trace].
    rewrite calls_of_app, Hvt, Hcalls. simpl. rewrite app_nil_r.
    reflexivity. }
  destruct (ret b =? -1).
  - rewrite !errno_logged.
    destruct ((errno w1 =? EAGAIN) || (errno w1 =? EIO)).
    + apply Hprocess; [reflexivity|].
      unfold logged. cbn [trace]. rewrite calls_of_app. simpl.
      apply app_nil_r.
    + intros H. injection H as <- <- <-. repeat split.
      exists (S k). unfold logged. cbn [trace].
      rewrite calls_of_app, Hcalls. simpl. rewrite app_nil_r. reflexivity.
  - apply Hprocess; reflexivity.
Qed.


Lemma free_videoBuffers_outcome w r w' :
  free_videoBuffers driver w = Some (r, w') →
  table_state driver w ≠ table_freed
  ∧ impl w' = impl w
  ∧ trace w' = trace w ++ [Call sys_free].
Proof.
  unfold free_videoBuffers, undefined, call.
  destruct (table_state driver w); intros H; try discriminate;
    injection H as <- <-; repeat split; discriminate.
Qed.

Lemma setFrameType_unmap_impl fuel i w b w' :
  setFrameType_unmap driver fuel i w = Some (b, w') → impl w' = impl w.
Proof.
  revert i w. induction fuel as [|fuel IH]; intros i w H; simpl in H;
    munfold; destruct (i <? nVideoBuffers (impl w)); try discriminate;
    try (injection H as <- <-; reflexivity).
  destruct (ret (driver (trace w) _) =? -1).
  - injection H as <- <-. reflexivity.
  - apply IH in H. exact H.
Qed.

(** The three ways the release step can end. *)
Lemma setFrameType_release_outcome details w early w' :
  setFrameType_release driver details_ne details w = Some (early, w') →
  (early = Some OK ∧ w' = w
   ∧ details_ne details (frameDetails (impl w)) = false)
  ∨ (early = Some GENERIC_ERROR ∧ impl w' = impl w)
  ∨ (early = None ∧ impl w' = set_nVideoBuffers 0 (impl w)).
Proof.
  unfold setFrameType_release. munfold.
  destruct (details_ne details (frameDetails (impl w))) eqn:Hne.
  - destruct (setFrameType_unmap driver _ 0 w) as [[unmapped w1]|] eqn:Hu;
      [|discriminate].
    apply setFrameType_unmap_impl in Hu.
    destruct unmapped.
    + destruct (free_videoBuffers driver w1) as [[freed w2]|] eqn:Hfree;
        [|discriminate].
      apply free_videoBuffers_outcome in Hfree as (_ & Hfree & _).
      intros H; injection H as <- <-; right.
      right. simpl. rewrite Hfree, Hu. auto.
    + intros H; injection H as <- <-; right. left. auto.
  - destruct (Z.eqb_spec (nVideoBuffers (impl w)) 0) as [Hz|Hz]; simpl;
      intros H; injection H as <- <-.
    + right. right. split; [reflexivity|].
      destruct w as [[] ? ?]. simpl in *. subst. reflexivity.
    + left. auto.
Qed.

Lemma setFrameType_unmap_trace fuel i w b w' :
  setFrameType_unmap driver fuel i w = Some (b, w') →
  ∃ rest, trace w' = trace w ++ rest.
Proof.
  revert i w. induction fuel as [|fuel IH]; intros i w H; simpl in H;
    munfold; destruct (i <? nVideoBuffers (impl w)); try discriminate;
    try (injection H as <- <-; exists []; by rewrite app_nil_r).
  destruct (ret (driver (trace w) _) =? -1).
  - injection H as <- <-. unfold logged. cbn [trace].
    rewrite <- app_assoc. eauto.
  - apply IH in H as (rest & H). cbn [trace] in H. rewrite H.
    rewrite <- app_assoc. eauto.
Qed.

Lemma setFrameType_release_trace details w early w' :
  setFrameType_release driver details_ne details w = Some (early, w') →
  ∃ rest, trace w' = trace w ++ rest.
Proof.
  unfold setFrameType_release. munfold.
  destruct (details_ne details (frameDetails (impl w))).
  - destruct (setFrameType_unmap driver _ 0 w) as [[unmapped w1]|] eqn:Hu;
      [|discriminate].
    apply setFrameType_unmap_trace in Hu as (rest & Hu).
    destruct unmapped.
    + destruct (free_videoBuffers driver w1) as [[freed w2]|] eqn:Hfree;
        [|discriminate].
      apply free_videoBuffers_outcome in Hfree as (_ & _ & Hfree).
      intros H; injection H as <- <-. cbn [trace]. rewrite Hfree, Hu.
      rewrite <- app_assoc. eauto.
    + intros H; injection H as <- <-. eauto.
  - destruct (negb (nVideoBuffers (impl w) =? 0)); intros H;
      injection H as <- <-; exists []; by rewrite app_nil_r.
Qed.

Lemma setFrameType_map_pool fuel count w b w' :
  count < 2^32 → pool_mapped count (impl w) →
  setFrameType_map driver retries fuel count w = Some (b, w') →
  pool_mapped count (impl w')
  ∧ frameDetails (impl w') = frameDetails (impl w)
  ∧ (b = true → nVideoBuffers (impl w') = count).
Proof.
  intros Hcount. revert w.
  induction fuel as [|fuel IH]; intros w Hpool H; simpl in H; munfold;
    destruct (Z.ltb_spec (nVideoBuffers (impl w)) count) as [Hlt|Hge];
    try discriminate;
    try (injection H as <- <-; split; [exact Hpool|];
         split; [reflexivity|]; intros _; destruct Hpool as (_ & ? & _); lia).
  destruct (xioctl_buf driver retries (fd (impl w))
              (VIDIOC_QUERYBUF (nVideoBuffers (impl w))) w)
    as [[q w1]|] eqn:Hq; [|discriminate].
  apply xioctl_buf_impl in Hq.
  destruct Hpool as (Hlen & Hn & Hmapped).
  destruct (ret q =? -1).
  { injection H as <- <-. unfold pool_mapped. simpl. rewrite Hq.
    split; [|split; [reflexivity | discriminate]].
    split; [exact Hlen|]. split; [exact Hn|]. exact Hmapped. }
  simpl in H. rewrite Hq in H. simpl in H.
  set (n := nVideoBuffers (impl w)) in *.
  set (m := driver (trace w1) _) in *.
  assert ((Z.to_nat n < List.length (videoBuffers (impl w)))%nat) as Hin
    by lia.
  destruct (Z.eqb_spec (ret m) MAP_FAILED) as [Hfail|Hok].
  { injection H as <- <-. unfold pool_mapped. simpl.
    split; [|split; [reflexivity | discriminate]].
    split; [rewrite length_insert; exact Hlen|].
    split; [exact Hn|].
    intros i Hi. fold n in Hi.
    unfold buffer_at. simpl.
    rewrite list_lookup_insert_ne by lia. apply (Hmapped i Hi). }
  apply IH in H.
  - simpl in H. exact H.
  - simpl. unfold pool_mapped. simpl.
    assert (u32 (n + 1) = n + 1) as Hu
      by (unfold u32; apply Z.mod_small; lia).
    rewrite Hu, !length_insert.
    split; [exact Hlen|]. split; [lia|].
    intros i Hi. unfold buffer_at. simpl.
    destruct (Z.eq_dec i n) as [->|Hne].
    + rewrite list_lookup_insert_eq by (rewrite length_insert; exact Hin).
      simpl. rewrite list_lookup_insert_eq by exact Hin. simpl. exact Hok.
    + rewrite !list_lookup_insert_ne by lia. apply (Hmapped i). lia.
Qed.


Lemma pool_mapped_in_table count d :
  0 ≤ count → pool_mapped count d → pool_in_table d.
Proof. intros Hc (Hlen & Hn & _). unfold pool_in_table. lia. Qed.

Lemma setFrameType_map_trace fuel count w b w' :
  setFrameType_map driver retries fuel count w = Some (b, w') →
  ∃ rest, trace w' = trace w ++ rest.
Proof.
  revert w. induction fuel as [|fuel IH]; intros w H; simpl in H; munfold;
    destruct (nVideoBuffers (impl w) <? count);
    try discriminate;
    try (injection H as <- <-; exists []; by rewrite app_nil_r).
  destruct (xioctl_buf driver retries (fd (impl w))
              (VIDIOC_QUERYBUF (nVideoBuffers (impl w))) w)
    as [[q w1]|] eqn:Hq; [|discriminate].
  apply xioctl_buf_outcome in Hq as (_ & k & Hq).
  destruct (ret q =? -1).
  { injection H as <- <-. unfold logged. cbn [trace]. rewrite Hq.
    rewrite <- app_assoc. eauto. }
  simpl in H.
  destruct (ret (driver (trace w1) (sys_mmap _ _ _)) =? MAP_FAILED).
  { injection H as <- <-. unfold logged. cbn [trace]. rewrite Hq.
    rewrite <- !app_assoc. eauto. }
  apply IH in H as (rest & H). cbn [trace] in H. rewrite H, Hq.
  rewrite <- !app_assoc. eauto.
Qed.

(** The two ways the allocation step can end.  When it ends well, the
    count is the one found in the driver's answer to the last
    [VIDIOC_REQBUFS] request, which asked for 4. *)
Lemma setFrameType_allocate_outcome details w status w' :
  nVideoBuffers (impl w) = 0 →
  setFrameType_allocate driver retries details w = Some (status, w') →
  (status = GENERIC_ERROR
   ∧ frameDetails (impl w') = frameDetails (impl w)
   ∧ pool_in_table (impl w'))
  ∨ (status = OK
     ∧ frameDetails (impl w') = details
     ∧ ∃ count, 0 ≤ count < 2^32
                ∧ pool_mapped count (impl w')
                ∧ nVideoBuffers (impl w') = count
                ∧ ∃ t rest,
                    let request := sys_ioctl (fd (impl w)) (VIDIOC_REQBUFS 4) in
                    (∃ sent, t = trace w ++ sent)
                    ∧ trace w'
                      = t ++ Call request :: Call (sys_calloc count) :: rest
                    ∧ ret (driver t request) ≠ -1
                    ∧ count = u32 (out_count (driver t request))).
Proof.
  intros Hzero. unfold setFrameType_allocate. munfold.
  destruct (xioctl driver retries _ (VIDIOC_S_FMT _ _) w) as [[f w1]|] eqn:Hf;
    [|discriminate].
  pose proof (xioctl_loop_uninterrupted _ _ _ _ _ _ Hf) as (kf & _ & Hft & _).
  apply xioctl_impl in Hf.
  destruct (ret f =? -1).
  { intros H. injection H as <- <-. left. simpl. rewrite Hf.
    split; [reflexivity|]. split; [reflexivity|].
    unfold pool_in_table. rewrite Hzero. lia. }
  destruct (xioctl driver retries _ (VIDIOC_REQBUFS 4) w1) as [[q w2]|] eqn:Hq;
    [|discriminate].
  pose proof (xioctl_loop_uninterrupted _ _ _ _ _ _ Hq)
    as (kq & _ & Hqt & Hqr & _).
  apply xioctl_impl in Hq.
  destruct (Z.eqb_spec (ret q) (-1)) as [|Hgranted].
  { intros H. injection H as <- <-. left. simpl. rewrite Hq, Hf.
    split; [reflexivity|]. split; [reflexivity|].
    unfold pool_in_table. rewrite Hzero. lia. }
  set (count := u32 (out_count q)).
  assert (0 ≤ count < 2^32) as Hcount
    by (unfold count, u32; apply Z.mod_pos_bound; lia).
  set (p := driver (trace w2) (sys_calloc count)).
  destruct (ret p =? 0).
  { intros H. injection H as <- <-. left. simpl. rewrite Hq, Hf.
    split; [reflexivity|]. split; [reflexivity|].
    unfold pool_in_table. simpl. rewrite Hzero. lia. }
  simpl.
  match goal with
  | |- match setFrameType_map driver retries ?n ?c ?v with _ => _ end = _ → _ =>
      destruct (setFrameType_map driver retries n c v) as [[mapped w3]|] eqn:Hm;
        [|discriminate]
  end.
  pose proof (setFrameType_map_trace _ _ _ _ _ Hm) as (rest & Hrest).
  cbn [trace] in Hrest.
  apply setFrameType_map_pool in Hm; [|lia|].
  2:{ unfold pool_mapped. simpl. rewrite length_replicate.
      split; [reflexivity|]. split; [lia|]. intros i Hi. lia. }
  destruct Hm as (Hpool & Hdetails & Hfull). simpl in Hdetails.
  destruct mapped; intros H; injection H as <- <-.
  - right. split; [reflexivity|]. split; [reflexivity|].
    exists count. split; [exact Hcount|]. simpl.
    split; [|split; [apply Hfull; reflexivity|]].
    + destruct Hpool as (Hl & Hn & Hmp). unfold pool_mapped. simpl.
      split; [exact Hl|]. split; [exact Hn|]. exact Hmp.
    + exists (trace w1 ++ replicate kq
                (Call (sys_ioctl (fd (impl w)) (VIDIOC_REQBUFS 4)))), rest.
      rewrite <- Hqr. fold count.
      split; [rewrite Hft, <- app_assoc; eauto|].
      split; [|split; [exact Hgranted | reflexivity]].
      rewrite Hrest, Hqt, replicate_S_end, <- !app_assoc. reflexivity.
  - left. split; [reflexivity|].
    split; [rewrite Hdetails, Hq, Hf; reflexivity|].
    apply (pool_mapped_in_table count); [lia | exact Hpool].
Qed.

(** X9: [setFrameType] keeps the buffer count within the buffer table.  If
    every index below [nVideoBuffers] is an entry of [videoBuffers] before
    the call, the same holds after it, whatever the driver answers and
    whichever way the call ends, so the index check of [getFrame] always
    guards a real entry. *)
Theorem setFrameType_keeps_count_in_table
    (details : FrameDetails) (w : World) (status : Status) (w' : World) :
  pool_in_table (impl w) →
  setFrameType driver retries details_ne details w = Some (status, w') →
  pool_in_table (impl w')
  ∧ ∀ i, 0 ≤ i < nVideoBuffers (impl w') →
         videoBuffers (impl w') !! Z.to_nat i = Some (buffer_at (impl w') i).
Proof.
  intros Hpool H.
  assert (pool_in_table (impl w')) as Hpool'.
  { revert H. unfold setFrameType. munfold.
    destruct (setFrameType_release driver details_ne details w)
      as [[early w1]|] eqn:Hr; [|discriminate].
    apply setFrameType_release_outcome in Hr
      as [(-> & -> & _)|[(-> & Hi)|(-> & Hi)]].
    - intros H. injection H as <- <-. exact Hpool.
    - intros H. injection H as <- <-. rewrite Hi. exact Hpool.
    - intros H.
      apply setFrameType_allocate_outcome in H
        as [(_ & _ & Hp)|(_ & _ & count & Hc & Hp & _)].
      + exact Hp.
      + apply (pool_mapped_in_table count); [lia | exact Hp].
      + rewrite Hi. reflexivity. }
  split; [exact Hpool'|].
  intros i Hi. unfold buffer_at.
  destruct (videoBuffers (impl w') !! Z.to_nat i) as [b|] eqn:Hl;
    [reflexivity|].
  apply lookup_ge_None in Hl. unfold pool_in_table in Hpool'. lia.
Qed.

(** X10: a [setFrameType] that does not return [OK] returns
    [GENERIC_ERROR] and leaves the stored frame details as they were, so
    the session never records a geometry whose pool was not fully set up;
    one that returns [OK] leaves stored details that compare equal to the
    requested ones or are the requested ones. *)
Theorem setFrameType_failure_keeps_details
    (details : FrameDetails) (w : World) (status : Status) (w' : World) :
  setFrameType driver retries details_ne details w = Some (status, w') →
  (status ≠ OK →
     status = GENERIC_ERROR
     ∧ frameDetails (impl w') = frameDetails (impl w))
  ∧ (status = OK →
     frameDetails (impl w') = details
     ∨ (w' = w ∧ details_ne details (frameDetails (impl w)) = false)).
Proof.
  unfold setFrameType. munfold.
  destruct (setFrameType_release driver details_ne details w)
    as [[early w1]|] eqn:Hr; [|discriminate].
  apply setFrameType_release_outcome in Hr
    as [(-> & -> & Heq)|[(-> & Hi)|(-> & Hi)]].
  - intros H. injection H as <- <-. split; [congruence|]. auto.
  - intros H. injection H as <- <-. rewrite Hi.
    split; [auto | discriminate].
  - intros H.
    apply setFrameType_allocate_outcome in H
      as [(-> & Hd & _)|(-> & Hd & _)].
    + rewrite Hd, Hi. split; [auto | discriminate].
    + split; [congruence | auto].
    + rewrite Hi. reflexivity.
Qed.

(** X11: a [setFrameType] that returns [OK] for details that differ from
    the stored ones leaves a fully mapped pool: the requested details are
    stored, the table has exactly [nVideoBuffers] entries, no buffer below
    the count has the start [MAP_FAILED], and the count is the one the
    driver granted: the [count] field of its answer to the last
    [VIDIOC_REQBUFS] request of the call (which asked for 4), the request
    that the [calloc] of that many entries follows. *)
Theorem setFrameType_success_maps_every_buffer
    (details : FrameDetails) (w w' : World) :
  details_ne details (frameDetails (impl w)) = true →
  setFrameType driver retries details_ne details w = Some (OK, w') →
  frameDetails (impl w') = details
  ∧ Z.of_nat (List.length (videoBuffers (impl w'))) = nVideoBuffers (impl w')
  ∧ 0 ≤ nVideoBuffers (impl w') < 2^32
  ∧ (∀ i, 0 ≤ i < nVideoBuffers (impl w') →
          b_start (buffer_at (impl w') i) ≠ MAP_FAILED)
  ∧ ∃ t rest,
      let request := sys_ioctl (fd (impl w)) (VIDIOC_REQBUFS 4) in
      let granted := driver t request in
      (∃ sent, t = trace w ++ sent)
      ∧ trace w'
        = t ++ Call request :: Call (sys_calloc (nVideoBuffers (impl w')))
            :: rest
      ∧ ret granted ≠ -1
      ∧ nVideoBuffers (impl w') = u32 (out_count granted).
Proof.
  intros Hne. unfold setFrameType. munfold.
  destruct (setFrameType_release driver details_ne details w)
    as [[early w1]|] eqn:Hr; [|discriminate].
  pose proof (setFrameType_release_trace _ _ _ _ Hr) as (released & Hrel).
  apply setFrameType_release_outcome in Hr
    as [(-> & -> & Heq)|[(-> & Hi)|(-> & Hi)]]; try congruence.
  intros H.
  apply setFrameType_allocate_outcome in H
    as [(? & _)|(_ & Hd & count & Hc & (Hl & Hn & Hm) & Hfull
                 & t & rest & (sent & Ht) & Htrace & Hret & Hgranted)];
    [discriminate| |rewrite Hi; reflexivity].
  split; [exact Hd|]. rewrite Hfull. split; [lia|]. split; [lia|].
  split; [intros i Hi'; apply Hm; lia|].
  exists t, rest. cbv zeta. rewrite Hi in Htrace, Hret, Hgranted.
  cbn [fd set_nVideoBuffers] in Htrace, Hret, Hgranted.
  split; [exists (released ++ sent); rewrite Ht, Hrel, <- app_assoc;
          reflexivity|].
  split; [exact Htrace|]. split; [exact Hret | exact Hgranted].
Qed.


Lemma table_after_app p before t1 t2 :
  table_after driver p before (t1 ++ t2)
  = table_after driver (table_after driver p before t1) (before ++ t1) t2.
Proof.
  revert p before. induction t1 as [|e t1 IH]; intros p before; simpl.
  - by rewrite app_nil_r.
  - rewrite IH, <- app_assoc. reflexivity.
Qed.

Lemma table_after_untouched p before t :
  forallb (λ e, negb (touches_table e)) t = true →
  table_after driver p before t = p.
Proof.
  revert p before. induction t as [|e t IH]; intros p before H;
    [reflexivity|].
  simpl in H. apply andb_prop in H as [He Ht]. simpl. rewrite (IH _ _ Ht).
  destruct e as [[]|]; simpl in He; try discriminate; reflexivity.
Qed.

(** Calls other than [calloc] and [free], and log lines, leave the table
    pointer as it is. *)
Lemma table_state_untouched w w' extra :
  videoBuffers (impl w') = videoBuffers (impl w) →
  trace w' = trace w ++ extra →
  forallb (λ e, negb (touches_table e)) extra = true →
  table_state driver w' = table_state driver w.
Proof.
  intros Hv Ht Hextra. unfold table_state.
  rewrite Hv, Ht, table_after_app. apply table_after_untouched. exact Hextra.
Qed.

Lemma destroy_unmap_completes fuel i w :
  0 ≤ i → nVideoBuffers (impl w) < 2^32 →
  (Z.to_nat (nVideoBuffers (impl w) - i) ≤ fuel)%nat →
  ∃ w', destroy_unmap driver fuel i w = Some (tt, w')
        ∧ impl w' = impl w
        ∧ table_state driver w' = table_state driver w
        ∧ calls_of (trace w') = calls_of (trace w) ++ unmap_calls (impl w) i.
Proof.
  revert i w. induction fuel as [|fuel IH]; intros i w Hi Hn Hfuel;
    simpl; munfold;
    destruct (Z.ltb_spec i (nVideoBuffers (impl w))) as [Hlt|Hge];
    try lia;
    try (exists w; unfold unmap_calls;
         rewrite (seqZ_nil i) by lia; simpl; rewrite app_nil_r; auto; fail).
  set (c := sys_munmap _ _).
  set (r := driver (trace w) c).
  assert (u32 (i + 1) = i + 1) as Hu by (unfold u32; apply Z.mod_small; lia).
  rewrite Hu.
  assert (unmap_calls (impl w) i = c :: unmap_calls (impl w) (i + 1)) as Hc.
  { unfold unmap_calls. rewrite (seqZ_cons i) by lia. simpl.
    replace (Z.succ i) with (i + 1) by lia.
    replace (Z.pred (nVideoBuffers (impl w) - i))
      with (nVideoBuffers (impl w) - (i + 1)) by lia.
    reflexivity. }
  destruct (ret r =? -1); simpl.
  - match goal with
    | |- ∃ w', destroy_unmap driver fuel (i + 1) ?v = _ ∧ _ =>
        destruct (IH (i + 1) v) as (w' & Hrun & Himpl & Htable & Hcalls);
          [lia | exact Hn | simpl; lia |];
        assert (table_state driver v = table_state driver w) as Hv
          by (apply (table_state_untouched w v
                       [Call c; Log WARNING "munmap error"]);
              [reflexivity | unfold logged; simpl; by rewrite <- app_assoc
              | reflexivity])
    end.
    exists w'. split; [exact Hrun|]. split; [exact Himpl|].
    split; [congruence|].
    rewrite Hcalls, Hc. unfold logged. simpl.
    rewrite !calls_of_app. simpl. rewrite app_nil_r, <- app_assoc.
    reflexivity.
  - match goal with
    | |- ∃ w', destroy_unmap driver fuel (i + 1) ?v = _ ∧ _ =>
        destruct (IH (i + 1) v) as (w' & Hrun & Himpl & Htable & Hcalls);
          [lia | exact Hn | simpl; lia |];
        assert (table_state driver v = table_state driver w) as Hv
          by (apply (table_state_untouched w v [Call c]);
              [reflexivity | reflexivity | reflexivity])
    end.
    exists w'. split; [exact Hrun|]. split; [exact Himpl|].
    split; [congruence|].
    rewrite Hcalls, Hc. simpl.
    rewrite !calls_of_app. simpl. rewrite <- app_assoc. reflexivity.
Qed.

(** X12: on a session that is not started the destructor unmaps every
    buffer below the count in index order, whatever [munmap] answers, and
    then releases the table.  If the table has not been released before,
    the destructor runs to its end: it frees the table, closes the capture
    descriptor and then the sub-device descriptor, a failure only adding a
    warning to the log.  If the table was released before (by a
    [setFrameType] that then failed before allocating a new one) the
    destructor releases it a second time, which C leaves undefined: the
    call has no result. *)
Theorem destroy_releases_everything (w : World) :
  started (impl w) = false →
  0 ≤ nVideoBuffers (impl w) < 2^32 →
  (table_state driver w ≠ table_freed →
   ∃ w', destroy driver retries w = Some (tt, w')
         ∧ calls_of (trace w')
           = calls_of (trace w) ++ unmap_calls (impl w) 0
             ++ [sys_free; sys_close (fd (impl w)); sys_close (sfd (impl w))])
  ∧ (table_state driver w = table_freed →
     destroy driver retries w = None).
Proof.
  intros Hs Hn. unfold destroy. munfold. rewrite Hs.
  destruct (destroy_unmap_completes (Z.to_nat (nVideoBuffers (impl w))) 0 w)
    as (w1 & Hrun & Himpl & Htable & Hcalls); [lia | lia | lia |].
  rewrite Hrun. unfold free_videoBuffers, undefined, call. rewrite Htable.
  split; intros Hstate.
  - destruct (table_state driver w); [| |contradiction];
      cbn [trace impl];
      repeat match goal with
             | |- context [ret ?r =? -1] => destruct (ret r =? -1)
             end;
      eexists; (split; [reflexivity|]);
      unfold logged; cbn [trace]; rewrite !calls_of_app, Hcalls; simpl;
      rewrite ?app_nil_r, <- !app_assoc; reflexivity.
  - rewrite Hstate. reflexivity.
Qed.

End LocalDevice_more_facts.

(** ** The packet methods *)

Section LocalDevice_packet_facts.
Variable driver : list event → syscall → response.
Variable retries : nat.


Lemma xioctl_accepted fh id size p w :
  accepts_packets driver →
  let c := sys_ioctl fh (VIDIOC_S_EXT_CTRLS id size p) in
  xioctl driver retries fh (VIDIOC_S_EXT_CTRLS id size p) w
  = Some (driver (trace w) c,
          mk_World (impl w) (errno w) (trace w ++ [Call c]))
  ∧ ret (driver (trace w) c) ≠ -1.
Proof.
  intros Hacc c. specialize (Hacc (trace w) fh id size p). fold c in Hacc.
  split; [|exact Hacc].
  unfold xioctl. rewrite xioctl_loop_step. cbv zeta. fold c.
  destruct (Z.eqb_spec (ret (driver (trace w) c)) (-1)); [contradiction|].
  reflexivity.
Qed.

Lemma program_send_accepted p w :
  accepts_packets driver →
  program_send driver retries p w
  = Some (true,
          mk_World (impl w) (errno w)
            (trace w ++ [Call (sys_ioctl (sfd (impl w))
                                 (VIDIOC_S_EXT_CTRLS
                                    V4L2_CID_AD_DEV_SET_CHIP_CONFIG
                                    (2048 * 2) p))])).
Proof.
  intros Hacc. unfold program_send. munfold.
  destruct (xioctl_accepted (sfd (impl w)) V4L2_CID_AD_DEV_SET_CHIP_CONFIG
              (2048 * 2) p w Hacc) as [-> Hr].
  cbv zeta in Hr.
  destruct (Z.eqb_spec (ret (driver (trace w)
              (sys_ioctl (sfd (impl w))
                 (VIDIOC_S_EXT_CTRLS V4L2_CID_AD_DEV_SET_CHIP_CONFIG
                    (2048 * 2) p)))) (-1));
    [contradiction | reflexivity].
Qed.

Lemma packet_cells_ext f g :
  (∀ i, 0 ≤ i < CTRL_PACKET_SIZE → f i = g i) →
  packet_cells f = packet_cells g.
Proof.
  intros Hfg. unfold packet_cells. apply map_ext_in.
  intros m Hm. apply list_elem_of_In, elem_of_seqZ in Hm.
  change (CTRL_PACKET_SIZE / 2) with 2048 in Hm.
  unfold CTRL_PACKET_SIZE in Hfg. rewrite !Hfg by lia. reflexivity.
Qed.


Lemma program_loop_accepted fuel firmware size k w :
  accepts_packets driver →
  0 < size ≤ 2^64 - CTRL_PACKET_SIZE →
  let packets := (size + CTRL_PACKET_SIZE - 1) / CTRL_PACKET_SIZE in
  0 ≤ k ≤ packets →
  (Z.to_nat (packets - k) ≤ fuel)%nat →
  ∃ w', program_loop driver retries fuel firmware size
                     (CTRL_PACKET_SIZE * k) w = Some (OK, w')
        ∧ impl w' = impl w
        ∧ calls_of (trace w')
          = calls_of (trace w)
            ++ map (λ j, sys_ioctl (sfd (impl w))
                           (VIDIOC_S_EXT_CTRLS V4L2_CID_AD_DEV_SET_CHIP_CONFIG
                              (2048 * 2)
                              (packet_cells
                                 (padded_chunk firmware
                                    (CTRL_PACKET_SIZE * j) size))))
                   (seqZ k (packets - k)).
Proof.
  intros Hacc Hsize packets. unfold CTRL_PACKET_SIZE in *.
  assert (∀ j, 0 ≤ j → (4096 * j < size ↔ j < packets)) as Hguard.
  { intros j Hj. unfold packets. split; intros H; revert H;
      Z.div_mod_to_equations; lia. }
  revert k w. induction fuel as [|fuel IH]; intros k w Hk Hfuel;
    cbn [program_loop]; unfold CTRL_PACKET_SIZE;
    destruct (Z.ltb_spec (4096 * k) size) as [Hlt|Hge];
    try (apply Hguard in Hlt; lia);
    try (exists w; rewrite (seqZ_nil k) by
           (assert (¬ k < packets) by (rewrite <- Hguard by lia; lia); lia);
         simpl; rewrite app_nil_r; auto; fail).
  assert (k < packets) as Hkp by (apply Hguard; lia).
  assert (size_t (size - 4096 * k) = size - 4096 * k) as ->
    by (unfold size_t; apply Z.mod_small; lia).
  assert (size_t (4096 * k + 4096) = 4096 * (k + 1)) as ->
    by (unfold size_t; rewrite Z.mod_small; lia).
  assert (packet_cells (λ i, firmware (4096 * k + i))
          = packet_cells (padded_chunk firmware (4096 * k) size)
          ∨ size - 4096 * k < 4096) as Hfull.
  { destruct (Z.lt_ge_cases (size - 4096 * k) 4096) as [|Hbig]; [auto|].
    left. apply packet_cells_ext. intros i Hi. unfold CTRL_PACKET_SIZE in Hi.
    unfold padded_chunk.
    destruct (Z.ltb_spec i (size - 4096 * k)); [reflexivity | lia]. }
  rewrite (seqZ_cons k) by lia. cbn [map].
  replace (Z.succ k) with (k + 1) by lia.
  replace (Z.pred (packets - k)) with (packets - (k + 1)) by lia.
  destruct (Z.leb_spec 4096 (size - 4096 * k)) as [Hbig|Hsmall]; munfold.
  - destruct Hfull as [->|?]; [|lia].
    rewrite program_send_accepted by exact Hacc.
    match goal with
    | |- ∃ w', program_loop driver retries fuel firmware size _ ?v = _ ∧ _ =>
        destruct (IH (k + 1) v) as (w' & Hrun & Himpl & Hcalls);
          [lia | lia |]
    end.
    exists w'. split; [exact Hrun|]. split; [exact Himpl|].
    rewrite Hcalls. cbn [trace impl]. rewrite calls_of_app. simpl.
    rewrite <- app_assoc. reflexivity.
  - rewrite program_send_accepted by exact Hacc.
    match goal with
    | |- ∃ w', program_loop driver retries fuel firmware size _ ?v = _ ∧ _ =>
        destruct (IH (k + 1) v) as (w' & Hrun & Himpl & Hcalls);
          [lia | lia |]
    end.
    exists w'. split; [exact Hrun|]. split; [exact Himpl|].
    rewrite Hcalls. cbn [trace impl]. rewrite calls_of_app. simpl.
    rewrite <- app_assoc. reflexivity.
Qed.

(** X13: [program] ends for every size (up to [2^64 - 4096]) when the
    driver accepts the packets: it returns [OK] having sent exactly the
    packets of [program_packets] to the sub-device, in order.  A size of
    at most 4096 (0 included) gives one packet, the 4096 bytes found at
    [firmware], not padded; a larger size gives one packet per started
    4096 bytes, the last one zero-padded. *)
Theorem program_sends_every_chunk
    (fuel : nat) (firmware : Z → byte) (size : Z) (w : World) :
  accepts_packets driver →
  0 ≤ size ≤ 2^64 - CTRL_PACKET_SIZE →
  (Z.to_nat ((size + CTRL_PACKET_SIZE - 1) / CTRL_PACKET_SIZE) ≤ fuel)%nat →
  ∃ w', program driver retries fuel firmware size w = Some (OK, w')
        ∧ impl w' = impl w
        ∧ calls_of (trace w')
          = calls_of (trace w)
            ++ map (λ p, sys_ioctl (sfd (impl w))
                           (VIDIOC_S_EXT_CTRLS V4L2_CID_AD_DEV_SET_CHIP_CONFIG
                              (2048 * 2) p))
                   (program_packets firmware size).
Proof.
  intros Hacc Hsize Hfuel. unfold program, program_packets.
  destruct (Z.leb_spec size CTRL_PACKET_SIZE) as [Hsmall|Hbig].
  - munfold. rewrite program_send_accepted by exact Hacc.
    eexists. split; [reflexivity|]. split; [reflexivity|].
    cbn [trace impl]. rewrite calls_of_app. reflexivity.
  - destruct (program_loop_accepted fuel firmware size 0 w Hacc)
      as (w' & Hrun & Himpl & Hcalls).
    + unfold CTRL_PACKET_SIZE in *. lia.
    + unfold CTRL_PACKET_SIZE in *. split; [lia|].
      apply Z.div_pos; lia.
    + rewrite Z.sub_0_r. exact Hfuel.
    + rewrite Z.mul_0_r in Hrun. exists w'.
      split; [exact Hrun|]. split; [exact Himpl|].
      rewrite Hcalls, Z.sub_0_r, map_map. reflexivity.
Qed.


Lemma u16_add_u16 a b : u16 (u16 a + b) = u16 (a + b).
Proof. unfold u16. apply Zplus_mod_idemp_l. Qed.

Lemma fill_packet_result fuel address data len n :
  Z.min len 4096 = 4 * n → n ≤ 1024 →
  ∀ j buf s,
    0 ≤ j ≤ n → List.length buf = 2048%nat → 0 ≤ s < 65536 →
    (Z.to_nat (n - j) ≤ fuel)%nat →
    let res := fill_packet fuel address data len (4 * j) buf s in
    snd res = u16 (s + (n - j))
    ∧ List.length (fst res) = 2048%nat
    ∧ ∀ c : Z, 0 ≤ c →
        fst res !! Z.to_nat c
        = if (2 * j <=? c) && (c <? 2 * n)
          then Some (if c mod 2 =? 0
                     then u16 (address (u16 (s + (c / 2 - j))))
                     else u16 (data (u16 (s + (c / 2 - j)))))
          else buf !! Z.to_nat c.
Proof.
  intros Hmin Hn.
  assert (∀ i, (i <? (if CTRL_PACKET_SIZE <? len then CTRL_PACKET_SIZE
                      else len)) = (i <? 4 * n)) as Hguard.
  { intros i. unfold CTRL_PACKET_SIZE.
    destruct (Z.ltb_spec 4096 len); f_equal; lia. }
  assert (∀ s, 0 ≤ s < 65536 → u16 s = s) as Hsmall
    by (intros; unfold u16; apply Z.mod_small; lia).
  induction fuel as [|fuel IH]; intros j buf s Hj Hlen Hs Hfuel res;
    subst res; cbn [fill_packet]; [|rewrite Hguard].
  - assert (j = n) as -> by lia. cbn [fst snd].
    rewrite Z.sub_diag, Z.add_0_r, (Hsmall s) by lia.
    split; [reflexivity|]. split; [exact Hlen|].
    intros c Hc.
    destruct (Z.leb_spec (2 * n) c), (Z.ltb_spec c (2 * n)); try lia;
      reflexivity.
  - destruct (Z.ltb_spec (4 * j) (4 * n)) as [Hlt|Hge].
    + replace (4 * j / 2) with (2 * j) by (Z.div_mod_to_equations; lia).
      replace ((4 * j + 2) / 2) with (2 * j + 1)
        by (Z.div_mod_to_equations; lia).
      replace (size_t (4 * j + 4)) with (4 * (j + 1))
        by (unfold size_t; rewrite Z.mod_small; lia).
      set (buf2 := <[ Z.to_nat (2 * j + 1) := u16 (data s) ]>
                     (<[ Z.to_nat (2 * j) := u16 (address s) ]> buf)).
      assert (0 ≤ u16 (s + 1) < 65536) as Hs1
        by (unfold u16; apply Z.mod_pos_bound; lia).
      destruct (IH (j + 1) buf2 (u16 (s + 1)) ltac:(lia)
                  ltac:(unfold buf2; rewrite !length_insert; exact Hlen)
                  Hs1 ltac:(lia)) as (Hsnd & Hl & Hcells).
      split; [|split; [exact Hl|]].
      * rewrite Hsnd, u16_add_u16. f_equal. lia.
      * intros c Hc. rewrite (Hcells c Hc).
        destruct (Z.leb_spec (2 * (j + 1)) c), (Z.leb_spec (2 * j) c),
                 (Z.ltb_spec c (2 * n)); try lia; cbn [andb].
        -- rewrite !u16_add_u16.
           replace (s + 1 + (c / 2 - (j + 1))) with (s + (c / 2 - j)) by lia.
           reflexivity.
        -- unfold buf2. rewrite !list_lookup_insert_ne by lia. reflexivity.
        -- assert (c = 2 * j ∨ c = 2 * j + 1) as [->| ->] by lia.
           ++ unfold buf2. rewrite list_lookup_insert_ne by lia.
              rewrite list_lookup_insert_eq by lia.
              replace (2 * j / 2 - j) with 0 by (Z.div_mod_to_equations; lia).
              replace ((2 * j) mod 2) with 0 by (Z.div_mod_to_equations; lia).
              rewrite Z.add_0_r, (Hsmall s) by lia. reflexivity.
           ++ unfold buf2.
              rewrite list_lookup_insert_eq
                by (rewrite length_insert; lia).
              replace ((2 * j + 1) / 2 - j) with 0
                by (Z.div_mod_to_equations; lia).
              replace ((2 * j + 1) mod 2) with 1
                by (Z.div_mod_to_equations; lia).
              rewrite Z.add_0_r, (Hsmall s) by lia. reflexivity.
        -- unfold buf2. rewrite !list_lookup_insert_ne by lia. reflexivity.
    + assert (j = n) as -> by lia. cbn [fst snd].
      rewrite Z.sub_diag, Z.add_0_r, (Hsmall s) by lia.
      split; [reflexivity|]. split; [exact Hlen|].
      intros c Hc.
      destruct (Z.leb_spec (2 * n) c), (Z.ltb_spec c (2 * n)); try lia;
        reflexivity.
Qed.

Lemma fill_packet_is_afe_packet address data len n s :
  Z.min len 4096 = 4 * n → 0 ≤ n ≤ 1024 → 0 ≤ s < 65536 →
  fill_packet (Z.to_nat (CTRL_PACKET_SIZE / 4)) address data len 0
              empty_packet s
  = (afe_packet address data s n, u16 (s + n)).
Proof.
  intros Hmin Hn Hs.
  destruct (fill_packet_result (Z.to_nat (CTRL_PACKET_SIZE / 4)) address data
              len n Hmin ltac:(lia) 0 empty_packet s ltac:(lia) eq_refl Hs)
    as (Hsnd & Hlen & Hcells).
  { change (CTRL_PACKET_SIZE / 4) with 1024. lia. }
  change (4 * 0) with 0 in *.
  destruct (fill_packet _ address data len 0 empty_packet s) as [buf s'].
  cbn [fst snd] in *. rewrite Z.sub_0_r in Hsnd. subst s'.
  f_equal. apply list_eq. intros i. unfold afe_packet.
  rewrite list_lookup_fmap.
  change (CTRL_PACKET_SIZE / 2) with 2048.
  destruct (Nat.lt_ge_cases i 2048) as [Hi|Hi].
  - rewrite lookup_seqZ_lt by lia. cbn [fmap option_fmap option_map].
    specialize (Hcells (Z.of_nat i) ltac:(lia)).
    rewrite Nat2Z.id in Hcells. rewrite Hcells.
    rewrite Z.add_0_l, Z.sub_0_r.
    destruct (Z.leb_spec (2 * 0) (Z.of_nat i)); [|lia]. cbn [andb].
    destruct (Z.ltb_spec (Z.of_nat i) (2 * n)),
             (Z.ltb_spec (Z.of_nat i / 2) n);
      try reflexivity;
      try (exfalso; Z.div_mod_to_equations; lia).
    unfold empty_packet. apply lookup_replicate_2.
    change (CTRL_PACKET_SIZE / 2) with 2048. lia.
  - rewrite lookup_seqZ_ge by lia. cbn [fmap option_fmap option_map].
    apply lookup_ge_None. lia.
Qed.

Lemma writeAfeRegisters_loop_accepted fuel address data p k w :
  accepts_packets driver →
  0 ≤ k ≤ p → 4096 * p < 2^64 →
  (Z.to_nat (p - k) ≤ fuel)%nat →
  ∃ w', writeAfeRegisters_loop driver retries fuel address data
          (4096 * (p - k)) (u16 (1024 * k)) w = Some (OK, w')
        ∧ impl w' = impl w
        ∧ calls_of (trace w')
          = calls_of (trace w)
            ++ map (λ j, sys_ioctl (sfd (impl w))
                           (VIDIOC_S_EXT_CTRLS V4L2_CID_AD_DEV_SET_CHIP_CONFIG
                              (2048 * 2)
                              (afe_packet address data (u16 (1024 * j)) 1024)))
                   (seqZ k (p - k)).
Proof.
  intros Hacc Hk Hp. revert k w Hk.
  induction fuel as [|fuel IH]; intros k w Hk Hfuel;
    cbn [writeAfeRegisters_loop];
    destruct (Z.eqb_spec (4096 * (p - k)) 0) as [Hz|Hnz];
    try lia;
    try (exists w; rewrite (seqZ_nil k) by lia;
         simpl; rewrite app_nil_r; auto; fail).
  rewrite (fill_packet_is_afe_packet address data (4096 * (p - k)) 1024
             (u16 (1024 * k)))
    by (try lia; unfold u16; apply Z.mod_pos_bound; lia).
  rewrite u16_add_u16.
  replace (1024 * k + 1024) with (1024 * (k + 1)) by lia.
  replace (size_t (4096 * (p - k) - CTRL_PACKET_SIZE))
    with (4096 * (p - (k + 1)))
    by (unfold size_t, CTRL_PACKET_SIZE; rewrite Z.mod_small; lia).
  rewrite (seqZ_cons k) by lia. cbn [map].
  replace (Z.succ k) with (k + 1) by lia.
  replace (Z.pred (p - k)) with (p - (k + 1)) by lia.
  munfold.
  destruct (xioctl_accepted (sfd (impl w)) V4L2_CID_AD_DEV_SET_CHIP_CONFIG
              (2048 * 2) (afe_packet address data (u16 (1024 * k)) 1024)
              w Hacc) as [-> Hr].
  cbv zeta in Hr.
  destruct (Z.eqb_spec (ret (driver (trace w)
              (sys_ioctl (sfd (impl w))
                 (VIDIOC_S_EXT_CTRLS V4L2_CID_AD_DEV_SET_CHIP_CONFIG
                    (2048 * 2)
                    (afe_packet address data (u16 (1024 * k)) 1024)))))
              (-1)); [contradiction|].
  match goal with
  | |- ∃ w', writeAfeRegisters_loop driver retries fuel _ _ _ _ ?v = _ ∧ _ =>
      destruct (IH (k + 1) v) as (w' & Hrun & Himpl & Hcalls); [lia | lia |]
  end.
  exists w'. split; [exact Hrun|]. split; [exact Himpl|].
  rewrite Hcalls. cbn [trace impl]. rewrite calls_of_app. simpl.
  rewrite <- app_assoc. reflexivity.
Qed.

(** X14: asked to write a multiple of 1024 registers to a driver that
    accepts the packets, [writeAfeRegisters] returns [OK] after one packet
    per 1024 registers, each holding the address and data words
    interleaved.  The sample counter is an [unsigned short]: packet [k]
    starts at register [1024 * k mod 65536], so from the 65th packet on
    the registers of the first packets are sent again. *)
Theorem writeAfeRegisters_sends_full_packets
    (fuel : nat) (address data : Z → Z) (p : Z) (w : World) :
  accepts_packets driver →
  0 ≤ p → 4096 * p < 2^64 →
  (Z.to_nat p ≤ fuel)%nat →
  ∃ w', writeAfeRegisters driver retries fuel address data (1024 * p) w
        = Some (OK, w')
        ∧ impl w' = impl w
        ∧ calls_of (trace w')
          = calls_of (trace w)
            ++ map (λ k, sys_ioctl (sfd (impl w))
                           (VIDIOC_S_EXT_CTRLS V4L2_CID_AD_DEV_SET_CHIP_CONFIG
                              (2048 * 2)
                              (afe_packet address data (u16 (1024 * k)) 1024)))
                   (seqZ 0 p).
Proof.
  intros Hacc Hp Hlen Hfuel. unfold writeAfeRegisters.
  replace (size_t (1024 * p * (2 * 2))) with (4096 * p)
    by (unfold size_t; rewrite Z.mod_small; lia).
  pose proof (writeAfeRegisters_loop_accepted fuel address data p 0 w Hacc)
    as Hloop.
  rewrite Z.sub_0_r in Hloop. apply Hloop; [lia | exact Hlen | exact Hfuel].
Qed.

Lemma writeAfeRegisters_loop_never_ends fuel address data len sampleCnt w :
  accepts_packets driver →
  0 ≤ len < 2^64 → len mod 4096 ≠ 0 →
  writeAfeRegisters_loop driver retries fuel address data len sampleCnt w
  = None.
Proof.
  intros Hacc. revert len sampleCnt w.
  induction fuel as [|fuel IH]; intros len sampleCnt w Hlen Hmod;
    assert (len ≠ 0) as Hnz by (intros ->; apply Hmod; reflexivity);
    cbn [writeAfeRegisters_loop];
    destruct (Z.eqb_spec len 0) as [|_]; try contradiction.
  - reflexivity.
  - destruct (fill_packet _ address data len 0 empty_packet sampleCnt)
      as [buf sampleCnt'].
    munfold.
    destruct (xioctl_accepted (sfd (impl w)) V4L2_CID_AD_DEV_SET_CHIP_CONFIG
                (2048 * 2) buf w Hacc) as [-> Hr].
    cbv zeta in Hr.
    destruct (Z.eqb_spec (ret (driver (trace w)
                (sys_ioctl (sfd (impl w))
                   (VIDIOC_S_EXT_CTRLS V4L2_CID_AD_DEV_SET_CHIP_CONFIG
                      (2048 * 2) buf)))) (-1)); [contradiction|].
    destruct (size_t_sub_packet len Hlen) as [Hrange Hsame].
    apply IH; [exact Hrange | rewrite Hsame; exact Hmod].
Qed.

(** X15: asked to write a number of registers that is not a multiple of
    1024, [writeAfeRegisters] does not return while the driver accepts the
    packets: the remaining length steps over 0 and wraps, so whatever the
    number of packets followed, the call is still in its loop. *)
Theorem writeAfeRegisters_partial_packet_never_returns
    (fuel : nat) (address data : Z → Z) (len : Z) (w : World) :
  accepts_packets driver →
  0 ≤ len < 2^64 → len mod 1024 ≠ 0 →
  writeAfeRegisters driver retries fuel address data len w = None.
Proof.
  intros Hacc Hlen Hmod. unfold writeAfeRegisters.
  apply writeAfeRegisters_loop_never_ends; [exact Hacc | |].
  - unfold size_t. apply Z.mod_pos_bound. lia.
  - unfold size_t. change (2^64) with (4096 * 4503599627370496).
    revert Hmod. Z.div_mod_to_equations. lia.
Qed.

Lemma afe_read_run_passive read_back fh k :
  (∀ t a j, read_back t a j = a j) →
  ∀ i t address j, snd (afe_read_run read_back fh k i t address) j = address j.
Proof.
  intros Hid. induction k as [|k IH]; intros i t address j;
    cbn [afe_read_run]; [reflexivity|].
  rewrite IH. apply Hid.
Qed.

Lemma readAfeRegisters_loop_accepted read_back len :
  accepts_packets driver →
  ∀ fuel i address data w,
    0 ≤ i ≤ len → len < 2^64 →
    (Z.to_nat (len - i) ≤ fuel)%nat →
    let run k := afe_read_run read_back (sfd (impl w)) k i (trace w) address in
    ∃ d' w',
      readAfeRegisters_loop driver retries read_back fuel address data len i w
      = Some ((OK, snd (run (Z.to_nat (len - i))), d'), w')
      ∧ impl w' = impl w
      ∧ trace w' = fst (run (Z.to_nat (len - i)))
      ∧ (∀ j, ¬ (i ≤ j < len) → d' j = data j)
      ∧ (∀ j, i ≤ j < len →
              d' j = u16 (snd (run (Z.to_nat (j - i + 1))) j)).
Proof.
  intros Hacc.
  induction fuel as [|fuel IH]; intros i address data w Hi Hlen Hfuel run;
    subst run; cbn [readAfeRegisters_loop];
    destruct (Z.ltb_spec i len) as [Hlt|Hge]; try lia;
    try (exists data, w;
         replace (Z.to_nat (len - i)) with 0%nat by lia;
         cbn [afe_read_run fst snd];
         repeat split; auto; intros; lia).
  munfold.
  destruct (xioctl_accepted (sfd (impl w)) V4L2_CID_AD_DEV_READ_REG
              (2048 * 2) (map address (seqZ i (CTRL_PACKET_SIZE / 2)))
              w Hacc) as [-> Hr].
  cbv zeta in Hr.
  destruct (Z.eqb_spec (ret (driver (trace w)
              (sys_ioctl (sfd (impl w))
                 (VIDIOC_S_EXT_CTRLS V4L2_CID_AD_DEV_READ_REG (2048 * 2)
                    (map address (seqZ i (CTRL_PACKET_SIZE / 2)))))))
              (-1)); [contradiction|].
  replace (size_t (i + 1)) with (i + 1)
    by (unfold size_t; rewrite Z.mod_small; lia).
  cbn [trace impl].
  set (t' := trace w ++ [Call _]).
  assert (∀ m, afe_read_run read_back (sfd (impl w)) (S m) i (trace w) address
               = afe_read_run read_back (sfd (impl w)) m (i + 1) t'
                   (read_back t' address)) as Hstep by reflexivity.
  replace (Z.to_nat (len - i)) with (S (Z.to_nat (len - (i + 1)))) by lia.
  rewrite Hstep.
  match goal with
  | |- ∃ d' w',
         readAfeRegisters_loop driver retries read_back fuel ?a ?d _ _ ?v
         = _ ∧ _ =>
      destruct (IH (i + 1) a d v)
        as (d' & w' & Hrun & Himpl & Htrace & Hout & Hin);
        [lia | lia | lia |]
  end.
  cbn [trace impl] in Hrun, Htrace, Hin.
  exists d', w'. split; [exact Hrun|]. split; [exact Himpl|].
  split; [exact Htrace|]. split.
  - intros j Hj. rewrite Hout by lia. apply fn_lookup_insert_ne. lia.
  - intros j Hj. destruct (Z.eq_dec j i) as [->|Hne].
    + rewrite Hout by lia. rewrite fn_lookup_insert.
      replace (Z.to_nat (i - i + 1)) with 1%nat by lia. reflexivity.
    + rewrite (Hin j) by lia.
      replace (Z.to_nat (j - i + 1)) with (S (Z.to_nat (j - (i + 1) + 1)))
        by lia.
      rewrite Hstep. reflexivity.
Qed.

(** X16: with a driver that accepts the requests, [readAfeRegisters]
    returns [OK] after exactly one request per register, request [j]
    pointing the driver at [&address[j]]; it writes to the first [len]
    cells of [data] and to no other cell.  The value written to cell [j]
    is the 16-bit value found at [address[j]] right after request [j],
    that is after the driver has stored its answer through the pointer:
    if the driver stores nothing there, [data] receives the addresses
    themselves. *)
Theorem readAfeRegisters_fills_exactly_len_cells
    (read_back : list event → (Z → Z) → (Z → Z))
    (address data : Z → Z) (len : Z) (w : World) :
  accepts_packets driver →
  0 ≤ len < 2^64 →
  let run k := afe_read_run read_back (sfd (impl w)) k 0 (trace w) address in
  ∃ d' w',
    readAfeRegisters driver retries read_back address data len w
    = Some ((OK, snd (run (Z.to_nat len)), d'), w')
    ∧ impl w' = impl w
    ∧ trace w' = fst (run (Z.to_nat len))
    ∧ (∀ j, ¬ (0 ≤ j < len) → d' j = data j)
    ∧ (∀ j, 0 ≤ j < len → d' j = u16 (snd (run (Z.to_nat (j + 1))) j))
    ∧ ((∀ t a j, read_back t a j = a j) →
       ∀ j, 0 ≤ j < len → d' j = u16 (address j)).
Proof.
  intros Hacc Hlen run. unfold readAfeRegisters.
  destruct (readAfeRegisters_loop_accepted read_back len Hacc
              (Z.to_nat len) 0 address data w)
    as (d' & w' & Hrun & Himpl & Htrace & Hout & Hin); [lia | lia | lia |].
  rewrite Z.sub_0_r in Hrun, Htrace.
  exists d', w'. split; [exact Hrun|]. split; [exact Himpl|].
  split; [exact Htrace|]. split; [exact Hout|].
  assert (∀ j, 0 ≤ j < len → d' j = u16 (snd (run (Z.to_nat (j + 1))) j))
    as Hvalues.
  { intros j Hj. rewrite (Hin j Hj).
    replace (j - 0 + 1) with (j + 1) by lia. reflexivity. }
  split; [exact Hvalues|].
  intros Hid j Hj. rewrite (Hvalues j Hj). unfold run.
  rewrite afe_read_run_passive by exact Hid. reflexivity.
Qed.

Lemma readAfeRegisters_loop_range read_back len :
  len < 2^64 →
  ∀ fuel i address data w st a' d' w',
    0 ≤ i →
    readAfeRegisters_loop driver retries read_back fuel address data len i w
    = Some ((st, a', d'), w') →
    impl w' = impl w
    ∧ (∀ j, ¬ (i ≤ j < len) → d' j = data j)
    ∧ (st = OK ∨ st = GENERIC_ERROR)
    ∧ (st = GENERIC_ERROR →
       ∃ t, trace w' = t ++ [Log WARNING "Programming AFE error"]).
Proof.
  intros Hlen.
  induction fuel as [|fuel IH]; intros i address data w st a' d' w' Hi Hrun;
    cbn [readAfeRegisters_loop] in Hrun;
    destruct (Z.ltb_spec i len) as [Hlt|Hge];
    munfold; try discriminate;
    try (injection Hrun as <- <- <- <-;
         split; [reflexivity|]; split; [reflexivity|];
         split; [auto | discriminate]).
  destruct (xioctl driver retries (sfd (impl w)) _ w) as [[r w1]|] eqn:Hx;
    [|discriminate].
  apply xioctl_impl in Hx.
  destruct (ret r =? -1).
  - injection Hrun as <- <- <- <-. unfold logged. cbn [impl trace].
    split; [exact Hx|]. split; [reflexivity|]. split; [auto|].
    intros _. eauto.
  - replace (size_t (i + 1)) with (i + 1) in Hrun
      by (unfold size_t; rewrite Z.mod_small; lia).
    apply IH in Hrun; [|lia].
    destruct Hrun as (Himpl & Hout & Hst & Hlog).
    split; [congruence|]. split; [|split; [exact Hst | exact Hlog]].
    intros j Hj. rewrite Hout by lia. apply fn_lookup_insert_ne. lia.
Qed.

(** X17: whatever the driver answers, [readAfeRegisters] leaves the
    session as it found it and writes to no cell of [data] outside the
    first [len]; it returns [OK] or [GENERIC_ERROR], the latter right after
    logging the warning. *)
Theorem readAfeRegisters_stays_in_range
    (read_back : list event → (Z → Z) → (Z → Z))
    (address data : Z → Z) (len : Z) (w : World)
    (st : Status) (a' d' : Z → Z) (w' : World) :
  0 ≤ len < 2^64 →
  readAfeRegisters driver retries read_back address data len w
  = Some ((st, a', d'), w') →
  impl w' = impl w
  ∧ (∀ j, ¬ (0 ≤ j < len) → d' j = data j)
  ∧ (st = OK ∨ st = GENERIC_ERROR)
  ∧ (st = GENERIC_ERROR →
     ∃ t, trace w' = t ++ [Log WARNING "Programming AFE error"]).
Proof.
  intros Hlen Hrun. unfold readAfeRegisters in Hrun.
  apply (readAfeRegisters_loop_range read_back len ltac:(lia)) in Hrun;
    [exact Hrun | lia].
Qed.

End LocalDevice_packet_facts.

(** ** Runs of the properties above on the sample sessions *)

Lemma granting_driver_accepts_packets : accepts_packets granting_driver.
Proof. intros t fh id size p. discriminate. Qed.

(** A stream-on request interrupted twice before it is granted. *)
Lemma xioctl_retries_past_two_interrupts :
  let c := sys_ioctl 3 VIDIOC_STREAMON in
  ∃ r w',
    xioctl interrupting_driver 2 3 VIDIOC_STREAMON opened_world = Some (r, w')
    ∧ impl w' = impl opened_world
    ∧ ∃ k : nat,
        (k ≤ 2)%nat
        ∧ trace w' = trace opened_world ++ replicate (S k) (Call c)
        ∧ r = interrupting_driver (trace opened_world ++ replicate k (Call c)) c
        ∧ (∀ j : nat, (j < k)%nat →
             let a := interrupting_driver
                        (trace opened_world ++ replicate j (Call c)) c in
             ret a = -1 ∧ err a = EINTR)
        ∧ ¬ (ret r = -1 ∧ err r = EINTR)
        ∧ (ret r = -1 → errno w' = err r).
Proof.
  intros c. eexists. eexists. split; [reflexivity|].
  exact (xioctl_retries_while_interrupted interrupting_driver 2 3
           VIDIOC_STREAMON opened_world _ _ eq_refl).
Defined.

(** [start] then [stop] on the two-buffer session. *)
Lemma start_stop_alternate_two_buffers :
  let pool := [mk_buffer 4096 921600; mk_buffer 8192 921600] in
  let w1 := mk_World (mk_ImplData 3 4 pool 2 (mk_plane 0 0) depth_ir_details
                        true) 0
              [Log INFO "Starting device";
               Call (sys_ioctl 3 (VIDIOC_QBUF 0));
               Call (sys_ioctl 3 (VIDIOC_QBUF 1));
               Call (sys_ioctl 3 VIDIOC_STREAMON)] in
  let w2 := mk_World (mk_ImplData 3 4 pool 2 (mk_plane 0 0) depth_ir_details
                        false) 0
              (trace w1 ++ [Log INFO "Stopping device";
                            Call (sys_ioctl 3 VIDIOC_STREAMOFF)]) in
  start granting_driver 0 (two_buffer_world false) = Some (OK, w1)
  ∧ stop granting_driver 0 w1 = Some (OK, w2)
  ∧ start granting_driver 0 w1
    = Some (BUSY, logged INFO "Device already started" w1)
  ∧ same_but_planes (impl (two_buffer_world false)) (impl w2).
Proof.
  intros pool w1 w2.
  assert (start granting_driver 0 (two_buffer_world false) = Some (OK, w1))
    as Hstart by (vm_compute; reflexivity).
  assert (stop granting_driver 0 w1 = Some (OK, w2))
    as Hstop by (vm_compute; reflexivity).
  pose proof (proj1 (start_stop_alternate granting_driver 0
                       (two_buffer_world false) w1) Hstart) as H.
  split; [exact Hstart|]. split; [exact Hstop|].
  split; [exact (proj1 H)|].
  exact (proj2 (proj2 H) w2 Hstop).
Defined.

(** [getFrame] timing out on the started two-buffer session. *)
Lemma getFrame_timeout_keeps_the_pool :
  let w := two_buffer_world true in
  let w' := mk_World (impl w) 0
              [Call (sys_select (3 + 1) 3 4 0);
               Log WARNING "select timeout"] in
  getFrame silent_driver zero_memory 0 (λ _, 0) w
  = Some ((GENERIC_ERROR, λ _, 0), w')
  ∧ fd (impl w') = fd (impl w) ∧ sfd (impl w') = sfd (impl w)
  ∧ videoBuffers (impl w') = videoBuffers (impl w)
  ∧ nVideoBuffers (impl w') = nVideoBuffers (impl w)
  ∧ frameDetails (impl w') = frameDetails (impl w)
  ∧ started (impl w') = started (impl w).
Proof.
  intros w w'.
  assert (getFrame silent_driver zero_memory 0 (λ _, 0) w
          = Some ((GENERIC_ERROR, λ _, 0), w')) as Hrun
    by (vm_compute; reflexivity).
  split; [exact Hrun|].
  exact (proj2 (proj2 (streaming_methods_keep_the_pool silent_driver
                         zero_memory 0 w w'))
           (λ _, 0) (GENERIC_ERROR, λ _, 0) Hrun).
Defined.

(** [getFrame] on the session right after [open]. *)
Lemma getFrame_before_setFrameType_fails :
  let w' := logged WARNING "Not enough buffers avaialable"
              (mk_World (impl opened_world) 0
                 [Call (sys_select (3 + 1) 3 4 0);
                  Call (sys_ioctl 3 VIDIOC_DQBUF)]) in
  nVideoBuffers (impl opened_world) = 0
  ∧ getFrame granting_driver zero_memory 0 (λ _, 7) opened_world
    = Some ((GENERIC_ERROR, λ _, 7), w')
  ∧ ∃ k : nat,
      calls_of (trace w')
      = calls_of (trace opened_world)
        ++ sys_select (fd (impl opened_world) + 1)
             (fd (impl opened_world)) 4 0
           :: replicate k (sys_ioctl (fd (impl opened_world)) VIDIOC_DQBUF).
Proof.
  intros w'.
  assert (getFrame granting_driver zero_memory 0 (λ _, 7) opened_world
          = Some ((GENERIC_ERROR, λ _, 7), w')) as Hrun
    by (vm_compute; reflexivity).
  split; [reflexivity|]. split; [exact Hrun|].
  exact (proj2 (proj2 (getFrame_empty_pool_fails granting_driver zero_memory
                         0 (λ _, 7) opened_world GENERIC_ERROR (λ _, 7) w'
                         eq_refl Hrun))).
Defined.

(** The first [setFrameType] of a session, granted. *)
Lemma setFrameType_first_call_count_in_table :
  pool_in_table (impl opened_world)
  ∧ ∃ status w',
      setFrameType granting_driver 0 fieldwise_ne depth_ir_details opened_world
      = Some (status, w')
      ∧ pool_in_table (impl w')
      ∧ ∀ i, 0 ≤ i < nVideoBuffers (impl w') →
             videoBuffers (impl w') !! Z.to_nat i
             = Some (buffer_at (impl w') i).
Proof.
  assert (pool_in_table (impl opened_world)) as Hpool
    by (unfold pool_in_table; simpl; lia).
  split; [exact Hpool|].
  eexists. eexists.
  match goal with
  | |- ?run ∧ _ => assert run as Hrun by (vm_compute; reflexivity)
  end.
  split; [exact Hrun|].
  exact (setFrameType_keeps_count_in_table granting_driver 0 fieldwise_ne
           depth_ir_details opened_world _ _ Hpool Hrun).
Defined.

(** The first [setFrameType] of a session, refused by the driver. *)
Lemma setFrameType_refused_keeps_details :
  ∃ status w',
    setFrameType failing_driver 0 fieldwise_ne depth_ir_details opened_world
    = Some (status, w')
    ∧ status ≠ OK
    ∧ status = GENERIC_ERROR
    ∧ frameDetails (impl w') = frameDetails (impl opened_world).
Proof.
  eexists. eexists.
  match goal with
  | |- ?run ∧ _ => assert run as Hrun by (vm_compute; reflexivity)
  end.
  split; [exact Hrun|].
  assert (GENERIC_ERROR ≠ OK) as Hne by discriminate.
  split; [exact Hne|].
  exact (proj1 (setFrameType_failure_keeps_details failing_driver 0
                  fieldwise_ne depth_ir_details opened_world _ _ Hrun)
           Hne).
Defined.

(** The first [setFrameType] of a session, granted: four mapped buffers. *)
Lemma setFrameType_first_call_maps_every_buffer :
  fieldwise_ne depth_ir_details (frameDetails (impl opened_world)) = true
  ∧ ∃ w',
      setFrameType granting_driver 0 fieldwise_ne depth_ir_details opened_world
      = Some (OK, w')
      ∧ frameDetails (impl w') = depth_ir_details
      ∧ Z.of_nat (List.length (videoBuffers (impl w')))
        = nVideoBuffers (impl w')
      ∧ 0 ≤ nVideoBuffers (impl w') < 2^32
      ∧ (∀ i, 0 ≤ i < nVideoBuffers (impl w') →
              b_start (buffer_at (impl w') i) ≠ MAP_FAILED)
      ∧ ∃ t rest,
          let request := sys_ioctl 3 (VIDIOC_REQBUFS 4) in
          let granted := granting_driver t request in
          (∃ sent, t = trace opened_world ++ sent)
          ∧ trace w'
            = t ++ Call request
                :: Call (sys_calloc (nVideoBuffers (impl w'))) :: rest
          ∧ ret granted ≠ -1
          ∧ nVideoBuffers (impl w') = u32 (out_count granted).
Proof.
  split; [reflexivity|].
  eexists.
  match goal with
  | |- ?run ∧ _ => assert run as Hrun by (vm_compute; reflexivity)
  end.
  split; [exact Hrun|].
  exact (setFrameType_success_maps_every_buffer granting_driver 0 fieldwise_ne
           depth_ir_details opened_world _ eq_refl Hrun).
Defined.

(** The destructor on the two-buffer session with a driver that fails
    the second [munmap], and on the session a [setFrameType] leaves when
    the driver refuses the new format after the table was released. *)
Lemma destroy_releases_two_buffers :
  let w := two_buffer_world false in
  let pool := [mk_buffer 4096 921600; mk_buffer 8192 921600] in
  let refused :=
    mk_World (mk_ImplData 3 4 pool 0 (mk_plane 921600 0) depth_ir_details
                false) 19
      [Call (sys_munmap 4096 921600); Call (sys_munmap 8192 921600);
       Call sys_free; Call (sys_ioctl 3 (VIDIOC_S_FMT 668 750));
       Log WARNING "Setting Pixel Format error"] in
  (table_state unmap_failing_driver w ≠ table_freed
   ∧ ∃ w', destroy unmap_failing_driver 0 w = Some (tt, w')
           ∧ calls_of (trace w')
             = calls_of (trace w) ++ unmap_calls (impl w) 0
               ++ [sys_free; sys_close (fd (impl w));
                   sys_close (sfd (impl w))])
  ∧ setFrameType failing_driver 0 fieldwise_ne raw_details w
    = Some (GENERIC_ERROR, refused)
  ∧ table_state failing_driver refused = table_freed
  ∧ destroy failing_driver 0 refused = None.
Proof.
  intros w pool refused.
  assert (0 ≤ nVideoBuffers (impl w) < 2^32) as Hn by (simpl; lia).
  assert (0 ≤ nVideoBuffers (impl refused) < 2^32) as Hn' by (simpl; lia).
  assert (table_state unmap_failing_driver w ≠ table_freed) as Hlive
    by discriminate.
  assert (table_state failing_driver refused = table_freed) as Hfreed
    by reflexivity.
  split; [split; [exact Hlive|]|split; [vm_compute; reflexivity|split]].
  - exact (proj1 (destroy_releases_everything unmap_failing_driver 0 w
                    eq_refl Hn) Hlive).
  - exact Hfreed.
  - exact (proj2 (destroy_releases_everything failing_driver 0 refused
                    eq_refl Hn') Hfreed).
Defined.

(** A firmware of 5000 bytes: two packets. *)
Lemma program_sends_two_chunks :
  0 ≤ 5000 ≤ 2^64 - CTRL_PACKET_SIZE
  ∧ ∃ w', program granting_driver 0 2 sample_plane 5000 opened_world
          = Some (OK, w')
          ∧ impl w' = impl opened_world
          ∧ calls_of (trace w')
            = calls_of (trace opened_world)
              ++ map (λ p, sys_ioctl (sfd (impl opened_world))
                             (VIDIOC_S_EXT_CTRLS
                                V4L2_CID_AD_DEV_SET_CHIP_CONFIG (2048 * 2) p))
                     (program_packets sample_plane 5000).
Proof.
  assert (0 ≤ 5000 ≤ 2^64 - CTRL_PACKET_SIZE) as Hsize
    by (unfold CTRL_PACKET_SIZE; lia).
  split; [exact Hsize|].
  apply (program_sends_every_chunk granting_driver 0 2 sample_plane 5000
           opened_world granting_driver_accepts_packets Hsize).
  vm_compute. lia.
Defined.

(** 2048 registers: two full packets. *)
Lemma writeAfeRegisters_sends_two_packets :
  ∃ w', writeAfeRegisters granting_driver 0 2 (λ j, j) (λ j, 2 * j)
          (1024 * 2) opened_world
        = Some (OK, w')
        ∧ impl w' = impl opened_world
        ∧ calls_of (trace w')
          = calls_of (trace opened_world)
            ++ map (λ k, sys_ioctl (sfd (impl opened_world))
                           (VIDIOC_S_EXT_CTRLS V4L2_CID_AD_DEV_SET_CHIP_CONFIG
                              (2048 * 2)
                              (afe_packet (λ j, j) (λ j, 2 * j)
                                          (u16 (1024 * k)) 1024)))
                   (seqZ 0 2).
Proof.
  apply (writeAfeRegisters_sends_full_packets granting_driver 0 2
           (λ j, j) (λ j, 2 * j) 2 opened_world
           granting_driver_accepts_packets); [lia | lia |].
  vm_compute. lia.
Defined.

(** 1500 registers: the second packet is partial and the loop goes on. *)
Lemma writeAfeRegisters_1500_registers_never_returns :
  0 ≤ 1500 < 2^64 ∧ 1500 mod 1024 ≠ 0
  ∧ writeAfeRegisters granting_driver 0 5 (λ j, j) (λ j, 2 * j) 1500
      opened_world
    = None.
Proof.
  assert (0 ≤ 1500 < 2^64) as Hlen by lia.
  assert (1500 mod 1024 ≠ 0) as Hmod by discriminate.
  split; [exact Hlen|]. split; [exact Hmod|].
  exact (writeAfeRegisters_partial_packet_never_returns granting_driver 0 5
           (λ j, j) (λ j, 2 * j) 1500 opened_world
           granting_driver_accepts_packets Hlen Hmod).
Defined.

(** Three registers read from a driver that answers each request with
    the register address plus 1000, stored through the pointer. *)
Lemma readAfeRegisters_reads_three_cells :
  let stored (t : list event) (a : Z → Z) : Z → Z :=
    <[ Z.of_nat (List.length t) - 1 :=
         a (Z.of_nat (List.length t) - 1) + 1000 ]> a in
  0 ≤ 3 < 2^64
  ∧ ∃ a' d' w',
      readAfeRegisters granting_driver 0 stored (λ j, 100 + j) (λ _, 0) 3
        opened_world
      = Some ((OK, a', d'), w')
      ∧ impl w' = impl opened_world
      ∧ List.length (trace w') = 3%nat
      ∧ (∀ j, ¬ (0 ≤ j < 3) → d' j = 0)
      ∧ d' 0 = 1100 ∧ d' 1 = 1101 ∧ d' 2 = 1102.
Proof.
  intros stored.
  assert (0 ≤ 3 < 2^64) as Hlen by lia.
  split; [exact Hlen|].
  destruct (readAfeRegisters_fills_exactly_len_cells granting_driver 0
              stored (λ j, 100 + j) (λ _, 0) 3 opened_world
              granting_driver_accepts_packets Hlen)
    as (d' & w' & Hrun & Himpl & Htrace & Hout & Hin & _).
  eexists. exists d', w'.
  split; [exact Hrun|]. split; [exact Himpl|].
  split; [rewrite Htrace; reflexivity|].
  split; [exact Hout|].
  rewrite (Hin 0), (Hin 1), (Hin 2) by lia.
  repeat split; reflexivity.
Defined.

(** Three registers asked from a driver that refuses the first request. *)
Lemma readAfeRegisters_refused_stays_in_range :
  0 ≤ 3 < 2^64
  ∧ ∃ st a' d' w',
      readAfeRegisters failing_driver 0 (λ _ a, a) (λ j, 100 + j) (λ _, 0) 3
        opened_world
      = Some ((st, a', d'), w')
      ∧ impl w' = impl opened_world
      ∧ (∀ j, ¬ (0 ≤ j < 3) → d' j = 0)
      ∧ (st = OK ∨ st = GENERIC_ERROR)
      ∧ (st = GENERIC_ERROR →
         ∃ t, trace w' = t ++ [Log WARNING "Programming AFE error"]).
Proof.
  assert (0 ≤ 3 < 2^64) as Hlen by lia.
  split; [exact Hlen|].
  eexists. eexists. eexists. eexists.
  match goal with
  | |- ?run ∧ _ => assert run as Hrun by (vm_compute; reflexivity)
  end.
  split; [exact Hrun|].
  exact (readAfeRegisters_stays_in_range failing_driver 0
           (λ _ a, a) (λ j, 100 + j) (λ _, 0) 3 opened_world _ _ _ _
           Hlen Hrun).
Defined.

(** ** The device names of [open] *)



Lemma getline_delimiter_free a :
  has_delimiter a = false →
  getline a = (a, None)
  ∧ ∀ rest, getline (String.append a (String delimiter rest))
            = (a, Some rest).
Proof.
  induction a as [|c a IH]; cbn [has_delimiter]; intros H.
  - split; [reflexivity|]. intros rest. cbn [String.append getline].
    rewrite Ascii.eqb_refl. reflexivity.
  - apply orb_false_elim in H as [Hc Ha]. destruct (IH Ha) as [H1 H2].
    split; [|intros rest]; cbn [String.append getline];
      rewrite Hc, ?H1, ?H2; reflexivity.
Qed.




Lemma open_paths_single b fuel paths :
  has_delimiter b = false → b ≠ EmptyString →
  open_paths (S fuel) b paths = paths ++ [b].
Proof.
  intros Hb Hne. cbn [open_paths]. destruct b as [|c b]; [contradiction|].
  destruct (getline_delimiter_free (String c b) Hb) as [-> _]. reflexivity.
Qed.

(** X19: on a driver path [device;sub] (neither part holding a [';'],
    [sub] not empty) [open] takes [device] as the capture device and [sub]
    as the sub-device; on a path holding no [';'] it takes the same name
    for both. *)
Theorem open_device_names (device sub : string) :
  has_delimiter device = false →
  has_delimiter sub = false → sub ≠ EmptyString →
  let driverPath := String.append device (String delimiter sub) in
  devName driverPath = Some device
  ∧ subDevName driverPath = Some sub
  ∧ devName sub = Some sub
  ∧ subDevName sub = Some sub.
Proof.
  intros Hdevice Hsub Hne driverPath.
  assert (driver_paths sub = [sub]) as Hone.
  { unfold driver_paths. destruct sub as [|c sub]; [contradiction|].
    cbn [String.length]. by rewrite open_paths_single. }
  assert (driver_paths driverPath = [device; sub]) as Htwo.
  { unfold driver_paths.
    destruct (getline_delimiter_free device Hdevice) as [_ Hg].
    specialize (Hg sub). fold driverPath in Hg.
    destruct driverPath as [|c rest] eqn:Hpath.
    { destruct device; discriminate. }
    cbn [String.length open_paths]. rewrite Hg.
    assert (∃ n, String.length rest = S n) as [n ->].
    { assert (String.length rest ≠ 0)%nat; [|destruct (String.length rest);
        [contradiction | eauto]].
      destruct device as [|d device]; simpl in Hpath.
      - injection Hpath as _ <-. destruct sub; [contradiction | discriminate].
      - injection Hpath as _ <-. destruct device; discriminate. }
    by rewrite open_paths_single. }
  unfold devName, subDevName. rewrite Hone, Htwo. auto.
Qed.

(** The two nodes of the camera, and a path naming a single node. *)
Lemma open_device_names_video0_subdev0 :
  let device := "/dev/video0"%string in
  let sub := "/dev/v4l-subdev0"%string in
  has_delimiter device = false ∧ has_delimiter sub = false
  ∧ devName "/dev/video0;/dev/v4l-subdev0" = Some device
  ∧ subDevName "/dev/video0;/dev/v4l-subdev0" = Some sub
  ∧ devName sub = Some sub
  ∧ subDevName sub = Some sub.
Proof.
  intros device sub.
  assert (sub ≠ EmptyString) as Hne by discriminate.
  split; [reflexivity|]. split; [reflexivity|].
  exact (open_device_names device sub eq_refl eq_refl Hne).
Defined.
